(** * AI Privacy Guard Pro: policy decision engine and router state machine

    A shallow embedding of the service worker (background.js), of the shared
    helpers (utils.js) and of the in-page router (content.js), followed by
    the properties of the specification that were checked against them.

    Conventions of the embedding:
    - JavaScript numbers that the code uses as integers (weights, risks,
      tab ids, millisecond timestamps) are [Z];
    - an object field that the code reads through [x || default] is an
      [option]: [None] is the absent (undefined) field;
    - [Map] objects keyed by strings are [gmap string _];
    - objects used as small dictionaries ([sensitiveFields],
      [sensitiveFieldWeights]) are [gmap string Z];
    - what the browser supplies (URL parsing, SHA-256, UUIDs) is an
      interface, class [Browser];
    - a handler reads the clock once: the reading is its argument [now];
    - a handler runs to completion before the next event is handled: what
      two handlers in flight can do to each other across an [await] (the
      read, push and write-back of [appendLog], for one) is not modelled,
      and no property below is stated about it. *)

From Stdlib Require Import ZArith Lia Bool Ascii String List.
From stdpp Require Import base option gmap strings list fin_maps pretty.

Local Open Scope Z_scope.
Local Open Scope string_scope.

(** ** JavaScript string primitives used by the sources *)

Module JS.

(** [String.prototype.toLowerCase], on the ASCII range. *)
Definition lower_ascii (c : ascii) : ascii :=
  let n := nat_of_ascii c in
  if (Nat.leb 65 n && Nat.leb n 90)%bool then ascii_of_nat (n + 32) else c.

Fixpoint toLowerCase (s : string) : string :=
  match s with
  | EmptyString => EmptyString
  | String c r => String (lower_ascii c) (toLowerCase r)
  end.

(** White space removed by [String.prototype.trim] (ASCII range). *)
Definition is_ws (c : ascii) : bool :=
  let n := nat_of_ascii c in
  (Nat.eqb n 32 || (Nat.leb 9 n && Nat.leb n 13))%bool.

Fixpoint dropWhile (p : ascii -> bool) (s : string) : string :=
  match s with
  | EmptyString => EmptyString
  | String c r => if p c then dropWhile p r else s
  end.

Definition dropWhileEnd (p : ascii -> bool) (s : string) : string :=
  String.rev (dropWhile p (String.rev s)).

Definition trim (s : string) : string :=
  dropWhileEnd is_ws (dropWhile is_ws s).

(** [s.startsWith(p)], [s.endsWith(p)], [s.includes(p)]. *)
Fixpoint startsWith (p s : string) : bool :=
  match p, s with
  | EmptyString, _ => true
  | String _ _, EmptyString => false
  | String a p', String b s' => (Ascii.eqb a b && startsWith p' s')%bool
  end.

Definition endsWith (s p : string) : bool :=
  startsWith (String.rev p) (String.rev s).

Fixpoint includes (s p : string) : bool :=
  (startsWith p s ||
   match s with
   | EmptyString => false
   | String _ r => includes r p
   end)%bool.

(** The truth value of a string: only the empty string is falsy. *)
Definition truthy (s : string) : bool :=
  match s with EmptyString => false | _ => true end.

(** [x || 0] and [x || d] on an optional number: absent and 0 are falsy. *)
Definition num_or (d : Z) (x : option Z) : Z :=
  match x with
  | Some v => if Z.eqb v 0 then d else v
  | None => d
  end.

(** [x || d] on an optional string. *)
Definition str_or (d : string) (x : option string) : string :=
  match x with
  | Some v => if truthy v then v else d
  | None => d
  end.

(** A regular-expression word character, [\w]. *)
Definition is_word (c : ascii) : bool :=
  let n := nat_of_ascii c in
  ((Nat.leb 48 n && Nat.leb n 57) || (Nat.leb 65 n && Nat.leb n 90)
   || (Nat.leb 97 n && Nat.leb n 122) || Nat.eqb n 95)%bool.

(** The position just after the match is a word boundary, for a match
    that ends in a word character. *)
Definition boundary_after (rest : string) : bool :=
  match rest with
  | EmptyString => true
  | String c _ => negb (is_word c)
  end.

Fixpoint drop (n : nat) (s : string) : string :=
  match n, s with
  | O, _ => s
  | S _, EmptyString => EmptyString
  | S n', String _ r => drop n' r
  end.

(** [w] occurs in [s] at some position whose left neighbour satisfies
    [left_ok] ([prev] is the character before the current position) and
    which is followed by a word boundary. *)
Fixpoint find_bounded (left_ok : option ascii -> bool) (w : string)
         (prev : option ascii) (s : string) : bool :=
  ((left_ok prev && startsWith w s && boundary_after (drop (String.length w) s))
   || match s with
      | EmptyString => false
      | String c r => find_bounded left_ok w (Some c) r
      end)%bool.

(** [/\bw\b/.test(s)] for a word [w] made of word characters. *)
Definition test_word (w s : string) : bool :=
  find_bounded (fun p => match p with None => true | Some c => negb (is_word c) end)
               w None s.

(** [/w\b/.test(s)] for [w] ending in a word character. *)
Definition test_suffix_word (w s : string) : bool :=
  find_bounded (fun _ => true) w None s.

End JS.

(** ** The browser interface *)

Record URL := { protocol : string; hostname : string }.

(** [parseURL s] is [new URL(s)]: [None] when the constructor throws.
    [sha256] is the hexadecimal SHA-256 digest of utils.js (computed by
    [crypto.subtle]); [randomUUID] is what [crypto.randomUUID()] returns. *)
Class Browser := {
  parseURL : string -> option URL;
  sha256 : string -> string;
  randomUUID : string
}.

(** ** Data model *)

Record Profile := {
  id : string;
  allowList : option (list string);
  blockList : option (list string);
  trackUsers : option string;
  trackPrompts : option string;
  requireAdminPinAboveThreshold : bool;
  riskThreshold : option Z;
  sensitiveFieldWeights : option (gmap string Z);
  aiOnPageWeight : option Z;
  aiDomainWeight : option Z;
  internalSiteWeight : option Z
}.

Record Rules := {
  selectedProfileId : option string;
  profiles : option (list Profile);
  adminPin : option string
}.

(** The classification context built for one decision. *)
Record Context := {
  isAiDomain : bool;
  aiUiSignals : list string;
  sensitiveFields : gmap string Z;
  isInternalSite : bool;
  blocklisted : bool
}.

(** ** utils.js *)

Module Utils.

(** One iteration of the loop over the sensitive-field categories. *)
Definition addSensitive (ctx : Context) (sw : gmap string Z) (score : Z) (k : string) : Z :=
  let present := JS.num_or 0 (sensitiveFields ctx !! k) in
  if Z.ltb 0 present then score + JS.num_or 0 (sw !! k) else score.

Definition computeRiskScore (ctx : Context) (profile : Profile) : Z :=
  let sw := default ∅ (sensitiveFieldWeights profile) in
  let aiOnPageW := JS.num_or 0 (aiOnPageWeight profile) in
  let aiDomainW := JS.num_or 0 (aiDomainWeight profile) in
  let internalW := JS.num_or 0 (internalSiteWeight profile) in
  let score := 0 in
  let score := if isAiDomain ctx then score + aiDomainW else score in
  let score := if Nat.ltb 0 (length (aiUiSignals ctx)) then score + aiOnPageW else score in
  let score := if isInternalSite ctx then score + internalW else score in
  let score := fold_left (addSensitive ctx sw) ["password"; "email"; "credit"; "id"] score in
  Z.min 100 score.

Section WithBrowser.
Context `{Browser}.

Definition isInternal (url : string) : bool :=
  match parseURL url with
  | Some u =>
      (JS.test_word "corp" (hostname u) || JS.test_word "intranet" (hostname u)
       || JS.test_word "internal" (hostname u)
       || JS.test_suffix_word ".local" (hostname u))%bool
  | None => false
  end.
End WithBrowser.

End Utils.

(** ** background.js: the policy decision engine *)

Module Engine.

(** *** Tunables *)

Definition OPEN_COOLDOWN_MS : Z := 5000.
Definition CONSENT_TTL_MS : Z := 10 * 60 * 1000.

(** *** Messages, log entries and engine state *)

(** A value of [consentMap]. *)
Record Consent := { allowedUntil : Z }.

(** What a tab-id argument can be: [tabId == null] holds of the first two. *)
Inductive TabId :=
| TabNull
| TabUndefined
| TabNum (n : Z).

(** The [OPEN_ROUTER] payload. *)
Record Directive := {
  reason : string;
  context : Context;
  risk : Z;
  profileId : string
}.

Inductive TabMessage :=
| OPEN_ROUTER (d : Directive)
| RULES_UPDATED.

(** The objects handed to [appendLog], one constructor per [kind]. *)
Inductive LogEntry :=
| policy_reprompt (tabUrl : string) (risk : Z) (profileId host : string)
| domain_detected (tabUrl : string) (risk : Z) (profileId host : string) (blocked : bool)
| ui_detected_suppressed (pageUrl host : string)
| ui_detected (pageUrl host : string) (signals : list string)
              (sensitive : gmap string Z) (risk : Z) (profileId : string)
              (blocklisted : bool)
| router_decision (decision reason : string) (tabUrl : option string)
                  (risk : Z) (profileId : string) (pinVerified : bool)
| prompt (mode pageUrl : string) (length : nat)
         (hash : option string) (text : option string).

(** The stored record: [{ ts, userRole, userId, ...entry }]; [ts] is the
    clock reading that [toISOString] prints. *)
Record LogRecord := {
  ts : Z;
  userRole : string;
  userId : string;
  entry : LogEntry
}.

(** [chrome.storage.local], the keys the engine touches. *)
Record Storage := {
  st_rules : option Rules;
  st_customDomains : option (list string);
  st_logs : list LogRecord;
  st_userRole : option string;
  st_userId : option string
}.

(** Helper invocations made by a handler, recorded for the specification
    only: no definition below reads this history. *)
Inductive Call :=
| Scored (ctx : Context) (score : Z)
| Admission (tabId : TabId) (host : string) (granted : bool).

Record State := {
  aiDomainsCache : list string;
  rulesCache : option Rules;
  lastOpenMap : gmap string Z;
  consentMap : gmap string Consent;
  storage : Storage;
  (** messages passed to [chrome.tabs.sendMessage], oldest first *)
  outbox : list (Z * TabMessage);
  history : list Call
}.

Definition set_rulesCache (r : option Rules) (s : State) : State :=
  {| aiDomainsCache := aiDomainsCache s; rulesCache := r;
     lastOpenMap := lastOpenMap s; consentMap := consentMap s;
     storage := storage s; outbox := outbox s; history := history s |}.

Definition set_aiDomainsCache (d : list string) (s : State) : State :=
  {| aiDomainsCache := d; rulesCache := rulesCache s;
     lastOpenMap := lastOpenMap s; consentMap := consentMap s;
     storage := storage s; outbox := outbox s; history := history s |}.

Definition set_lastOpenMap (m : gmap string Z) (s : State) : State :=
  {| aiDomainsCache := aiDomainsCache s; rulesCache := rulesCache s;
     lastOpenMap := m; consentMap := consentMap s;
     storage := storage s; outbox := outbox s; history := history s |}.

Definition set_consentMap (m : gmap string Consent) (s : State) : State :=
  {| aiDomainsCache := aiDomainsCache s; rulesCache := rulesCache s;
     lastOpenMap := lastOpenMap s; consentMap := m;
     storage := storage s; outbox := outbox s; history := history s |}.

Definition set_storage (g : Storage) (s : State) : State :=
  {| aiDomainsCache := aiDomainsCache s; rulesCache := rulesCache s;
     lastOpenMap := lastOpenMap s; consentMap := consentMap s;
     storage := g; outbox := outbox s; history := history s |}.

Definition send (tab : Z) (m : TabMessage) (s : State) : State :=
  {| aiDomainsCache := aiDomainsCache s; rulesCache := rulesCache s;
     lastOpenMap := lastOpenMap s; consentMap := consentMap s;
     storage := storage s; outbox := outbox s ++ [(tab, m)];
     history := history s |}.

Definition record (c : Call) (s : State) : State :=
  {| aiDomainsCache := aiDomainsCache s; rulesCache := rulesCache s;
     lastOpenMap := lastOpenMap s; consentMap := consentMap s;
     storage := storage s; outbox := outbox s;
     history := history s ++ [c] |}.

(** *** Helpers *)

Definition getActiveProfileSync (rulesObj : option Rules) : option Profile :=
  match rulesObj with
  | None => None
  | Some r =>
      let selectedId := JS.str_or "confirm" (selectedProfileId r) in
      match profiles r with
      | None => None
      | Some ps =>
          match List.find (fun p => String.eqb (id p) selectedId) ps with
          | Some p => Some p
          | None => head ps
          end
      end
  end.

(** [s.replace(/^\.+|\.+$/g, "")] *)
Definition stripDots (s : string) : string :=
  JS.dropWhileEnd (Ascii.eqb ".") (JS.dropWhile (Ascii.eqb ".") s).

(** [Date.now()]-free part of the dedup key, [`${tabId}|${host}`]. *)
Definition cacheKey (n : Z) (host : string) : string :=
  pretty n +:+ "|" +:+ host.

Section WithBrowser.
Context `{Browser}.

Definition hostFromUrl (url : string) : string :=
  match parseURL url with
  | Some u => JS.toLowerCase (hostname u)
  | None => ""
  end.

Definition isHttpUrl (url : string) : bool :=
  match parseURL url with
  | Some u => (String.eqb (protocol u) "http:" || String.eqb (protocol u) "https:")%bool
  | None => false
  end.

(** List entries are strings here, so the [typeof] guard never fires. *)
Definition normalizeHostEntry (input : string) : string :=
  let s := JS.trim input in
  if negb (JS.truthy s) then ""
  else if JS.includes s "://" then
    match parseURL s with
    | Some u => JS.toLowerCase (hostname u)
    | None => JS.toLowerCase input
    end
  else JS.toLowerCase (stripDots s).

Definition hostMatchesEntry (host entry : string) : bool :=
  let h := JS.toLowerCase host in
  let e := normalizeHostEntry entry in
  if (negb (JS.truthy h) || negb (JS.truthy e))%bool then false
  else (String.eqb h e || JS.endsWith h ("." +:+ e))%bool.

Definition isHostInList (host : string) (l : list string) : bool :=
  let h := JS.toLowerCase host in
  existsb (fun e => hostMatchesEntry h e) l.

Definition isAiDomainHost (s : State) (host : string) : bool :=
  isHostInList host (aiDomainsCache s).
End WithBrowser.

(** The admission test; [now] is the value of [Date.now()]. *)
Definition shouldOpenRouter (now : Z) (tabId : TabId) (host : string)
           (s : State) : bool * State :=
  match tabId with
  | TabNull | TabUndefined => (false, s)
  | TabNum n =>
      if negb (JS.truthy host) then (false, s)
      else
        let key := cacheKey n host in
        (* Respect recent consent (Proceed) *)
        let consent := consentMap s !! key in
        if match consent with
           | Some c => Z.ltb now (allowedUntil c)
           | None => false
           end
        then (false, s)
        else
          (* Anti-dup cooldown *)
          let last := JS.num_or 0 (lastOpenMap s !! key) in
          if Z.ltb (now - last) OPEN_COOLDOWN_MS then (false, s)
          else (true, set_lastOpenMap (<[key := now]> (lastOpenMap s)) s)
  end.

Definition shouldPromptForProfile (profile : option Profile) (isBlocklisted : bool) : bool :=
  match profile with
  | None => true
  | Some p => if String.eqb (id p) "allow" then isBlocklisted else true
  end.

(** *** Inputs of a handler run *)

(** Outcome of the first [chrome.tabs.sendMessage] attempt of
    [safeOpenRouter]: delivered, "Receiving end does not exist", or any
    other [chrome.runtime.lastError]. *)
Inductive SendResult :=
| Delivered
| NoReceiver
| OtherError.

(** What one run of a handler observes of its environment: the clock, the
    packaged JSON files as fetched by [ensureBoot] ([None]: a fetch failed),
    and the outcome of its first delivery attempt. *)
Record Env := {
  now : Z;
  packaged : option (Rules * list string);
  firstAttempt : SendResult
}.

Record Tab := {
  tab_id : option Z;
  tab_url : option string
}.

(** [Array.from(new Set(l))]: first occurrences, in order. *)
Fixpoint uniq_go (seen : list string) (l : list string) : list string :=
  match l with
  | [] => []
  | x :: r =>
      if existsb (String.eqb x) seen then uniq_go seen r
      else x :: uniq_go (x :: seen) r
  end.

Definition uniq (l : list string) : list string := uniq_go [] l.

Section Handlers.
Context `{Browser}.

Definition set_logs (l : list LogRecord) (uid : option string) (g : Storage) : Storage :=
  {| st_rules := st_rules g; st_customDomains := st_customDomains g;
     st_logs := l; st_userRole := st_userRole g; st_userId := uid |}.

Definition set_rules (r : option Rules) (g : Storage) : Storage :=
  {| st_rules := r; st_customDomains := st_customDomains g;
     st_logs := st_logs g; st_userRole := st_userRole g; st_userId := st_userId g |}.

(** utils.js [appendLog], with [getOrCreateUserId] inlined: a missing (or
    empty) user id is replaced by a fresh UUID, which is stored. This is
    one call run on its own, from the read of the stored log to its
    write-back. *)
Definition appendLog (now : Z) (e : LogEntry) (s : State) : State :=
  let g := storage s in
  let uid := match st_userId g with
             | Some u => if JS.truthy u then u else randomUUID
             | None => randomUUID
             end in
  let payload := {| ts := now; userRole := JS.str_or "" (st_userRole g);
                    userId := uid; entry := e |} in
  set_storage (set_logs (st_logs g ++ [payload]) (Some uid) g) s.

Definition ensureBoot (fetched : option (Rules * list string)) (s : State) : State :=
  match fetched with
  | None => s
  | Some (defaults, packagedDomains) =>
      let s := match st_rules (storage s) with
               | None => set_rulesCache (Some defaults)
                           (set_storage (set_rules (Some defaults) (storage s)) s)
               | Some rules => set_rulesCache (Some rules) s
               end in
      let customDomains := default [] (st_customDomains (storage s)) in
      set_aiDomainsCache (uniq (customDomains ++ packagedDomains)) s
  end.

(** [const { rules } = await getLocal(["rules"]); if (rules) rulesCache = rules;] *)
Definition refreshRules (s : State) : State :=
  match st_rules (storage s) with
  | Some rules => set_rulesCache (Some rules) s
  | None => s
  end.

Definition safeOpenRouter (env : Env) (tabId : Z) (tabUrl : string)
           (payload : TabMessage) (s : State) : State :=
  if (negb (JS.truthy tabUrl) || negb (isHttpUrl tabUrl))%bool then s
  else
    (* Attempt #1 *)
    let s := send tabId payload s in
    match firstAttempt env with
    | Delivered => s
    | NoReceiver => send tabId payload s   (* retry once *)
    | OtherError => s
    end.

Definition blockReason (block : bool) (otherwise : string) : string :=
  if block then "This site is blocked by policy" else otherwise.

(** *** Immediate re-evaluation after a policy change: one tab *)

(** The body of the loop of [forceReevaluateAndPrompt]; an exception (no
    active profile) skips the tab. *)
Definition reevaluateTab (profile : option Profile) (s : State) (te : Tab * Env) : State :=
  let '(t, env) := te in
  match tab_id t, tab_url t with
  | Some tid, Some url =>
      if (Z.eqb tid 0 || negb (JS.truthy url) || negb (isHttpUrl url))%bool then s
      else
        let host := hostFromUrl url in
        if (negb (JS.truthy host) || negb (isAiDomainHost s host))%bool then s
        else
          match profile with
          | None => s
          | Some profile =>
              let allow := isHostInList host (default [] (allowList profile)) in
              let block := isHostInList host (default [] (blockList profile)) in
              if allow then s   (* explicitly allowed -> no prompt *)
              else
                let ctx := {| isAiDomain := true; aiUiSignals := [];
                              sensitiveFields := ∅;
                              isInternalSite := Utils.isInternal url;
                              blocklisted := block |} in
                let risk := Utils.computeRiskScore ctx profile in
                let s := record (Scored ctx risk) s in
                let risk := if block then 100 else risk in
                let promptOk := shouldPromptForProfile (Some profile) block in
                if negb promptOk then s
                else
                  let '(ok, s) := shouldOpenRouter (now env) (TabNum tid) host s in
                  let s := record (Admission (TabNum tid) host ok) s in
                  if negb ok then s
                  else
                    let s := safeOpenRouter env tid url
                               (OPEN_ROUTER {| reason := blockReason block "AI domain detected";
                                               context := ctx; risk := risk;
                                               profileId := id profile |}) s in
                    appendLog (now env)
                      (policy_reprompt url risk (id profile) host) s
          end
  | _, _ => s
  end.

Definition forceReevaluateAndPrompt (tabs : list (Tab * Env)) (s : State) : State :=
  let s := refreshRules s in
  let profile := getActiveProfileSync (rulesCache s) in
  fold_left (reevaluateTab profile) tabs s.

(** *** Domain detection: [chrome.tabs.onUpdated] *)

Definition onTabUpdated (env : Env) (tabId : Z) (status : option string)
           (tab : option Tab) (s : State) : State :=
  let url := JS.str_or "" (tab ≫= tab_url) in
  if (negb (bool_decide (status = Some "complete")) || negb (JS.truthy url))%bool then s
  else if negb (isHttpUrl url) then s
  else
    let s := if Nat.eqb (length (aiDomainsCache s)) 0
             then ensureBoot (packaged env) s else s in
    let host := hostFromUrl url in
    let isAi := isAiDomainHost s host in
    if negb isAi then s
    else
      let s := refreshRules s in
      match getActiveProfileSync (rulesCache s) with
      | None => s   (* TypeError, caught and logged to the console *)
      | Some profile =>
          let allow := isHostInList host (default [] (allowList profile)) in
          let block := isHostInList host (default [] (blockList profile)) in
          if allow then s
          else
            let ctx := {| isAiDomain := true; aiUiSignals := [];
                          sensitiveFields := ∅;
                          isInternalSite := Utils.isInternal url;
                          blocklisted := block |} in
            let risk := Utils.computeRiskScore ctx profile in
            let s := record (Scored ctx risk) s in
            let risk := if block then 100 else risk in   (* Blocklist override *)
            let promptOk := shouldPromptForProfile (Some profile) block in
            if negb promptOk then s
            else
              let '(ok, s) := shouldOpenRouter (now env) (TabNum tabId) host s in
              let s := record (Admission (TabNum tabId) host ok) s in
              if negb ok then s
              else
                let s := safeOpenRouter env tabId url
                           (OPEN_ROUTER {| reason := blockReason block "AI domain detected";
                                           context := ctx; risk := risk;
                                           profileId := id profile |}) s in
                appendLog (now env)
                  (domain_detected url risk (id profile) host block) s
      end.

(** *** Message hub: [chrome.runtime.onMessage] *)

(** The [ROUTER_DECISION] message sent by the page. *)
Record Decision := {
  decision : string;
  d_reason : string;
  d_tabUrl : option string;
  d_risk : Z;
  d_profileId : string;
  d_pinVerified : option bool;
  redirectedTo : option string
}.

Inductive Message :=
| AI_UI_DETECTED (pageUrl : option string) (signals : option (list string))
                 (sensitive : option (gmap string Z))
                 (isAiDomainFromContent : option bool)
| ROUTER_DECISION (d : Decision)
| PROMPT_ACTIVITY (text : option string) (tabUrl : option string)
| REQUEST_AI_DOMAINS
| GET_PROFILE
| OTHER_MESSAGE.

(** The argument of [sendResponse]; [Ok b] is [{ ok: true }] with
    [suppressed: true] when [b]. *)
Inductive Response :=
| Ok (suppressed : bool)
| Failed
| Domains (l : list string)
| ActiveProfile (p : option Profile).

Definition senderUrl (sender : option Tab) : option string := sender ≫= tab_url.

Definition onAiUiDetected (env : Env) (sender : option Tab)
           (pageUrl : option string) (signals : option (list string))
           (sensitive : option (gmap string Z))
           (isAiDomainFromContent : option bool) (s : State)
  : option Response * State :=
  let pageUrl := JS.str_or (JS.str_or "" (senderUrl sender)) pageUrl in
  if negb (isHttpUrl pageUrl) then (Some (Ok true), s)
  else
    let host := hostFromUrl pageUrl in
    let s := refreshRules s in
    match getActiveProfileSync (rulesCache s) with
    | None => (Some Failed, s)
    | Some profile =>
        let allow := isHostInList host (default [] (allowList profile)) in
        let block := isHostInList host (default [] (blockList profile)) in
        if allow then
          let s := appendLog (now env) (ui_detected_suppressed pageUrl host) s in
          (Some (Ok true), s)
        else
          let isAi := match isAiDomainFromContent with
                      | Some b => b
                      | None => isAiDomainHost s host
                      end in
          let ctx := {| isAiDomain := isAi; aiUiSignals := default [] signals;
                        sensitiveFields := default ∅ sensitive;
                        isInternalSite := Utils.isInternal pageUrl;
                        blocklisted := block |} in
          let risk := Utils.computeRiskScore ctx profile in
          let s := record (Scored ctx risk) s in
          let risk := if block then 100 else risk in   (* Blocklist override *)
          let promptOk := shouldPromptForProfile (Some profile) block in
          if negb promptOk then (Some (Ok true), s)
          else
            let tid := default (-1) (sender ≫= tab_id) in
            let '(ok, s) := shouldOpenRouter (now env) (TabNum tid) host s in
            let s := record (Admission (TabNum tid) host ok) s in
            if negb ok then (Some (Ok true), s)
            else
              match sender ≫= tab_id with
              | None => (Some Failed, s)   (* no tab to address: caught *)
              | Some tabId =>
                  let s := safeOpenRouter env tabId pageUrl
                             (OPEN_ROUTER {| reason := blockReason block "In‑app AI detected";
                                             context := ctx; risk := risk;
                                             profileId := id profile |}) s in
                  let s := appendLog (now env)
                             (ui_detected pageUrl host (take 5 (default [] signals))
                                (default ∅ sensitive) risk (id profile) block) s in
                  (Some (Ok false), s)
              end
    end.

Definition onRouterDecision (env : Env) (sender : option Tab) (d : Decision)
           (s : State) : option Response * State :=
  let s := appendLog (now env)
             (router_decision (decision d) (d_reason d) (d_tabUrl d)
                (d_risk d) (d_profileId d) (default false (d_pinVerified d))) s in
  (* Grant consent window ONLY on Proceed *)
  let s :=
    if String.eqb (decision d) "proceed" then
      let host := hostFromUrl (JS.str_or "" (d_tabUrl d)) in
      match sender ≫= tab_id with
      | Some tid =>
          if JS.truthy host then
            let key := cacheKey tid host in
            set_consentMap
              (<[key := {| allowedUntil := now env + CONSENT_TTL_MS |}]> (consentMap s)) s
          else s
      | None => s
      end
    else s in
  (Some (Ok false), s).

Definition onPromptActivity (env : Env) (sender : option Tab)
           (text tabUrl : option string) (s : State) : option Response * State :=
  let pageUrl := JS.str_or (JS.str_or "" (senderUrl sender)) tabUrl in
  if negb (isHttpUrl pageUrl) then (Some (Ok false), s)
  else
    let s := refreshRules s in
    match getActiveProfileSync (rulesCache s) with
    | None => (Some Failed, s)
    | Some profile =>
        let mode := JS.str_or "off" (trackPrompts profile) in
        let txt := JS.str_or "" text in
        let hasText := JS.truthy txt in
        let e :=
          if (String.eqb mode "anonymized" && hasText)%bool then
            prompt mode pageUrl (String.length txt) (Some (sha256 txt)) None
          else if (String.eqb mode "full" && hasText)%bool then
            prompt mode pageUrl (String.length txt) None
                   (Some (String.substring 0 2000 txt))
          else prompt mode pageUrl (String.length txt) None None in
        (Some (Ok false), appendLog (now env) e s)
    end.

Definition onMessage (env : Env) (sender : option Tab) (msg : Message)
           (s : State) : option Response * State :=
  match msg with
  | AI_UI_DETECTED pageUrl signals sensitive fromContent =>
      onAiUiDetected env sender pageUrl signals sensitive fromContent s
  | ROUTER_DECISION d => onRouterDecision env sender d s
  | PROMPT_ACTIVITY text tabUrl => onPromptActivity env sender text tabUrl s
  | REQUEST_AI_DOMAINS =>
      let s := if Nat.eqb (length (aiDomainsCache s)) 0
               then ensureBoot (packaged env) s else s in
      (Some (Domains (aiDomainsCache s)), s)
  | GET_PROFILE =>
      let s := refreshRules s in
      (Some (ActiveProfile (getActiveProfileSync (rulesCache s))), s)
  | OTHER_MESSAGE => (None, s)
  end.

(** *** Live reaction to rule changes: [chrome.storage.onChanged] *)

(** [changes.rules], when present, with its [newValue]. *)
Record Changes := {
  ch_rules : option (option Rules);
  ch_customDomains : bool
}.

(** The synchronous part of the listener. *)
Definition onStorageChanged (area : string) (changes : Changes) (s : State) : State :=
  if negb (String.eqb area "local") then s
  else
    match ch_rules changes with
    | Some newValue =>
        (* Refresh cached rules immediately *)
        let s := set_rulesCache (match newValue with
                                 | Some r => Some r
                                 | None => rulesCache s
                                 end) s in
        (* Clear recent-router and consent windows *)
        let s := set_lastOpenMap ∅ s in
        set_consentMap ∅ s
    | None => s
    end.

(** One step of the broadcast loop of the [chrome.tabs.query] callback. *)
Definition notifyTab (s : State) (t : Tab) : State :=
  match tab_id t, tab_url t with
  | Some tid, Some url =>
      if (Z.eqb tid 0 || negb (JS.truthy url))%bool then s
      else if isHttpUrl url then send tid RULES_UPDATED s
      else s
  | _, _ => s
  end.

(** The [chrome.tabs.query] callback: broadcast, then re-evaluate. *)
Definition onTabsQueried (tabs : list (Tab * Env)) (s : State) : State :=
  let s := fold_left notifyTab (map fst tabs) s in
  forceReevaluateAndPrompt tabs s.

(** A whole policy change: the listener, then its callback (scheduled only
    when [changes.rules] is present on the local area). *)
Definition policyChanged (area : string) (changes : Changes)
           (tabs : list (Tab * Env)) (s : State) : State :=
  let s' := onStorageChanged area changes s in
  if (String.eqb area "local" && bool_decide (is_Some (ch_rules changes)))%bool
  then onTabsQueried tabs s'
  else s'.

(** The asynchronous recomputation started when [customDomains] changes;
    [fetched] is the packaged list ([None]: the fetch failed). *)
Definition onCustomDomainsChanged (fetched : option (list string)) (s : State) : State :=
  match fetched with
  | Some packagedDomains =>
      set_aiDomainsCache
        (uniq (default [] (st_customDomains (storage s)) ++ packagedDomains)) s
  | None => s
  end.

(** *** The engine as an event-driven process *)

(** The service worker runs one listener (or one continuation of a
    listener) at a time. *)
Inductive Event :=
| Boot
| TabUpdated (tabId : Z) (status : option string) (tab : option Tab)
| Incoming (sender : option Tab) (msg : Message)
| StorageChanged (area : string) (changes : Changes)
| TabsQueried (tabs : list (Tab * Env))
| CustomDomainsFetched (fetched : option (list string)).

Definition step (s : State) (ee : Env * Event) : State :=
  let '(env, ev) := ee in
  match ev with
  | Boot => ensureBoot (packaged env) s
  | TabUpdated tabId status tab => onTabUpdated env tabId status tab s
  | Incoming sender msg => (onMessage env sender msg s).2
  | StorageChanged area changes => onStorageChanged area changes s
  | TabsQueried tabs => onTabsQueried tabs s
  | CustomDomainsFetched fetched => onCustomDomainsChanged fetched s
  end.

Definition run (trace : list (Env * Event)) (s : State) : State :=
  fold_left step trace s.

End Handlers.

(** *** What a handler run added to the outbox and to the log *)

Definition newMessages (s s' : State) : list (Z * TabMessage) :=
  drop (length (outbox s)) (outbox s').

Definition newLogs (s s' : State) : list LogRecord :=
  drop (length (st_logs (storage s))) (st_logs (storage s')).

Definition directiveOf (m : Z * TabMessage) : option Directive :=
  match m.2 with
  | OPEN_ROUTER d => Some d
  | RULES_UPDATED => None
  end.

(** The [risk] field of a log entry, when its kind has one. *)
Definition logRisk (e : LogEntry) : option Z :=
  match e with
  | policy_reprompt _ r _ _ => Some r
  | domain_detected _ r _ _ _ => Some r
  | ui_detected _ _ _ _ r _ _ => Some r
  | router_decision _ _ _ r _ _ => Some r
  | ui_detected_suppressed _ _ => None
  | prompt _ _ _ _ _ => None
  end.

End Engine.

(** ** content.js: the in-page router *)

Module Router.

Import Engine.

(** One [.aipg-overlay] element together with the closure state of the
    [renderRouter] call that created it. *)
Record Overlay := {
  oid : nat;                 (* identity of the element *)
  payload : Directive;       (* reason, context, risk, profileId *)
  pinRequired : bool;
  adminShown : bool;         (* #aipg-admin and #aipg-note displayed *)
  pinInput : string;         (* value of #aipg-pin *)
  allowChecked : bool;       (* #aipg-allow-site *)
  blockChecked : bool        (* #aipg-block-site *)
}.

Record Page := {
  href : string;                     (* location.href *)
  suppress : bool;                   (* window.__AIPG_SUPPRESS_ROUTER__ *)
  routerOpen : bool;
  overlays : list Overlay;           (* document order *)
  shields : nat;                     (* blocking shields in the document *)
  nextId : nat;
  rules : option Rules;              (* chrome.storage.local, key rules *)
  approvedAiUrl : option string      (* chrome.storage.local, key approvedAiUrl *)
}.

(** What a step does to the outside of the page, in order. *)
Inductive Effect :=
| SendMessage (m : Message)          (* chrome.runtime.sendMessage *)
| StorageSet (r : Rules)             (* chrome.storage.local.set({ rules }) *)
| Alert (text : string)
| Navigate (url : string).

Inductive Event :=
| RecvOpenRouter (d : Directive)
| RecvRulesUpdated
| ProfileReply (i : nat) (profile : option Profile)   (* GET_PROFILE callback *)
| TypePin (i : nat) (value : string)
| CheckAllow (i : nat) (b : bool)
| CheckBlock (i : nat) (b : bool)
| ClickCancel (i : nat)
| ClickProceed (i : nat)
| ClickRedirect (i : nat)
| ClickClose (i : nat)                                 (* the close button, or Escape *)
| ClickShieldReturn.

Definition set_overlays (l : list Overlay) (p : Page) : Page :=
  {| href := href p; suppress := suppress p; routerOpen := routerOpen p;
     overlays := l; shields := shields p; nextId := nextId p;
     rules := rules p; approvedAiUrl := approvedAiUrl p |}.

Definition set_suppress (b : bool) (p : Page) : Page :=
  {| href := href p; suppress := b; routerOpen := routerOpen p;
     overlays := overlays p; shields := shields p; nextId := nextId p;
     rules := rules p; approvedAiUrl := approvedAiUrl p |}.

Definition set_shields (n : nat) (p : Page) : Page :=
  {| href := href p; suppress := suppress p; routerOpen := routerOpen p;
     overlays := overlays p; shields := n; nextId := nextId p;
     rules := rules p; approvedAiUrl := approvedAiUrl p |}.

Definition set_pageRules (r : option Rules) (p : Page) : Page :=
  {| href := href p; suppress := suppress p; routerOpen := routerOpen p;
     overlays := overlays p; shields := shields p; nextId := nextId p;
     rules := r; approvedAiUrl := approvedAiUrl p |}.

Definition getOverlay (i : nat) (p : Page) : option Overlay :=
  List.find (fun o => Nat.eqb (oid o) i) (overlays p).

Definition updateOverlay (i : nat) (f : Overlay -> Overlay) (p : Page) : Page :=
  set_overlays (map (fun o => if Nat.eqb (oid o) i then f o else o) (overlays p)) p.

(** [close()]: [overlay.remove()]. *)
Definition close (i : nat) (p : Page) : Page :=
  set_overlays (List.filter (fun o => negb (Nat.eqb (oid o) i)) (overlays p)) p.

Definition requirePin (o : Overlay) : Overlay :=
  {| oid := oid o; payload := payload o; pinRequired := true; adminShown := true;
     pinInput := pinInput o; allowChecked := allowChecked o;
     blockChecked := blockChecked o |}.

Definition set_pinInput (v : string) (o : Overlay) : Overlay :=
  {| oid := oid o; payload := payload o; pinRequired := pinRequired o;
     adminShown := adminShown o; pinInput := v; allowChecked := allowChecked o;
     blockChecked := blockChecked o |}.

Definition set_allowChecked (b : bool) (o : Overlay) : Overlay :=
  {| oid := oid o; payload := payload o; pinRequired := pinRequired o;
     adminShown := adminShown o; pinInput := pinInput o; allowChecked := b;
     blockChecked := blockChecked o |}.

Definition set_blockChecked (b : bool) (o : Overlay) : Overlay :=
  {| oid := oid o; payload := payload o; pinRequired := pinRequired o;
     adminShown := adminShown o; pinInput := pinInput o;
     allowChecked := allowChecked o; blockChecked := b |}.

(** The test made by the [GET_PROFILE] callback. *)
Definition pinRequiredFor (profile : option Profile) (risk : Z) : bool :=
  match profile with
  | Some pr =>
      (requireAdminPinAboveThreshold pr
       && Z.leb (JS.num_or 100 (riskThreshold pr)) risk)%bool
  | None => false
  end.

(** [p.allowList.includes(host)]-guarded [push]. *)
Definition pushNew (host : string) (l : list string) : list string :=
  if existsb (String.eqb host) l then l else l ++ [host].

(** The update that the "always allow / always block" boxes make to the
    selected profile. *)
Definition applyToggles (allow block : bool) (host : string) (pr : Profile) : Profile :=
  let al := default [] (allowList pr) in
  let bl := default [] (blockList pr) in
  {| id := id pr;
     allowList := Some (if allow then pushNew host al else al);
     blockList := Some (if block then pushNew host bl else bl);
     trackUsers := trackUsers pr; trackPrompts := trackPrompts pr;
     requireAdminPinAboveThreshold := requireAdminPinAboveThreshold pr;
     riskThreshold := riskThreshold pr;
     sensitiveFieldWeights := sensitiveFieldWeights pr;
     aiOnPageWeight := aiOnPageWeight pr; aiDomainWeight := aiDomainWeight pr;
     internalSiteWeight := internalSiteWeight pr |}.

Fixpoint updateFirst (sel : Profile -> bool) (f : Profile -> Profile)
         (ps : list Profile) : option (list Profile) :=
  match ps with
  | [] => None
  | q :: r =>
      if sel q then Some (f q :: r)
      else option_map (cons q) (updateFirst sel f r)
  end.

(** The text of the [.aipg-reason] paragraph. *)
Definition reasonText (o : Overlay) : string :=
  if JS.truthy (reason (payload o)) then reason (payload o)
  else "AI activity detected".

Definition decisionMessage (o : Overlay) (url choice : string)
           (pinVerified : option bool) (target : option string) : Message :=
  ROUTER_DECISION {| decision := choice; d_reason := reasonText o;
                     d_tabUrl := Some url; d_risk := risk (payload o);
                     d_profileId := profileId (payload o);
                     d_pinVerified := pinVerified; redirectedTo := target |}.

Section Steps.
Context `{Browser}.

(** The storage callback of [sendDecision]: append the host to the lists of
    the selected profile and write the rules back. *)
Definition storeToggles (o : Overlay) (host : string) (p : Page) : Page * list Effect :=
  match rules p with
  | None => (p, [])
  | Some r =>
      let selectedId := JS.str_or "confirm" (selectedProfileId r) in
      match updateFirst (fun q => String.eqb (id q) selectedId)
                        (applyToggles (allowChecked o) (blockChecked o) host)
                        (default [] (profiles r)) with
      | Some ps =>
          let r' := {| selectedProfileId := selectedProfileId r;
                       profiles := Some ps; adminPin := adminPin r |} in
          (set_pageRules (Some r') p, [StorageSet r'])
      | None => (p, [])
      end
  end.

(** [sendDecision(choice, pinVerified)] of overlay [o]. [None]: the call
    threw before anything was sent ([location.href] did not parse). The
    decision message leaves before the storage callback runs. *)
Definition sendDecision (o : Overlay) (choice : string) (pinVerified : bool)
           (p : Page) : option (Page * list Effect) :=
  (* Keep suppression after handling *)
  let p := set_suppress true p in
  let msg := SendMessage (decisionMessage o (href p) choice (Some pinVerified) None) in
  if (allowChecked o || blockChecked o)%bool then
    match parseURL (href p) with
    | None => None
    | Some u =>
        let '(p, effs) := storeToggles o (hostname u) p in
        Some (p, msg :: effs)
    end
  else Some (p, [msg]).

(** The handler itself sends nothing. Inserting the shield is a DOM
    mutation, which wakes the page's [MutationObserver]; that path is
    [Content.maybeSignal] and is not part of a router step. *)
Definition showBlockingShield (p : Page) : Page :=
  (* Allow router to re-open if user triggers AI again (suppression off) *)
  set_suppress false (set_shields (S (shields p)) p).

(** [await sendDecision(choice, false); close();] *)
Definition decideAndClose (o : Overlay) (choice : string) (pinVerified : bool)
           (p : Page) : Page * list Effect :=
  match sendDecision o choice pinVerified p with
  | Some (p', effs) => (close (oid o) p', effs)
  | None => (set_suppress true p, [])
  end.

Definition renderRouter (d : Directive) (p : Page) : Page * list Effect :=
  let o := {| oid := nextId p; payload := d; pinRequired := false;
              adminShown := false; pinInput := ""; allowChecked := false;
              blockChecked := false |} in
  ({| href := href p; suppress := suppress p; routerOpen := routerOpen p;
      overlays := overlays p ++ [o]; shields := shields p;
      nextId := S (nextId p); rules := rules p;
      approvedAiUrl := approvedAiUrl p |},
   [SendMessage GET_PROFILE]).

Definition set_routerOpen (b : bool) (p : Page) : Page :=
  {| href := href p; suppress := suppress p; routerOpen := b;
     overlays := overlays p; shields := shields p; nextId := nextId p;
     rules := rules p; approvedAiUrl := approvedAiUrl p |}.

Definition step (p : Page) (e : Event) : Page * list Effect :=
  match e with
  | RecvOpenRouter d =>
      if suppress p then (p, [])
      else if negb (routerOpen p) then
        let p := set_suppress true (set_routerOpen true p) in
        let '(p, effs) := renderRouter d p in
        (set_routerOpen false p, effs)   (* .finally(...) *)
      else (p, [])
  | RecvRulesUpdated =>
      (set_overlays (tail (overlays p)) (set_suppress false p), [])
  | ProfileReply i profile =>
      match getOverlay i p with
      | Some o =>
          if pinRequiredFor profile (risk (payload o))
          then (updateOverlay i requirePin p, [])
          else (p, [])
      | None => (p, [])
      end
  | TypePin i v => (updateOverlay i (set_pinInput v) p, [])
  | CheckAllow i b => (updateOverlay i (set_allowChecked b) p, [])
  | CheckBlock i b => (updateOverlay i (set_blockChecked b) p, [])
  | ClickCancel i =>
      match getOverlay i p with
      | Some o =>
          if pinRequired o then (showBlockingShield p, [])
          else decideAndClose o "cancel" false p
      | None => (p, [])
      end
  | ClickProceed i =>
      match getOverlay i p with
      | Some o =>
          if pinRequired o then
            let entered := pinInput o in
            let adminPin := JS.str_or "" (rules p ≫= adminPin) in
            if (negb (JS.truthy adminPin) || negb (String.eqb entered adminPin))%bool
            then (p, [Alert "Admin PIN required."])
            else decideAndClose o "proceed" true p
          else decideAndClose o "proceed" false p
      | None => (p, [])
      end
  | ClickRedirect i =>
      match getOverlay i p with
      | Some o =>
          let url := JS.trim (JS.str_or "" (approvedAiUrl p)) in
          if negb (JS.truthy url)
          then (p, [Alert "Approved AI URL is not configured. Set it in Options."])
          else (close i p,
                [SendMessage (decisionMessage o (href p) "redirect" None (Some url));
                 Navigate url])
      | None => (p, [])
      end
  | ClickClose i => (close i p, [])
  | ClickShieldReturn =>
      (set_shields (Nat.pred (shields p)) p, [])
  end.

(** A run of the page: the final state and all effects, in order. *)
Fixpoint run (es : list Event) (p : Page) : Page * list Effect :=
  match es with
  | [] => (p, [])
  | e :: r =>
      let '(p1, effs1) := step p e in
      let '(p2, effs2) := run r p1 in
      (p2, (effs1 ++ effs2)%list)
  end.

(** The engine's side of a run: every message of [effs] handled in order,
    as sent by tab [sender]. *)
Definition deliver (env : Env) (sender : option Tab) (effs : list Effect)
           (s : State) : State :=
  fold_left (fun s eff =>
               match eff with
               | SendMessage m => (onMessage env sender m s).2
               | _ => s
               end) effs s.

End Steps.

(** Something covers the page: a prompt or a shield. *)
Definition blocked (p : Page) : Prop :=
  overlays p <> [] \/ (0 < shields p)%nat.

(** Overlay identities are distinct and below the next fresh one. *)
Definition wf (p : Page) : Prop :=
  NoDup (map oid (overlays p)) /\ Forall (fun o => (oid o < nextId p)%nat) (overlays p).

(** Every prompt with identity [i] is in PIN-required mode, and [i] is not
    a fresh identity. *)
Definition pinLocked (i : nat) (p : Page) : Prop :=
  (i < nextId p)%nat
  /\ Forall (fun o => oid o = i -> pinRequired o = true) (overlays p).

Definition initial (url : string) : Page :=
  {| href := url; suppress := false; routerOpen := false; overlays := [];
     shields := 0; nextId := 0; rules := None; approvedAiUrl := None |}.

End Router.

(** ** Specification-side definitions *)

Module Spec.

Import Engine.

(** A weight counts when its condition holds. *)
Definition contribution (present : bool) (w : Z) : Z :=
  if present then w else 0.

Definition categories : list string := ["password"; "email"; "credit"; "id"].

Definition fieldPresent (ctx : Context) (k : string) : bool :=
  Z.ltb 0 (JS.num_or 0 (sensitiveFields ctx !! k)).

Definition fieldWeight (p : Profile) (k : string) : Z :=
  JS.num_or 0 (default ∅ (sensitiveFieldWeights p) !! k).

(** The sum of the weighted contributions, as the specification words it:
    the domain, on-page and internal-site weights when their conditions
    hold, plus the weight of every sensitive-field category that is
    present. *)
Definition weightedSum (ctx : Context) (p : Profile) : Z :=
  contribution (isAiDomain ctx) (JS.num_or 0 (aiDomainWeight p))
  + contribution (Nat.ltb 0 (length (aiUiSignals ctx))) (JS.num_or 0 (aiOnPageWeight p))
  + contribution (isInternalSite ctx) (JS.num_or 0 (internalSiteWeight p))
  + foldr (fun k acc => contribution (fieldPresent ctx k) (fieldWeight p k) + acc)
          0 categories.

(** No weight of the profile is negative. *)
Definition nonnegWeights (p : Profile) : Prop :=
  0 <= JS.num_or 0 (aiDomainWeight p)
  /\ 0 <= JS.num_or 0 (aiOnPageWeight p)
  /\ 0 <= JS.num_or 0 (internalSiteWeight p)
  /\ Forall (fun k => 0 <= fieldWeight p k) categories.

(** The last recorded open of a key, as the admission test reads it:
    [lastOpenMap.get(key) || 0]. *)
Definition lastOpen (s : State) (key : string) : Z :=
  JS.num_or 0 (lastOpenMap s !! key).

(** An unexpired consent window exists for the key at time [now]. *)
Definition consentActive (s : State) (key : string) (now : Z) : Prop :=
  exists c, consentMap s !! key = Some c /\ now < allowedUntil c.

(** A handler run from [s] to [s'] was silent: nothing was sent, nothing
    was scored, no admission was attempted, both maps are as before, and
    no entry it logged carries a risk. *)
Definition quiet (s s' : State) : Prop :=
  outbox s' = outbox s
  /\ history s' = history s
  /\ lastOpenMap s' = lastOpenMap s
  /\ consentMap s' = consentMap s
  /\ Forall (fun l => logRisk (entry l) = None) (newLogs s s').

(** Every directive sent and every risk logged by the run from [s] to [s']
    has risk [r]. *)
Definition riskForced (r : Z) (s s' : State) : Prop :=
  Forall (fun m => forall d, directiveOf m = Some d -> risk d = r) (newMessages s s')
  /\ Forall (fun l => forall x, logRisk (entry l) = Some x -> x = r) (newLogs s s').

(** The call is a granted admission under the map key [k]. *)
Definition grantedFor (k : string) (c : Call) : bool :=
  match c with
  | Admission (TabNum n) host true => String.eqb (cacheKey n host) k
  | _ => false
  end.

(** Number of admissions granted under key [k] among the calls [h]. *)
Definition admissions (k : string) (h : list Call) : nat :=
  length (List.filter (grantedFor k) h).

(** The calls recorded by a run from [s] to [s']. *)
Definition newCalls (s s' : State) : list Call :=
  drop (length (history s)) (history s').

(** The clock readings of an event: one per swept tab for the sweep, the
    handler's reading otherwise. *)
Definition clocks (ee : Env * Event) : list Z :=
  match ee.2 with
  | TabsQueried tabs => map (fun te => now te.2) tabs
  | _ => [now ee.1]
  end.

(** The event is a change of the stored rules, which empties both maps. *)
Definition clearsCaches (ev : Event) : bool :=
  match ev with
  | StorageChanged area changes =>
      (String.eqb area "local" && bool_decide (is_Some (ch_rules changes)))%bool
  | _ => false
  end.

(** A run at clock reading [t] that recorded the calls [added]: either it
    granted nothing and left the last-open map alone, or it granted one
    admission, under a key whose cooldown had elapsed, and recorded [t] as
    that key's last open. *)
Definition grantStep (t : Z) (s s' : State) (added : list Call) : Prop :=
  history s' = (history s ++ added)%list
  /\ ((lastOpenMap s' = lastOpenMap s /\ forall k, admissions k added = 0%nat)
      \/ exists n host,
           OPEN_COOLDOWN_MS <= t - lastOpen s (cacheKey n host)
           /\ lastOpenMap s' = <[cacheKey n host := t]> (lastOpenMap s)
           /\ forall k, admissions k added
                        = if String.eqb (cacheKey n host) k then 1%nat else 0%nat).

(** At most one admission was granted under [k] among [h], and if one was,
    the key's last open lies in the window that starts at [t0]. *)
Definition onceInWindow (k : string) (t0 : Z) (s : State) (h : list Call) : Prop :=
  admissions k h = 0%nat
  \/ (admissions k h = 1%nat
      /\ exists t, t0 <= t < t0 + OPEN_COOLDOWN_MS /\ lastOpenMap s !! k = Some t).

End Spec.

(** ** A browser and data for the worked examples *)

Module Example.

Import Engine.

(** [breakOn sep s]: the parts of [s] before and after the first [sep]. *)
Fixpoint breakOn (sep s : string) : option (string * string) :=
  if JS.startsWith sep s then Some ("", JS.drop (String.length sep) s)
  else match s with
       | EmptyString => None
       | String c r =>
           match breakOn sep r with
           | Some (a, b) => Some (String c a, b)
           | None => None
           end
       end.

Fixpoint authority (s : string) : string :=
  match s with
  | EmptyString => EmptyString
  | String c r =>
      if (Ascii.eqb c "/" || Ascii.eqb c ":" || Ascii.eqb c "?" || Ascii.eqb c "#")%bool
      then EmptyString else String c (authority r)
  end.

(** URLs of the shape [scheme://host...]; anything else does not parse. *)
Definition simpleURL (s : string) : option URL :=
  match breakOn "://" s with
  | Some (scheme, rest) =>
      if (JS.truthy scheme && JS.truthy (authority rest))%bool
      then Some {| protocol := JS.toLowerCase scheme +:+ ":";
                   hostname := JS.toLowerCase (authority rest) |}
      else None
  | None => None
  end.

(** A browser whose digest only tags its input: enough to run the
    handlers on concrete data. *)
Definition browser : Browser :=
  {| parseURL := simpleURL;
     sha256 := fun s => "sha256(" +:+ s +:+ ")";
     randomUUID := "00000000-0000-4000-8000-000000000000" |}.

Definition profile (pid : string) (allow block : list string)
           (track : option string) (pin : bool) (threshold : option Z)
           (domainW : Z) : Profile :=
  {| id := pid; allowList := Some allow; blockList := Some block;
     trackUsers := None; trackPrompts := track;
     requireAdminPinAboveThreshold := pin; riskThreshold := threshold;
     sensitiveFieldWeights := Some {[ "password" := 30; "email" := 10 ]};
     aiOnPageWeight := Some 20; aiDomainWeight := Some domainW;
     internalSiteWeight := Some 25 |}.

Definition rulesOf (p : Profile) (pin : option string) : Rules :=
  {| selectedProfileId := Some (id p); profiles := Some [p]; adminPin := pin |}.

Definition engine (r : option Rules) (domains : list string) : State :=
  {| aiDomainsCache := domains; rulesCache := r; lastOpenMap := ∅;
     consentMap := ∅;
     storage := {| st_rules := r; st_customDomains := None; st_logs := [];
                   st_userRole := Some "Finance"; st_userId := Some "u-1" |};
     outbox := []; history := [] |}.

Definition env (t : Z) : Env :=
  {| now := t; packaged := None; firstAttempt := Delivered |}.

Definition tab (n : Z) (url : string) : Tab :=
  {| tab_id := Some n; tab_url := Some url |}.

Definition aiContext : Context :=
  {| isAiDomain := true; aiUiSignals := []; sensitiveFields := ∅;
     isInternalSite := false; blocklisted := false |}.

Definition directive (r : Z) : Directive :=
  {| reason := "AI domain detected"; context := aiContext; risk := r;
     profileId := "strict" |}.

(** A page of chat.example.com on which a directive of risk [r] has just
    opened a prompt; the stored rules are [rs]. *)
Definition promptedPage (rs : Rules) (r : Z) : Router.Page :=
  (@Router.run browser [Router.RecvOpenRouter (directive r)]
     (Router.set_pageRules (Some rs) (Router.initial "https://chat.example.com/"))).1.

End Example.

(** ** utils.js: the hexadecimal form of a digest *)

Module Hex.

Definition hexDigit (n : N) : ascii :=
  match n with
  | 0 => "0" | 1 => "1" | 2 => "2" | 3 => "3" | 4 => "4" | 5 => "5"
  | 6 => "6" | 7 => "7" | 8 => "8" | 9 => "9" | 10 => "a" | 11 => "b"
  | 12 => "c" | 13 => "d" | 14 => "e" | _ => "f"
  end%N%char.

(** [b.toString(16)] for a byte. *)
Definition toString16 (b : N) : string :=
  if N.ltb b 16 then String (hexDigit b) ""
  else String (hexDigit (b / 16)) (String (hexDigit (b mod 16)) "").

(** [s.padStart(2, "0")] *)
Definition padStart2 (s : string) : string :=
  match String.length s with
  | O => "00"
  | S O => String "0" s
  | _ => s
  end.

(** [[...new Uint8Array(buf)].map(b => b.toString(16).padStart(2, "0")).join("")] *)
Fixpoint hexOfBuffer (buf : list Byte.byte) : string :=
  match buf with
  | [] => ""
  | b :: r => padStart2 (toString16 (Byte.to_N b)) +:+ hexOfBuffer r
  end.

(** The value of a lower-case hexadecimal digit. *)
Definition digitValue (c : ascii) : option N :=
  let n := N_of_ascii c in
  if (N.leb 48 n && N.leb n 57)%bool then Some (n - 48)%N
  else if (N.leb 97 n && N.leb n 102)%bool then Some (n - 87)%N
  else None.

(** Reading a hexadecimal string back, two digits per byte. *)
Fixpoint bufferOfHex (fuel : nat) (s : string) : option (list Byte.byte) :=
  match s with
  | EmptyString => Some []
  | String a (String b r) =>
      match fuel with
      | O => None
      | S fuel' =>
          match digitValue a, digitValue b with
          | Some x, Some y =>
              match Byte.of_N (16 * x + y), bufferOfHex fuel' r with
              | Some byte, Some rest => Some (byte :: rest)
              | _, _ => None
              end
          | _, _ => None
          end
      end
  | String _ EmptyString => None
  end.

End Hex.

(** ** content.js: detection, signalling and small utilities *)

Module Content.

Import Engine.

Definition AI_SELECTORS : list string :=
  ["[data-ai]"; "[aria-label*='AI']"; "[class*='ai-']"; "[class*='gpt']";
   "button[aria-label*='AI']"; "button[aria-label*='Write with AI']";
   "textarea[placeholder*='Ask']"; "textarea[placeholder*='Write']"].

(** The loop of [detectAiUiSignals]; [present sel] tells whether
    [document.querySelector(sel)] finds an element. *)
Fixpoint detectLoop (present : string -> bool) (sels found : list string) : list string :=
  match sels with
  | [] => found
  | sel :: rest =>
      if present sel then
        let found := (found ++ [sel])%list in
        if Nat.leb 5 (length found) then found   (* cap noise *)
        else detectLoop present rest found
      else detectLoop present rest found
  end.

Definition detectAiUiSignals (present : string -> bool) : list string :=
  detectLoop present AI_SELECTORS [].

(** The attributes that [detectSensitiveFields] reads of an input or
    textarea; the value of the field is not among them. *)
Record InputEl := {
  a_type : option string;
  a_name : option string;
  a_id : option string;
  a_placeholder : option string
}.

(** The object [{ password, email, credit, id }]. *)
Record Counts := {
  n_password : Z;
  n_email : Z;
  n_credit : Z;
  n_id : Z
}.

Definition attr (a : option string) : string := JS.toLowerCase (JS.str_or "" a).

Definition anyIncludes (blob : string) (words : list string) : bool :=
  existsb (JS.includes blob) words.

Definition bump (b : bool) (n : Z) : Z := if b then n + 1 else n.

(** One iteration of the [forEach] of [detectSensitiveFields]. *)
Definition countField (res : Counts) (el : InputEl) : Counts :=
  let type := attr (a_type el) in
  let blob := type +:+ " " +:+ attr (a_name el) +:+ " " +:+ attr (a_id el)
              +:+ " " +:+ attr (a_placeholder el) in
  {| n_password := bump (String.eqb type "password") (n_password res);
     n_email := bump (JS.includes blob "email") (n_email res);
     n_credit := bump (anyIncludes blob ["credit"; "card"; "iban"; "cvc"; "cvv"])
                      (n_credit res);
     n_id := bump (anyIncludes blob ["employee"; "national"; "id"; "ssn"; "nin"])
                  (n_id res) |}.

Definition detectSensitiveFields (inputs : list InputEl) : Counts :=
  fold_left countField inputs
    {| n_password := 0; n_email := 0; n_credit := 0; n_id := 0 |}.

(** [Object.values(fields).some(v => v > 0)] *)
Definition anyPositive (c : Counts) : bool :=
  existsb (Z.ltb 0) [n_password c; n_email c; n_credit c; n_id c].

(** The object as it travels in the message. *)
Definition countsMap (c : Counts) : gmap string Z :=
  {[ "password" := n_password c; "email" := n_email c;
     "credit" := n_credit c; "id" := n_id c ]}.

Definition SIGNAL_COOLDOWN_MS : Z := 3000.

(** What [maybeSignal] sees of the page: the suppression flag, the time of
    the last signal, the document and the content-side domain verdict. *)
Record Signaller := {
  sg_suppress : bool;            (* window.__AIPG_SUPPRESS_ROUTER__ *)
  lastSignalSentAt : Z;
  sg_href : string;              (* location.href *)
  isAiDomainHere : bool
}.

Definition set_lastSignalSentAt (t : Z) (g : Signaller) : Signaller :=
  {| sg_suppress := sg_suppress g; lastSignalSentAt := t;
     sg_href := sg_href g; isAiDomainHere := isAiDomainHere g |}.

(** [maybeSignal()], run at clock reading [now] on a document described by
    [present] and [inputs]; the message sent, if any. *)
Definition maybeSignal (now : Z) (present : string -> bool) (inputs : list InputEl)
           (g : Signaller) : Signaller * option Message :=
  if sg_suppress g then (g, None)
  else if Z.ltb (now - lastSignalSentAt g) SIGNAL_COOLDOWN_MS then (g, None)
  else
    let signals := detectAiUiSignals present in
    let fields := detectSensitiveFields inputs in
    let hasSignals := Nat.ltb 0 (length signals) in
    let hasSensitive := anyPositive fields in
    if (hasSignals || hasSensitive)%bool then
      (set_lastSignalSentAt now g,
       Some (AI_UI_DETECTED (Some (sg_href g)) (Some signals)
               (Some (countsMap fields)) (Some (isAiDomainHere g))))
    else (g, None).

(** The content-side domain test made on the reply to
    [REQUEST_AI_DOMAINS]: [domains.some(d => host === d || host.endsWith("." + d))]. *)
Definition hostIsAiDomain (hostname : string) (domains : list string) : bool :=
  let host := JS.toLowerCase hostname in
  existsb (fun d => (String.eqb host d || JS.endsWith host ("." +:+ d))%bool) domains.

(** [s.replace(/c/g, by)] for a single character [c]. *)
Fixpoint replaceAll (c : ascii) (by_ : string) (s : string) : string :=
  match s with
  | EmptyString => EmptyString
  | String a r =>
      if Ascii.eqb a c then by_ +:+ replaceAll c by_ r
      else String a (replaceAll c by_ r)
  end.

Definition escapeHtml (s : string) : string :=
  replaceAll ">" "&gt;" (replaceAll "<" "&lt;" (replaceAll "&" "&amp;" s)).

(** Reading the three entities back, as a parser of the markup does. *)
Fixpoint unescapeHtml (fuel : nat) (s : string) : string :=
  match fuel with
  | O => s
  | S fuel' =>
      match s with
      | EmptyString => EmptyString
      | String a r =>
          if Ascii.eqb a "&" then
            if JS.startsWith "amp;" r then String "&" (unescapeHtml fuel' (JS.drop 4 r))
            else if JS.startsWith "lt;" r then String "<" (unescapeHtml fuel' (JS.drop 3 r))
            else if JS.startsWith "gt;" r then String ">" (unescapeHtml fuel' (JS.drop 3 r))
            else String a (unescapeHtml fuel' r)
          else String a (unescapeHtml fuel' r)
      end
  end.

(** [riskBadge(r)] for a numeric risk. *)
Definition riskBadge (r : Z) : string :=
  let n := JS.num_or 0 (Some r) in
  if Z.leb 70 n then "badge-high"
  else if Z.leb 40 n then "badge-med" else "badge-low".

End Content.

(** ** options.js: editing the stored rules *)

Module Options.

Inductive Kind := allow | block.

Definition listOf (k : Kind) (p : Profile) : list string :=
  match k with
  | allow => default [] (allowList p)
  | block => default [] (blockList p)
  end.

Definition set_list (k : Kind) (l : list string) (p : Profile) : Profile :=
  {| id := id p;
     allowList := match k with allow => Some l | block => allowList p end;
     blockList := match k with allow => blockList p | block => Some l end;
     trackUsers := trackUsers p; trackPrompts := trackPrompts p;
     requireAdminPinAboveThreshold := requireAdminPinAboveThreshold p;
     riskThreshold := riskThreshold p;
     sensitiveFieldWeights := sensitiveFieldWeights p;
     aiOnPageWeight := aiOnPageWeight p; aiDomainWeight := aiDomainWeight p;
     internalSiteWeight := internalSiteWeight p |}.

Definition set_profiles (ps : list Profile) (r : Rules) : Rules :=
  {| selectedProfileId := selectedProfileId r; profiles := Some ps;
     adminPin := adminPin r |}.

(** The page keeps the rules it loaded and the id chosen in the profile
    selector; [stored] is what it last wrote to [chrome.storage.local]. *)
Record Page := {
  rules : Rules;
  selected : string;             (* sel.value *)
  stored : option Rules
}.

(** Update the first profile whose id is [sel.value] and write the rules;
    nothing happens when no profile has that id. *)
Definition editSelected (f : Profile -> Profile) (pg : Page) : Page :=
  match Router.updateFirst (fun p => String.eqb (id p) (selected pg)) f
          (default [] (profiles (rules pg))) with
  | Some ps =>
      let r := set_profiles ps (rules pg) in
      {| rules := r; selected := selected pg; stored := Some r |}
  | None => pg
  end.

(** [addHost(kind)] with [input.value = input]. *)
Definition addHost (k : Kind) (input : string) (pg : Page) : Page :=
  let host := JS.trim input in
  if negb (JS.truthy host) then pg
  else editSelected (fun p => set_list k (Router.pushNew host (listOf k p)) p) pg.

(** The Remove button of entry [i]: [list.splice(i, 1)]. *)
Definition removeHost (k : Kind) (i : nat) (pg : Page) : Page :=
  editSelected (fun p => set_list k (delete i (listOf k p)) p) pg.



End Options.

(** ** Further specification-side definitions *)

Module Cover.

Import Engine.

(** The user id that [appendLog] writes in state [s]: the stored one when
    there is one, a fresh UUID otherwise. *)
Definition userIdOf `{Browser} (s : State) : string :=
  match st_userId (storage s) with
  | Some u => if JS.truthy u then u else randomUUID
  | None => randomUUID
  end.

(** The call is a risk scoring (not an admission test). *)
Definition isScoring (c : Call) : bool :=
  match c with
  | Scored _ _ => true
  | Admission _ _ _ => false
  end.

(** The run from [s] to [s'] prompted nobody: nothing was sent, no
    admission was tested, both maps are as before, and no entry it logged
    carries a risk. *)
Definition unprompted (s s' : State) : Prop :=
  outbox s' = outbox s
  /\ lastOpenMap s' = lastOpenMap s
  /\ consentMap s' = consentMap s
  /\ forallb isScoring (Spec.newCalls s s') = true
  /\ Forall (fun l => logRisk (entry l) = None) (newLogs s s').

(** The page event lifts the suppression of the prompt: a rules update, or
    a Cancel (which raises the blocking shield in PIN-required mode). *)
Definition reopens (e : Router.Event) : bool :=
  match e with
  | Router.RecvRulesUpdated | Router.ClickCancel _ => true
  | _ => false
  end.

(** The effect is a [GET_PROFILE] request, sent once per rendered prompt. *)
Definition isProfileRequest (eff : Router.Effect) : bool :=
  match eff with
  | Router.SendMessage GET_PROFILE => true
  | _ => false
  end.

(** The decisions reported by a list of effects. *)
Definition decisionsOf (effs : list Router.Effect) : list Decision :=
  omap (fun eff => match eff with
                   | Router.SendMessage (ROUTER_DECISION d) => Some d
                   | _ => None
                   end) effs.

(** What a step from [p] to [p'] with effects [effs] does while the prompt
    is suppressed: suppression stays, no prompt is created, no profile is
    requested. *)
Definition held (p p' : Router.Page) (effs : list Router.Effect) : Prop :=
  Router.suppress p' = true /\ Router.nextId p' = Router.nextId p
  /\ Router.routerOpen p' = Router.routerOpen p
  /\ List.filter isProfileRequest effs = []
  /\ (length (Router.overlays p') <= length (Router.overlays p))%nat.

(** The profile that the options page edits: the first one whose id is
    the value of the profile selector. *)
Definition selectedProfile (pg : Options.Page) : option Profile :=
  List.find (fun p => String.eqb (id p) (Options.selected pg))
    (default [] (profiles (Options.rules pg))).

Definition otherKind (k : Options.Kind) : Options.Kind :=
  match k with
  | Options.allow => Options.block
  | Options.block => Options.allow
  end.

(** The last character of [pre], or [prev] when [pre] is empty. *)
Fixpoint lastChar (prev : option ascii) (pre : string) : option ascii :=
  match pre with
  | EmptyString => prev
  | String c r => lastChar (Some c) r
  end.

(** A word may start right after [pre]: [pre] is empty or ends in a
    character that is not a word character (a dot, a hyphen). *)
Definition leftBoundary (pre : string) : bool :=
  match lastChar None pre with
  | None => true
  | Some c => negb (JS.is_word c)
  end.

(** Every weight of [p] is at most the same weight of [p']. *)
Definition weightsLe (p p' : Profile) : Prop :=
  JS.num_or 0 (aiDomainWeight p) <= JS.num_or 0 (aiDomainWeight p')
  /\ JS.num_or 0 (aiOnPageWeight p) <= JS.num_or 0 (aiOnPageWeight p')
  /\ JS.num_or 0 (internalSiteWeight p) <= JS.num_or 0 (internalSiteWeight p')
  /\ Forall (fun k => Spec.fieldWeight p k <= Spec.fieldWeight p' k) Spec.categories.

(** The tab gets the [RULES_UPDATED] broadcast: it has an id and an
    http(s) URL. *)
Definition notified `{Browser} (t : Tab) : option Z :=
  match tab_id t, tab_url t with
  | Some tid, Some url =>
      if (negb (Z.eqb tid 0) && JS.truthy url && isHttpUrl url)%bool
      then Some tid else None
  | _, _ => None
  end.

(** The element is a password field. *)
Definition isPassword (el : Content.InputEl) : bool :=
  String.eqb (Content.attr (Content.a_type el)) "password".

(** The first profile of [ps] whose id is [sel]. *)
Definition firstWithId (sel : string) (ps : list Profile) : option Profile :=
  List.find (fun p => String.eqb (id p) sel) ps.

(** The character is a lower-case hexadecimal digit. *)
Definition isHexDigit (c : ascii) : bool :=
  match Hex.digitValue c with Some _ => true | None => false end.

Fixpoint allChars (f : ascii -> bool) (s : string) : bool :=
  match s with
  | EmptyString => true
  | String c r => (f c && allChars f r)%bool
  end.

End Cover.

(** * Properties *)

(** ** Risk scorer *)

Section RiskScore.
Import Spec.

Lemma computeRiskScore_min ctx p :
  Utils.computeRiskScore ctx p = Z.min 100 (weightedSum ctx p).
Proof.
  unfold Utils.computeRiskScore, weightedSum, categories, contribution,
    fieldPresent, fieldWeight, Utils.addSensitive.
  cbn [fold_left foldr].
  f_equal.
  repeat match goal with |- context [if ?b then _ else _] => destruct b end; lia.
Qed.

Lemma computeRiskScore_le_100 ctx p : Utils.computeRiskScore ctx p <= 100.
Proof. rewrite computeRiskScore_min. lia. Qed.

Lemma weightedSum_nonneg ctx p : nonnegWeights p -> 0 <= weightedSum ctx p.
Proof.
  intros (Hd & Ho & Hi & Hs).
  unfold categories in Hs.
  repeat match goal with H : Forall _ (_ :: _) |- _ => inversion_clear H end.
  unfold weightedSum, categories, contribution. cbn [foldr].
  repeat match goal with |- context [if ?b then _ else _] => destruct b end; lia.
Qed.

(** C5, as stated, fails: with a negative weight the score leaves [0,100],
    since the sum is only capped from above. *)
Lemma computeRiskScore_negative :
  Utils.computeRiskScore Example.aiContext
    (Example.profile "confirm" [] [] None false None (-5)) = -5
  /\ ~ (0 <= Utils.computeRiskScore Example.aiContext
              (Example.profile "confirm" [] [] None false None (-5)) <= 100).
Proof. split; [reflexivity | vm_compute; intros [Hc _]; apply Hc; reflexivity]. Qed.

(** C5 (amended): for every context and every profile without negative
    weights, [computeRiskScore] is the sum of the weighted contributions
    capped at 100, and lies in [0,100]. *)
Theorem computeRiskScore_range ctx p :
  nonnegWeights p ->
  Utils.computeRiskScore ctx p = Z.min 100 (weightedSum ctx p)
  /\ 0 <= Utils.computeRiskScore ctx p <= 100.
Proof.
  intros Hp. split; [apply computeRiskScore_min |].
  split; [| apply computeRiskScore_le_100].
  rewrite computeRiskScore_min. pose proof (weightedSum_nonneg ctx p Hp). lia.
Qed.

(** On the confirm profile of the examples an AI domain alone scores 40. *)
Lemma computeRiskScore_range_witness :
  nonnegWeights (Example.profile "confirm" [] [] None false None 40)
  /\ Utils.computeRiskScore Example.aiContext
       (Example.profile "confirm" [] [] None false None 40) = 40.
Proof.
  assert (Hn : nonnegWeights (Example.profile "confirm" [] [] None false None 40)).
  { unfold nonnegWeights, categories.
    repeat split; try (vm_compute; discriminate).
    repeat constructor; vm_compute; discriminate. }
  split; [exact Hn |].
  destruct (computeRiskScore_range Example.aiContext _ Hn) as [-> _].
  reflexivity.
Defined.

End RiskScore.

(** ** Dedup and consent cache *)

Section Admission.
Import Engine Spec.

Lemma truthy_nonempty (h : string) : h <> "" -> JS.truthy h = true.
Proof. destruct h; [congruence | reflexivity]. Qed.

Lemma truthy_true (h : string) : JS.truthy h = true -> h <> "".
Proof. destruct h; [discriminate | discriminate]. Qed.

Lemma num_or_0_idem (v : Z) : JS.num_or 0 (Some v) = v.
Proof. unfold JS.num_or. destruct (Z.eqb_spec v 0); congruence. Qed.

(** The three outcomes of the admission test for a real key. *)
Lemma shouldOpenRouter_cases now n host s :
  host <> "" ->
  let key := cacheKey n host in
  (consentActive s key now -> shouldOpenRouter now (TabNum n) host s = (false, s))
  /\ (now - lastOpen s key < OPEN_COOLDOWN_MS ->
      shouldOpenRouter now (TabNum n) host s = (false, s))
  /\ (~ consentActive s key now -> OPEN_COOLDOWN_MS <= now - lastOpen s key ->
      shouldOpenRouter now (TabNum n) host s
      = (true, set_lastOpenMap (<[key := now]> (lastOpenMap s)) s)).
Proof.
  intros Hh key. unfold shouldOpenRouter, consentActive, lastOpen.
  rewrite (truthy_nonempty _ Hh). cbn [negb]. fold key.
  repeat split.
  - intros (c & -> & Hc). apply Z.ltb_lt in Hc. now rewrite Hc.
  - intros Hl. apply Z.ltb_lt in Hl. rewrite Hl.
    now destruct (consentMap s !! key) as [c|]; [destruct (Z.ltb now (allowedUntil c)) |].
  - intros Hn Hl. apply Z.ltb_ge in Hl. rewrite Hl.
    destruct (consentMap s !! key) as [c|]; [| reflexivity].
    destruct (Z.ltb_spec now (allowedUntil c)); [| reflexivity].
    exfalso. apply Hn. eauto.
Qed.

(** After a granted admission the key's last open is the admission time. *)
Lemma shouldOpenRouter_granted now tabId host s s' :
  shouldOpenRouter now tabId host s = (true, s') ->
  exists n, tabId = TabNum n /\ host <> ""
            /\ s' = set_lastOpenMap (<[cacheKey n host := now]> (lastOpenMap s)) s.
Proof.
  unfold shouldOpenRouter. destruct tabId as [| |n]; try discriminate.
  destruct (JS.truthy host) eqn:Hh; cbn [negb]; [| discriminate].
  intros Hr. exists n. split; [reflexivity |]. split; [now apply truthy_true |].
  destruct (match consentMap s !! cacheKey n host with
            | Some c => Z.ltb now (allowedUntil c) | None => false end);
    [discriminate |].
  destruct (Z.ltb (now - _) OPEN_COOLDOWN_MS); [discriminate |].
  now inversion Hr.
Qed.

Lemma shouldOpenRouter_denied now tabId host s s' :
  shouldOpenRouter now tabId host s = (false, s') -> s' = s.
Proof.
  unfold shouldOpenRouter. destruct tabId as [| |n]; try (now inversion 1).
  destruct (negb (JS.truthy host)); [now inversion 1 |].
  destruct (match consentMap s !! cacheKey n host with
            | Some c => Z.ltb now (allowedUntil c) | None => false end);
    [now inversion 1 |].
  destruct (Z.ltb (now - _) OPEN_COOLDOWN_MS); [now inversion 1 | discriminate].
Qed.

(** Of two admission tests of one key less than the cooldown apart, the
    second is refused when the first was granted. *)
Lemma shouldOpenRouter_twice now n host s now' s1 :
  host <> "" ->
  shouldOpenRouter now (TabNum n) host s = (true, s1) ->
  now' - now < OPEN_COOLDOWN_MS ->
  shouldOpenRouter now' (TabNum n) host s1 = (false, s1).
Proof.
  intros Hh Hg Hw.
  apply shouldOpenRouter_granted in Hg as (n' & Hn & _ & ->).
  injection Hn as <-.
  apply (shouldOpenRouter_cases now' n host _ Hh).
  unfold lastOpen. cbn [lastOpenMap set_lastOpenMap].
  rewrite lookup_insert_eq, num_or_0_idem. exact Hw.
Qed.

(** A granted admission found the cooldown of its key elapsed. *)
Lemma shouldOpenRouter_granted_cooldown now tabId host s s' :
  shouldOpenRouter now tabId host s = (true, s') ->
  exists n, tabId = TabNum n
            /\ OPEN_COOLDOWN_MS <= now - lastOpen s (cacheKey n host)
            /\ s' = set_lastOpenMap (<[cacheKey n host := now]> (lastOpenMap s)) s.
Proof.
  unfold shouldOpenRouter, lastOpen. destruct tabId as [| |n]; try discriminate.
  destruct (JS.truthy host); cbn [negb]; [| discriminate].
  intros Hr. exists n. split; [reflexivity |].
  destruct (match consentMap s !! cacheKey n host with
            | Some c => Z.ltb now (allowedUntil c) | None => false end);
    [discriminate |].
  destruct (Z.ltb_spec (now - JS.num_or 0 (lastOpenMap s !! cacheKey n host))
              OPEN_COOLDOWN_MS); [discriminate |].
  split; [assumption | now inversion Hr].
Qed.

(** C10: with a null or undefined tab id, or an empty host, the admission
    test answers false and changes neither map (nor anything else). *)
Theorem shouldOpenRouter_no_key now tabId host s :
  tabId = TabNull \/ tabId = TabUndefined \/ host = "" ->
  shouldOpenRouter now tabId host s = (false, s)
  /\ lastOpenMap (shouldOpenRouter now tabId host s).2 = lastOpenMap s
  /\ consentMap (shouldOpenRouter now tabId host s).2 = consentMap s.
Proof.
  intros Hk.
  assert (Hr : shouldOpenRouter now tabId host s = (false, s)).
  { destruct Hk as [-> | [-> | ->]]; try reflexivity.
    unfold shouldOpenRouter. now destruct tabId. }
  rewrite Hr. auto.
Qed.

(** A null tab id, and an empty host, on concrete data. *)
Lemma shouldOpenRouter_no_key_witness :
  shouldOpenRouter 1700000000000 TabNull "chat.example.com"
    (Example.engine None [])
  = (false, Example.engine None [])
  /\ shouldOpenRouter 1700000000000 (TabNum 7) "" (Example.engine None [])
     = (false, Example.engine None []).
Proof.
  split.
  - apply (shouldOpenRouter_no_key 1700000000000 TabNull "chat.example.com").
    left. reflexivity.
  - apply (shouldOpenRouter_no_key 1700000000000 (TabNum 7) "").
    right. right. reflexivity.
Defined.

End Admission.

(** ** Router decisions and consent windows *)

Section ConsentWindow.
Context `{Browser}.
Import Engine Spec.

Lemma appendLog_consentMap t e s : consentMap (appendLog t e s) = consentMap s.
Proof. reflexivity. Qed.

Lemma appendLog_lastOpenMap t e s : lastOpenMap (appendLog t e s) = lastOpenMap s.
Proof. reflexivity. Qed.

(** The consent map after a [ROUTER_DECISION] from tab [tid] about [host]. *)
Lemma onRouterDecision_consentMap env sender d s tid host :
  sender ≫= tab_id = Some tid ->
  hostFromUrl (JS.str_or "" (d_tabUrl d)) = host ->
  host <> "" ->
  consentMap (onRouterDecision env sender d s).2
  = if String.eqb (decision d) "proceed"
    then <[cacheKey tid host := {| allowedUntil := now env + CONSENT_TTL_MS |}]>
           (consentMap s)
    else consentMap s.
Proof.
  intros Ht Hu Hh. unfold onRouterDecision. cbn [snd].
  destruct (String.eqb (decision d) "proceed"); [| reflexivity].
  rewrite Ht, Hu, (truthy_nonempty _ Hh). reflexivity.
Qed.

Lemma onRouterDecision_lastOpenMap env sender d s :
  lastOpenMap (onRouterDecision env sender d s).2 = lastOpenMap s.
Proof.
  unfold onRouterDecision. cbn [snd].
  destruct (String.eqb (decision d) "proceed"); [| reflexivity].
  destruct (sender ≫= tab_id); [| reflexivity].
  now destruct (JS.truthy _).
Qed.

(** Without a proceed decision the consent map is left alone, whoever
    sent the message. *)
Lemma onRouterDecision_other env sender d s :
  decision d <> "proceed" ->
  consentMap (onRouterDecision env sender d s).2 = consentMap s.
Proof.
  intros Hd. unfold onRouterDecision. cbn [snd].
  destruct (String.eqb_spec (decision d) "proceed"); [contradiction | reflexivity].
Qed.

(** C7: a [ROUTER_DECISION] from tab [tid] about [host] opens a consent
    window for [(tid, host)] exactly when the decision is proceed; the
    window expires at the decision time plus the 10-minute TTL; cancel and
    redirect open none; until the expiry the admission test answers false,
    and from the expiry on it is decided by the cooldown alone. *)
Theorem router_decision_consent env sender d s tid host :
  sender ≫= tab_id = Some tid ->
  hostFromUrl (JS.str_or "" (d_tabUrl d)) = host ->
  host <> "" ->
  let s' := (onRouterDecision env sender d s).2 in
  let key := cacheKey tid host in
  let expiry := now env + 10 * 60 * 1000 in
  (decision d = "proceed" ->
     consentMap s' = <[key := {| allowedUntil := expiry |}]> (consentMap s)
     /\ (forall t, t < expiry -> shouldOpenRouter t (TabNum tid) host s' = (false, s'))
     /\ (forall t, expiry <= t ->
           ~ consentActive s' key t
           /\ (shouldOpenRouter t (TabNum tid) host s').1
              = negb (Z.ltb (t - lastOpen s key) OPEN_COOLDOWN_MS)))
  /\ (decision d <> "proceed" -> consentMap s' = consentMap s)
  /\ (decision d = "cancel" \/ decision d = "redirect" -> consentMap s' = consentMap s).
Proof.
  intros Ht Hu Hh s' key expiry.
  pose proof (onRouterDecision_consentMap env sender d s tid host Ht Hu Hh) as Hc.
  fold s' key in Hc. change (now env + CONSENT_TTL_MS) with expiry in Hc.
  assert (Hl : lastOpen s' key = lastOpen s key).
  { unfold lastOpen, s'. now rewrite onRouterDecision_lastOpenMap. }
  split; [| split].
  - intros Hd. rewrite Hd in Hc. change ("proceed" =? "proceed")%string with true in Hc.
    split; [exact Hc |]. split.
    + intros t Hlt.
      destruct (shouldOpenRouter_cases t tid host s' Hh) as (H1 & _ & _).
      apply H1. exists (Build_Consent expiry).
      fold key. rewrite Hc, lookup_insert_eq.
      split; [reflexivity | exact Hlt].
    + intros t Hge.
      assert (Hn : ~ consentActive s' key t).
      { intros (c & Hk & Hlt). rewrite Hc, lookup_insert_eq in Hk.
        injection Hk as <-. cbn in Hlt. lia. }
      split; [exact Hn |].
      destruct (shouldOpenRouter_cases t tid host s' Hh) as (_ & H2 & H3).
      fold key in H2, H3. rewrite Hl in H2, H3.
      destruct (Z.ltb_spec (t - lastOpen s key) OPEN_COOLDOWN_MS) as [Hlt | Hle].
      * now rewrite (H2 Hlt).
      * now rewrite (H3 Hn Hle).
  - intros Hd. apply String.eqb_neq in Hd. now rewrite Hd in Hc.
  - intros [Hd | Hd]; rewrite Hd in Hc; exact Hc.
Qed.

End ConsentWindow.

(** A proceed decision from tab 7 at 1700000000000 opens a window that
    expires ten minutes later. *)
Lemma router_decision_consent_witness :
  let d := {| Engine.decision := "proceed"; Engine.d_reason := "AI domain detected";
              Engine.d_tabUrl := Some "https://chat.example.com/c/1";
              Engine.d_risk := 85; Engine.d_profileId := "strict";
              Engine.d_pinVerified := Some true; Engine.redirectedTo := None |} in
  let s := Example.engine None [] in
  Engine.consentMap
    (@Engine.onRouterDecision Example.browser (Example.env 1700000000000)
       (Some (Example.tab 7 "https://chat.example.com/c/1")) d s).2
  = {[ "7|chat.example.com" := {| Engine.allowedUntil := 1700000600000 |} ]}.
Proof.
  intros d s.
  assert (Hh : "chat.example.com" <> "") by discriminate.
  destruct (@router_decision_consent Example.browser (Example.env 1700000000000)
              (Some (Example.tab 7 "https://chat.example.com/c/1")) d s
              7 "chat.example.com" eq_refl eq_refl Hh)
    as [Hp _].
  destruct (Hp eq_refl) as [-> _].
  reflexivity.
Defined.

(** ** Prompt tracking *)

Section PromptTracking.
Context `{Browser}.
Import Engine.

Lemma newLogs_appendLog t e s0 s :
  st_logs (storage s) = st_logs (storage s0) ->
  newLogs s0 (appendLog t e s)
  = [{| ts := t; userRole := JS.str_or "" (st_userRole (storage s));
        userId := match st_userId (storage s) with
                  | Some u => if JS.truthy u then u else randomUUID
                  | None => randomUUID
                  end;
        entry := e |}].
Proof.
  intros Hl. unfold newLogs, appendLog. cbn. rewrite <- Hl.
  now rewrite drop_app_length.
Qed.

Lemma newLogs_same s0 s :
  st_logs (storage s) = st_logs (storage s0) -> newLogs s0 s = [].
Proof. intros Hl. unfold newLogs. rewrite Hl. apply drop_all. Qed.

Lemma refreshRules_storage s : storage (refreshRules s) = storage s.
Proof. unfold refreshRules. now destruct (st_rules (storage s)). Qed.

(** A [PROMPT_ACTIVITY] message about an http(s) page appends exactly one
    entry as soon as a profile is active, whatever the tracking mode. *)
Lemma prompt_activity_appends env sender text tabUrl s :
  let s' := (onPromptActivity env sender text tabUrl s).2 in
  isHttpUrl (JS.str_or (JS.str_or "" (senderUrl sender)) tabUrl) = true ->
  is_Some (getActiveProfileSync (rulesCache (refreshRules s))) ->
  length (newLogs s s') = 1%nat.
Proof.
  intros s' Hu [p Hp]. unfold s', onPromptActivity. rewrite Hu, Hp. cbn [negb snd].
  now rewrite newLogs_appendLog by (now rewrite refreshRules_storage).
Qed.

(** C4 (amended): every record that a [PROMPT_ACTIVITY] message appends is
    fixed by the clock, the stored role and user id, the tracking mode of
    the active profile (off when unset), the page URL and the prompt text,
    as follows. Its entry is of kind prompt and holds that mode, the page
    URL (the message's [tabUrl], else the sender tab's URL), the length of
    the text, and at most one more field: in anonymized mode the digest of
    the text and never the text; in full mode the first 2000 characters of
    the text and no digest; in off mode, and in any other mode, neither
    digest nor text. So raw text is stored only in full mode. The time
    stamp, role and user id of the record do not depend on the prompt. *)
Theorem prompt_activity_log env sender text tabUrl s :
  let s' := (onPromptActivity env sender text tabUrl s).2 in
  let pageUrl := JS.str_or (JS.str_or "" (senderUrl sender)) tabUrl in
  let txt := JS.str_or "" text in
  forall r, r ∈ newLogs s s' ->
    exists p mode h t,
      getActiveProfileSync (rulesCache s') = Some p
      /\ mode = JS.str_or "off" (trackPrompts p)
      /\ r = {| ts := now env;
                userRole := JS.str_or "" (st_userRole (storage s));
                userId := Cover.userIdOf s;
                entry := prompt mode pageUrl (String.length txt) h t |}
      /\ (mode = "anonymized" ->
            t = None /\ h = if JS.truthy txt then Some (sha256 txt) else None)
      /\ (mode = "full" ->
            h = None
            /\ t = if JS.truthy txt then Some (String.substring 0 2000 txt) else None)
      /\ (mode <> "anonymized" -> mode <> "full" -> h = None /\ t = None)
      /\ (t <> None -> mode = "full")
      /\ (mode = "off" -> h = None /\ t = None).
Proof.
  intros s' pageUrl txt r. unfold s', onPromptActivity. fold pageUrl txt.
  destruct (isHttpUrl pageUrl); cbn [negb snd].
  2: { rewrite newLogs_same by reflexivity. intros Hin. inversion Hin. }
  destruct (getActiveProfileSync (rulesCache (refreshRules s))) as [p|] eqn:Hp;
    cbn [snd].
  2: { rewrite newLogs_same by (now rewrite refreshRules_storage).
       intros Hin. inversion Hin. }
  rewrite newLogs_appendLog by (now rewrite refreshRules_storage).
  rewrite refreshRules_storage. fold (Cover.userIdOf s).
  intros Hin. apply list_elem_of_singleton in Hin. subst r.
  exists p, (JS.str_or "off" (trackPrompts p)).
  set (mode := JS.str_or "off" (trackPrompts p)).
  destruct (JS.truthy txt);
    rewrite ?andb_false_r, ?andb_true_r;
    (destruct (String.eqb_spec mode "anonymized") as [Ha | Ha];
     [| destruct (String.eqb_spec mode "full") as [Hf | Hf]]);
    eexists _, _; (split; [exact Hp |]); (split; [reflexivity |]);
    (split; [reflexivity |]); repeat split; try congruence.
  all: intros Ho; rewrite Ho in *; discriminate.
Qed.

End PromptTracking.

(** C4, as stated, fails: with prompt tracking off, a [PROMPT_ACTIVITY]
    message still appends an entry of kind prompt. *)
Lemma prompt_logged_when_off :
  let p := Example.profile "confirm" [] [] (Some "off") false None 40 in
  let s := Example.engine (Some (Example.rulesOf p None)) [] in
  let s' := (@Engine.onPromptActivity Example.browser (Example.env 1700000000000)
               (Some (Example.tab 7 "https://chat.example.com/"))
               (Some "my secret prompt") (Some "https://chat.example.com/") s).2 in
  map Engine.entry (Engine.newLogs s s')
  = [Engine.prompt "off" "https://chat.example.com/" 16 None None].
Proof. vm_compute. reflexivity. Qed.

(** In anonymized mode the record logged for a prompt holds the digest
    and no text. *)
Lemma prompt_activity_log_witness :
  let p := Example.profile "confirm" [] [] (Some "anonymized") false None 40 in
  let s := Example.engine (Some (Example.rulesOf p None)) [] in
  let s' := (@Engine.onPromptActivity Example.browser (Example.env 1700000000000)
               (Some (Example.tab 7 "https://chat.example.com/"))
               (Some "my secret prompt") (Some "https://chat.example.com/") s).2 in
  exists r, Engine.newLogs s s' = [r]
    /\ Engine.entry r
       = Engine.prompt "anonymized" "https://chat.example.com/" 16
           (Some "sha256(my secret prompt)") None.
Proof.
  intros p s s'.
  set (r := {| Engine.ts := 1700000000000; Engine.userRole := "Finance";
               Engine.userId := "u-1";
               Engine.entry :=
                 Engine.prompt "anonymized" "https://chat.example.com/" 16
                   (Some "sha256(my secret prompt)") None |}).
  assert (Hl : Engine.newLogs s s' = [r]) by (vm_compute; reflexivity).
  exists r. split; [exact Hl |].
  assert (Hin : r ∈ Engine.newLogs s s') by (rewrite Hl; apply list_elem_of_here).
  destruct (@prompt_activity_log Example.browser (Example.env 1700000000000)
              (Some (Example.tab 7 "https://chat.example.com/"))
              (Some "my secret prompt") (Some "https://chat.example.com/") s r Hin)
    as (q & mode & h & t & Hq & Hm & He & Ha & _).
  vm_compute in Hq. injection Hq as <-.
  assert (Hmode : mode = "anonymized") by (rewrite Hm; reflexivity).
  destruct (Ha Hmode) as [Ht Hh]. rewrite He, Ht, Hh, Hmode. reflexivity.
Defined.

(** ** Trigger paths *)

Section TriggerPaths.
Context `{Browser}.
Import Engine.

(** *** What the helpers leave alone *)

Lemma refreshRules_frame s :
  outbox (refreshRules s) = outbox s
  /\ history (refreshRules s) = history s
  /\ lastOpenMap (refreshRules s) = lastOpenMap s
  /\ consentMap (refreshRules s) = consentMap s
  /\ aiDomainsCache (refreshRules s) = aiDomainsCache s.
Proof. unfold refreshRules. now destruct (st_rules (storage s)). Qed.

Lemma ensureBoot_frame f s :
  outbox (ensureBoot f s) = outbox s
  /\ history (ensureBoot f s) = history s
  /\ lastOpenMap (ensureBoot f s) = lastOpenMap s
  /\ consentMap (ensureBoot f s) = consentMap s
  /\ st_logs (storage (ensureBoot f s)) = st_logs (storage s).
Proof.
  unfold ensureBoot. destruct f as [[defaults domains]|]; [| easy].
  now destruct (st_rules (storage s)).
Qed.

Lemma safeOpenRouter_frame env t u m s :
  history (safeOpenRouter env t u m s) = history s
  /\ lastOpenMap (safeOpenRouter env t u m s) = lastOpenMap s
  /\ consentMap (safeOpenRouter env t u m s) = consentMap s
  /\ storage (safeOpenRouter env t u m s) = storage s
  /\ rulesCache (safeOpenRouter env t u m s) = rulesCache s.
Proof.
  unfold safeOpenRouter.
  destruct (negb (JS.truthy u) || negb (isHttpUrl u))%bool; [easy |].
  now destruct (firstAttempt env).
Qed.

(** [safeOpenRouter] sends copies of its payload to its tab, nothing else. *)
Lemma safeOpenRouter_outbox env t u m s :
  exists k, outbox (safeOpenRouter env t u m s) = (outbox s ++ replicate k (t, m))%list.
Proof.
  unfold safeOpenRouter.
  destruct (negb (JS.truthy u) || negb (isHttpUrl u))%bool.
  - exists 0%nat. cbn. now rewrite app_nil_r.
  - destruct (firstAttempt env); cbn.
    + now exists 1%nat.
    + exists 2%nat. now rewrite <- app_assoc.
    + now exists 1%nat.
Qed.

Lemma shouldOpenRouter_frame t tid host s :
  outbox (shouldOpenRouter t tid host s).2 = outbox s
  /\ history (shouldOpenRouter t tid host s).2 = history s
  /\ consentMap (shouldOpenRouter t tid host s).2 = consentMap s
  /\ storage (shouldOpenRouter t tid host s).2 = storage s
  /\ rulesCache (shouldOpenRouter t tid host s).2 = rulesCache s
  /\ ((shouldOpenRouter t tid host s).1 = false ->
      (shouldOpenRouter t tid host s).2 = s).
Proof.
  destruct (shouldOpenRouter t tid host s) as [[|] s'] eqn:Hr.
  - apply shouldOpenRouter_granted in Hr as (n & _ & _ & ->). cbn. easy.
  - apply shouldOpenRouter_denied in Hr as ->. easy.
Qed.

Lemma newMessages_app s s' l :
  outbox s' = (outbox s ++ l)%list -> newMessages s s' = l.
Proof. intros E. unfold newMessages. rewrite E. apply drop_app_length. Qed.

Lemma newLogs_app s s' l :
  st_logs (storage s') = (st_logs (storage s) ++ l)%list -> newLogs s s' = l.
Proof. intros E. unfold newLogs. rewrite E. apply drop_app_length. Qed.

Lemma newMessages_same s s' : outbox s' = outbox s -> newMessages s s' = [].
Proof. intros E. apply newMessages_app. now rewrite app_nil_r. Qed.

Lemma refreshRules_outbox s : outbox (refreshRules s) = outbox s.
Proof. apply refreshRules_frame. Qed.
Lemma refreshRules_history s : history (refreshRules s) = history s.
Proof. apply refreshRules_frame. Qed.
Lemma refreshRules_lastOpenMap s : lastOpenMap (refreshRules s) = lastOpenMap s.
Proof. apply refreshRules_frame. Qed.
Lemma refreshRules_consentMap s : consentMap (refreshRules s) = consentMap s.
Proof. apply refreshRules_frame. Qed.
Lemma refreshRules_logs s : st_logs (storage (refreshRules s)) = st_logs (storage s).
Proof. now rewrite refreshRules_storage. Qed.
Lemma ensureBoot_outbox f s : outbox (ensureBoot f s) = outbox s.
Proof. apply ensureBoot_frame. Qed.
Lemma ensureBoot_history f s : history (ensureBoot f s) = history s.
Proof. apply ensureBoot_frame. Qed.
Lemma ensureBoot_lastOpenMap f s : lastOpenMap (ensureBoot f s) = lastOpenMap s.
Proof. apply ensureBoot_frame. Qed.
Lemma ensureBoot_consentMap f s : consentMap (ensureBoot f s) = consentMap s.
Proof. apply ensureBoot_frame. Qed.
Lemma ensureBoot_logs f s : st_logs (storage (ensureBoot f s)) = st_logs (storage s).
Proof. apply ensureBoot_frame. Qed.

Lemma quiet_frame s s' :
  outbox s' = outbox s -> history s' = history s ->
  lastOpenMap s' = lastOpenMap s -> consentMap s' = consentMap s ->
  st_logs (storage s') = st_logs (storage s) ->
  Spec.quiet s s'.
Proof.
  intros Ho Hh Hl Hc Hg. repeat split; try assumption.
  rewrite (newLogs_same _ _ Hg). constructor.
Qed.

Lemma riskForced_frame r s s' :
  outbox s' = outbox s -> st_logs (storage s') = st_logs (storage s) ->
  Spec.riskForced r s s'.
Proof.
  intros Ho Hg. split.
  - rewrite (newMessages_same _ _ Ho). constructor.
  - rewrite (newLogs_same _ _ Hg). constructor.
Qed.

(** The last two steps of a path that prompts: deliver, then log. *)
Lemma riskForced_prompt r env t u d e s0 s :
  outbox s = outbox s0 -> st_logs (storage s) = st_logs (storage s0) ->
  risk d = r -> logRisk e = Some r ->
  Spec.riskForced r s0 (appendLog (now env) e (safeOpenRouter env t u (OPEN_ROUTER d) s)).
Proof.
  intros Ho Hg Hd He. split.
  - destruct (safeOpenRouter_outbox env t u (OPEN_ROUTER d) s) as [k Hk].
    erewrite newMessages_app; [| cbn; rewrite Hk, Ho; reflexivity].
    apply Forall_forall. intros m Hm. apply elem_of_replicate in Hm as [-> _].
    cbn. now intros ? [= <-].
  - rewrite newLogs_appendLog.
    + constructor; [| constructor]. cbn. intros x. rewrite He. now intros [= <-].
    + destruct (safeOpenRouter_frame env t u (OPEN_ROUTER d) s) as (_ & _ & _ & -> & _).
      exact Hg.
Qed.

(** *** The three paths, case by case *)

Ltac silent :=
  first
    [ apply quiet_frame
    | apply riskForced_frame ];
  rewrite ?refreshRules_outbox, ?refreshRules_history, ?refreshRules_lastOpenMap,
    ?refreshRules_consentMap, ?refreshRules_logs;
  try match goal with
      |- context [if ?b then ensureBoot _ _ else _] => destruct b
      end;
  rewrite ?ensureBoot_outbox, ?ensureBoot_history, ?ensureBoot_lastOpenMap,
    ?ensureBoot_consentMap, ?ensureBoot_logs;
  reflexivity.

Lemma onTabUpdated_outcome env tabId status tab s p :
  let s' := onTabUpdated env tabId status tab s in
  let host := hostFromUrl (JS.str_or "" (tab ≫= tab_url)) in
  getActiveProfileSync (rulesCache s') = Some p ->
  (isHostInList host (default [] (allowList p)) = true -> Spec.quiet s s')
  /\ (isHostInList host (default [] (blockList p)) = true -> Spec.riskForced 100 s s').
Proof.
  intros s' host. subst s' host. unfold onTabUpdated.
  set (url := JS.str_or "" (tab ≫= tab_url)). set (host := hostFromUrl url).
  destruct (negb (bool_decide (status = Some "complete")) || negb (JS.truthy url))%bool;
    [intros _; split; intros _; silent |].
  destruct (isHttpUrl url); cbn [negb]; [| intros _; split; intros _; silent].
  set (s1 := if Nat.eqb (length (aiDomainsCache s)) 0 then ensureBoot (packaged env) s else s).
  assert (F1 : outbox s1 = outbox s /\ history s1 = history s
               /\ lastOpenMap s1 = lastOpenMap s /\ consentMap s1 = consentMap s
               /\ st_logs (storage s1) = st_logs (storage s)).
  { unfold s1. destruct (Nat.eqb _ 0); [apply ensureBoot_frame | easy]. }
  destruct F1 as (Fo & Fh & Fl & Fc & Fg).
  assert (Q : Spec.quiet s (refreshRules s1) /\ Spec.riskForced 100 s (refreshRules s1)).
  { split; [apply quiet_frame | apply riskForced_frame];
      rewrite ?refreshRules_outbox, ?refreshRules_history, ?refreshRules_lastOpenMap,
        ?refreshRules_consentMap, ?refreshRules_logs; assumption. }
  destruct (isAiDomainHost s1 host); cbn [negb].
  2: { intros _. split; intros _; [apply quiet_frame | apply riskForced_frame]; assumption. }
  destruct (getActiveProfileSync (rulesCache (refreshRules s1))) as [profile|] eqn:Hprof.
  2: { intros _. split; intros _; apply Q. }
  destruct (isHostInList host (default [] (allowList profile))) eqn:Hallow.
  { intros _. split; intros _; apply Q. }
  set (block := isHostInList host (default [] (blockList profile))).
  set (ctx := Build_Context true [] ∅ (Utils.isInternal url) block).
  set (s2 := record (Scored ctx (Utils.computeRiskScore ctx profile)) (refreshRules s1)).
  assert (S2 : rulesCache s2 = rulesCache (refreshRules s1) /\ outbox s2 = outbox s
               /\ st_logs (storage s2) = st_logs (storage s)).
  { unfold s2. cbn. now rewrite refreshRules_outbox, refreshRules_logs. }
  destruct S2 as (Sr2 & So2 & Sg2).
  destruct (shouldPromptForProfile (Some profile) block); cbn [negb].
  2: { rewrite Sr2, Hprof. intros [= <-].
       split; [congruence |]. intros _. now apply riskForced_frame. }
  pose proof (shouldOpenRouter_frame (now env) (TabNum tabId) host s2)
    as (Ao & Ah & Ac & Ag & Ar & Ad).
  destruct (shouldOpenRouter (now env) (TabNum tabId) host s2) as [ok s3].
  cbn [fst snd] in *.
  destruct ok; cbn [negb].
  - match goal with
    | |- context [appendLog ?t ?e (safeOpenRouter ?en ?ti ?u ?m ?x)] =>
        destruct (safeOpenRouter_frame en ti u m x) as (_ & _ & _ & _ & Sr)
    end.
    cbn [rulesCache appendLog set_storage]. rewrite Sr. cbn [rulesCache record].
    rewrite Ar, Sr2, Hprof. intros [= <-].
    split; [congruence |]. fold block. intros Hb.
    apply riskForced_prompt; cbn; rewrite ?Ao, ?Ag, ?Hb; auto.
  - cbn [rulesCache record]. rewrite Ar, Sr2, Hprof. intros [= <-].
    split; [congruence |]. intros _.
    apply riskForced_frame; cbn; rewrite ?Ao, ?Ag; assumption.
Qed.

Lemma onAiUiDetected_outcome env sender pageUrl signals sensitive fromContent s p :
  let s' := (onAiUiDetected env sender pageUrl signals sensitive fromContent s).2 in
  let host := hostFromUrl (JS.str_or (JS.str_or "" (senderUrl sender)) pageUrl) in
  getActiveProfileSync (rulesCache s') = Some p ->
  (isHostInList host (default [] (allowList p)) = true -> Spec.quiet s s')
  /\ (isHostInList host (default [] (blockList p)) = true -> Spec.riskForced 100 s s').
Proof.
  intros s' host. subst s' host. unfold onAiUiDetected.
  set (url := JS.str_or (JS.str_or "" (senderUrl sender)) pageUrl).
  set (host := hostFromUrl url).
  destruct (isHttpUrl url); cbn [negb snd]; [| intros _; split; intros _; silent].
  set (s1 := refreshRules s).
  assert (F1 : outbox s1 = outbox s /\ history s1 = history s
               /\ lastOpenMap s1 = lastOpenMap s /\ consentMap s1 = consentMap s
               /\ st_logs (storage s1) = st_logs (storage s)).
  { unfold s1. now rewrite refreshRules_outbox, refreshRules_history,
      refreshRules_lastOpenMap, refreshRules_consentMap, refreshRules_logs. }
  destruct F1 as (Fo & Fh & Fl & Fc & Fg).
  destruct (getActiveProfileSync (rulesCache s1)) as [profile|] eqn:Hprof; cbn [snd].
  2: { intros _. split; intros _; [apply quiet_frame | apply riskForced_frame];
         assumption. }
  destruct (isHostInList host (default [] (allowList profile))) eqn:Hallow; cbn [snd].
  { intros _. split; intros _.
    - repeat split; try assumption.
      rewrite newLogs_appendLog by assumption. now repeat constructor.
    - split.
      + rewrite newMessages_same by assumption. constructor.
      + rewrite newLogs_appendLog by assumption.
        repeat constructor. cbn. discriminate. }
  set (block := isHostInList host (default [] (blockList profile))).
  match goal with
  | |- context [record (Scored ?c _) s1] => set (ctx := c)
  end.
  set (s2 := record (Scored ctx (Utils.computeRiskScore ctx profile)) s1).
  assert (S2 : rulesCache s2 = rulesCache s1 /\ outbox s2 = outbox s
               /\ st_logs (storage s2) = st_logs (storage s)).
  { unfold s2. cbn. auto. }
  destruct S2 as (Sr2 & So2 & Sg2).
  destruct (shouldPromptForProfile (Some profile) block); cbn [negb snd].
  2: { rewrite Sr2, Hprof. intros [= <-].
       split; [congruence |]. intros _. now apply riskForced_frame. }
  set (tid := default (-1) (sender ≫= tab_id)).
  pose proof (shouldOpenRouter_frame (now env) (TabNum tid) host s2)
    as (Ao & Ah & Ac & Ag & Ar & Ad).
  destruct (shouldOpenRouter (now env) (TabNum tid) host s2) as [ok s3].
  cbn [fst snd] in *.
  destruct ok; cbn [negb snd].
  - destruct (sender ≫= tab_id) as [tabId|]; cbn [snd].
    + match goal with
      | |- context [appendLog ?t ?e (safeOpenRouter ?en ?ti ?u ?m ?x)] =>
          destruct (safeOpenRouter_frame en ti u m x) as (_ & _ & _ & _ & Sr)
      end.
      cbn [rulesCache appendLog set_storage]. rewrite Sr. cbn [rulesCache record].
      rewrite Ar, Sr2, Hprof. intros [= <-].
      split; [congruence |]. fold block. intros Hb.
      apply riskForced_prompt; cbn; rewrite ?Ao, ?Ag, ?Hb; auto.
    + cbn [rulesCache record]. rewrite Ar, Sr2, Hprof. intros [= <-].
      split; [congruence |]. intros _.
      apply riskForced_frame; cbn; rewrite ?Ao, ?Ag; assumption.
  - cbn [rulesCache record]. rewrite Ar, Sr2, Hprof. intros [= <-].
    split; [congruence |]. intros _.
    apply riskForced_frame; cbn; rewrite ?Ao, ?Ag; assumption.
Qed.

Lemma reevaluateTab_rulesCache profile s te :
  rulesCache (reevaluateTab profile s te) = rulesCache s.
Proof.
  destruct te as [t env]. unfold reevaluateTab.
  destruct (tab_id t) as [tid|]; [| reflexivity].
  destruct (tab_url t) as [url|]; [| reflexivity].
  destruct (Z.eqb tid 0 || negb (JS.truthy url) || negb (isHttpUrl url))%bool;
    [reflexivity |].
  destruct (negb (JS.truthy (hostFromUrl url)) || negb (isAiDomainHost s (hostFromUrl url)))%bool;
    [reflexivity |].
  destruct profile as [profile|]; [| reflexivity].
  destruct (isHostInList _ (default [] (allowList profile))); [reflexivity |].
  destruct (shouldPromptForProfile _ _); cbn [negb]; [| reflexivity].
  match goal with
  | |- context [shouldOpenRouter ?a ?b ?c ?d] =>
      pose proof (shouldOpenRouter_frame a b c d) as (_ & _ & _ & _ & Ar & _);
      destruct (shouldOpenRouter a b c d) as [ok s3]
  end.
  cbn [fst snd] in *.
  destruct ok; cbn [negb].
  - match goal with
    | |- context [appendLog ?t ?e (safeOpenRouter ?en ?ti ?u ?m ?x)] =>
        destruct (safeOpenRouter_frame en ti u m x) as (_ & _ & _ & _ & Sr)
    end.
    cbn [rulesCache appendLog set_storage]. rewrite Sr. cbn. now rewrite Ar.
  - cbn. now rewrite Ar.
Qed.

Lemma reevaluateTab_outcome p s t env :
  let s' := reevaluateTab (Some p) s (t, env) in
  let host := hostFromUrl (default "" (tab_url t)) in
  (isHostInList host (default [] (allowList p)) = true -> s' = s)
  /\ (isHostInList host (default [] (blockList p)) = true -> Spec.riskForced 100 s s').
Proof.
  intros s' host. subst s' host. unfold reevaluateTab.
  destruct (tab_id t) as [tid|]; [| split; intros _; [reflexivity | silent]].
  destruct (tab_url t) as [url|]; [| split; intros _; [reflexivity | silent]].
  change (default "" (Some url)) with url. set (host := hostFromUrl url).
  destruct (Z.eqb tid 0 || negb (JS.truthy url) || negb (isHttpUrl url))%bool;
    [split; intros _; [reflexivity | silent] |].
  destruct (negb (JS.truthy host) || negb (isAiDomainHost s host))%bool;
    [split; intros _; [reflexivity | silent] |].
  destruct (isHostInList host (default [] (allowList p))) eqn:Hallow;
    [split; intros _; [reflexivity | silent] |].
  split; [intros [=] |].
  set (block := isHostInList host (default [] (blockList p))).
  intros Hb.
  match goal with
  | |- context [record (Scored ?c _) s] => set (ctx := c)
  end.
  set (s2 := record (Scored ctx (Utils.computeRiskScore ctx p)) s).
  destruct (shouldPromptForProfile (Some p) block); cbn [negb];
    [| now apply riskForced_frame].
  pose proof (shouldOpenRouter_frame (now env) (TabNum tid) host s2)
    as (Ao & Ah & Ac & Ag & Ar & Ad).
  destruct (shouldOpenRouter (now env) (TabNum tid) host s2) as [ok s3].
  cbn [fst snd] in *.
  destruct ok; cbn [negb].
  - apply riskForced_prompt; cbn; rewrite ?Ao, ?Ag, ?Hb; auto.
  - apply riskForced_frame; cbn; rewrite ?Ao, ?Ag; reflexivity.
Qed.

Lemma sweep_rulesCache profile tabs s :
  rulesCache (fold_left (reevaluateTab profile) tabs s) = rulesCache s.
Proof.
  revert s. induction tabs as [|te tabs IH]; intros s; [reflexivity |].
  cbn [fold_left]. now rewrite IH, reevaluateTab_rulesCache.
Qed.

(** Processing one more tab of a sweep. *)
Lemma sweep_snoc tabs te s :
  forceReevaluateAndPrompt (tabs ++ [te]) s
  = reevaluateTab (getActiveProfileSync (rulesCache (forceReevaluateAndPrompt tabs s)))
      (forceReevaluateAndPrompt tabs s) te.
Proof.
  unfold forceReevaluateAndPrompt. rewrite fold_left_app. cbn [fold_left].
  now rewrite sweep_rulesCache.
Qed.

(** *** Block list and allow list *)


(** C3: on each trigger path, when the host matches the allow list of the
    active profile, the run is silent: no risk is computed, no admission
    is attempted, both maps stay as they were and nothing is sent. For
    the sweep the tab is skipped without any change of state. *)
Theorem allowlist_short_circuit (p : Profile) :
  (forall env tabId status tab s,
      let s' := onTabUpdated env tabId status tab s in
      let host := hostFromUrl (JS.str_or "" (tab ≫= tab_url)) in
      getActiveProfileSync (rulesCache s') = Some p ->
      isHostInList host (default [] (allowList p)) = true ->
      Spec.quiet s s')
  /\ (forall env sender pageUrl signals sensitive fromContent s,
        let s' := (onAiUiDetected env sender pageUrl signals sensitive fromContent s).2 in
        let host := hostFromUrl (JS.str_or (JS.str_or "" (senderUrl sender)) pageUrl) in
        getActiveProfileSync (rulesCache s') = Some p ->
        isHostInList host (default [] (allowList p)) = true ->
        Spec.quiet s s')
  /\ (forall tabs t env s,
        let s1 := forceReevaluateAndPrompt tabs s in
        let s2 := forceReevaluateAndPrompt (tabs ++ [(t, env)]) s in
        let host := hostFromUrl (default "" (tab_url t)) in
        getActiveProfileSync (rulesCache s2) = Some p ->
        isHostInList host (default [] (allowList p)) = true ->
        s2 = s1 /\ Spec.quiet s1 s2).
Proof.
  split; [| split].
  - intros env tabId status tab s s' host Hp Ha.
    now apply (onTabUpdated_outcome env tabId status tab s p Hp).
  - intros env sender pageUrl signals sensitive fromContent s s' host Hp Ha.
    now apply (onAiUiDetected_outcome env sender pageUrl signals sensitive fromContent s p Hp).
  - intros tabs t env s s1 s2 host Hp Ha. subst s2. revert Hp.
    rewrite sweep_snoc. fold s1. rewrite reevaluateTab_rulesCache. intros ->.
    destruct (reevaluateTab_outcome p s1 t env) as [He _].
    rewrite (He Ha). split; [reflexivity |]. now apply quiet_frame.
Qed.

End TriggerPaths.


(** A host on both lists of a strict profile: the allow list wins, the
    run is silent. *)
Lemma allowlist_short_circuit_witness :
  let p := Example.profile "strict" ["example.com"] ["example.com"] None true (Some 70) 90 in
  let s := Example.engine (Some (Example.rulesOf p (Some "1234"))) ["example.com"] in
  let s' := @Engine.onTabUpdated Example.browser (Example.env 1700000000000) 7
              (Some "complete") (Some (Example.tab 7 "https://chat.example.com/")) s in
  Spec.quiet s s' /\ Engine.outbox s' = [].
Proof.
  intros p s s'. split; [| vm_compute; reflexivity].
  destruct (@allowlist_short_circuit Example.browser p) as [Hpath _].
  apply (Hpath (Example.env 1700000000000) 7 (Some "complete")
           (Some (Example.tab 7 "https://chat.example.com/")) s);
    vm_compute; reflexivity.
Defined.

(** ** At most one admission per key and cooldown window *)

Section AtMostOnce.
Context `{Browser}.
Import Engine Spec.

Lemma admissions_app k a b :
  admissions k (a ++ b) = (admissions k a + admissions k b)%nat.
Proof. unfold admissions. now rewrite List.filter_app, length_app. Qed.

Lemma grantStep_quiet t s s' :
  history s' = history s -> lastOpenMap s' = lastOpenMap s -> grantStep t s s' [].
Proof.
  intros Hh Hl. split; [now rewrite app_nil_r |]. left. now split.
Qed.

Lemma grantStep_frame t s s1 s2 added :
  grantStep t s s1 added ->
  history s2 = history s1 -> lastOpenMap s2 = lastOpenMap s1 ->
  grantStep t s s2 added.
Proof. unfold grantStep. now intros [Hh Hl] -> ->. Qed.

(** The state just after an admission test was made and recorded. *)
Lemma grant_recorded t tid host s s2 ctx score ok s3 :
  history s2 = (history s ++ [Scored ctx score])%list ->
  lastOpenMap s2 = lastOpenMap s ->
  shouldOpenRouter t tid host s2 = (ok, s3) ->
  grantStep t s (record (Admission tid host ok) s3)
            [Scored ctx score; Admission tid host ok].
Proof.
  intros Hh Hl Hr. destruct ok.
  - apply shouldOpenRouter_granted_cooldown in Hr as (n & -> & Hc & ->).
    split; [cbn; rewrite Hh, <- app_assoc; reflexivity |].
    right. exists n, host. unfold lastOpen in *. rewrite Hl in Hc.
    split; [exact Hc |]. split; [cbn; now rewrite Hl |].
    intros k. unfold admissions. cbn.
    now destruct (String.eqb (cacheKey n host) k).
  - apply shouldOpenRouter_denied in Hr as ->.
    split; [cbn; rewrite Hh, <- app_assoc; reflexivity |].
    left. split; [exact Hl |]. intros k. unfold admissions. cbn. now destruct tid.
Qed.

Lemma scored_only t s s1 ctx score :
  history s1 = (history s ++ [Scored ctx score])%list ->
  lastOpenMap s1 = lastOpenMap s ->
  grantStep t s s1 [Scored ctx score].
Proof. intros Hh Hl. split; [exact Hh |]. left. now split. Qed.

Ltac recorded Hadm :=
  eapply grant_recorded; [| | exact Hadm]; cbn;
  rewrite ?refreshRules_history, ?refreshRules_lastOpenMap; eauto.

Ltac delivered :=
  match goal with
  | |- context [safeOpenRouter ?en ?ti ?u ?m ?x] =>
      let Sh := fresh in
      let Sl := fresh in
      destruct (safeOpenRouter_frame en ti u m x) as (Sh & Sl & _);
      cbn; rewrite ?Sh, ?Sl; reflexivity
  end.

Lemma onTabUpdated_grants env tabId status tab s :
  exists added, grantStep (now env) s (onTabUpdated env tabId status tab s) added.
Proof.
  unfold onTabUpdated.
  set (url := JS.str_or "" (tab ≫= tab_url)). set (host := hostFromUrl url).
  destruct (negb (bool_decide (status = Some "complete")) || negb (JS.truthy url))%bool;
    [exists []; now apply grantStep_quiet |].
  destruct (isHttpUrl url); cbn [negb]; [| exists []; now apply grantStep_quiet].
  set (s1 := if Nat.eqb (length (aiDomainsCache s)) 0 then ensureBoot (packaged env) s else s).
  assert (F1 : history s1 = history s /\ lastOpenMap s1 = lastOpenMap s).
  { unfold s1. destruct (Nat.eqb _ 0); [| easy].
    now rewrite ensureBoot_history, ensureBoot_lastOpenMap. }
  destruct F1 as (Fh & Fl).
  assert (Q : grantStep (now env) s (refreshRules s1) []).
  { apply grantStep_quiet;
      now rewrite ?refreshRules_history, ?refreshRules_lastOpenMap. }
  destruct (isAiDomainHost s1 host); cbn [negb];
    [| exists []; now apply grantStep_quiet].
  destruct (getActiveProfileSync (rulesCache (refreshRules s1))) as [profile|];
    [| eauto].
  destruct (isHostInList host (default [] (allowList profile))); [eauto |].
  destruct (shouldPromptForProfile _ _); cbn [negb].
  2: { eexists. apply scored_only; cbn;
         now rewrite ?refreshRules_history, ?refreshRules_lastOpenMap, ?Fh, ?Fl. }
  match goal with
  | |- context [shouldOpenRouter ?a ?b ?c ?d] =>
      destruct (shouldOpenRouter a b c d) as [ok s3] eqn:Hadm
  end.
  destruct ok; cbn [negb]; eexists.
  - eapply grantStep_frame; [recorded Hadm | delivered | delivered];
      rewrite ?Fh, ?Fl; reflexivity.
  - recorded Hadm; rewrite ?Fh, ?Fl; reflexivity.
Qed.

Lemma onAiUiDetected_grants env sender pageUrl signals sensitive fromContent s :
  exists added,
    grantStep (now env) s
      (onAiUiDetected env sender pageUrl signals sensitive fromContent s).2 added.
Proof.
  unfold onAiUiDetected.
  set (url := JS.str_or (JS.str_or "" (senderUrl sender)) pageUrl).
  set (host := hostFromUrl url).
  destruct (isHttpUrl url); cbn [negb snd]; [| exists []; now apply grantStep_quiet].
  assert (Q : grantStep (now env) s (refreshRules s) []).
  { apply grantStep_quiet;
      now rewrite ?refreshRules_history, ?refreshRules_lastOpenMap. }
  destruct (getActiveProfileSync (rulesCache (refreshRules s))) as [profile|];
    cbn [snd]; [| eauto].
  destruct (isHostInList host (default [] (allowList profile))); cbn [snd].
  { exists []. apply grantStep_quiet; cbn;
      now rewrite ?refreshRules_history, ?refreshRules_lastOpenMap. }
  destruct (shouldPromptForProfile _ _); cbn [negb snd].
  2: { eexists. apply scored_only; cbn;
         now rewrite ?refreshRules_history, ?refreshRules_lastOpenMap. }
  generalize (default (-1) (sender ≫= tab_id)). intros tid.
  match goal with
  | |- context [shouldOpenRouter ?a ?b ?c ?d] =>
      destruct (shouldOpenRouter a b c d) as [ok s3] eqn:Hadm
  end.
  destruct ok; cbn [negb snd]; [destruct (sender ≫= tab_id); cbn [snd] | ]; eexists.
  - eapply grantStep_frame; [recorded Hadm | delivered | delivered].
  - recorded Hadm.
  - recorded Hadm.
Qed.

Lemma reevaluateTab_grants profile s t env :
  exists added, grantStep (now env) s (reevaluateTab profile s (t, env)) added.
Proof.
  unfold reevaluateTab.
  destruct (tab_id t) as [tid|]; [| exists []; now apply grantStep_quiet].
  destruct (tab_url t) as [url|]; [| exists []; now apply grantStep_quiet].
  destruct (Z.eqb tid 0 || negb (JS.truthy url) || negb (isHttpUrl url))%bool;
    [exists []; now apply grantStep_quiet |].
  destruct (negb (JS.truthy (hostFromUrl url)) || negb (isAiDomainHost s (hostFromUrl url)))%bool;
    [exists []; now apply grantStep_quiet |].
  destruct profile as [profile|]; [| exists []; now apply grantStep_quiet].
  destruct (isHostInList _ (default [] (allowList profile)));
    [exists []; now apply grantStep_quiet |].
  destruct (shouldPromptForProfile _ _); cbn [negb].
  2: { eexists. now apply scored_only. }
  match goal with
  | |- context [shouldOpenRouter ?a ?b ?c ?d] =>
      destruct (shouldOpenRouter a b c d) as [ok s3] eqn:Hadm
  end.
  destruct ok; cbn [negb]; eexists.
  - eapply grantStep_frame; [recorded Hadm | delivered | delivered].
  - recorded Hadm.
Qed.

(** One run inside the window keeps the count of a key at most one. *)
Lemma onceInWindow_step k t0 t s s' h added :
  t0 <= t < t0 + OPEN_COOLDOWN_MS ->
  onceInWindow k t0 s h ->
  grantStep t s s' added ->
  onceInWindow k t0 s' (h ++ added).
Proof.
  intros Ht Hinv [_ Hstep]. unfold onceInWindow in *. rewrite admissions_app.
  destruct Hstep as [[Hl Hz] | (n & host & Hc & Hl & Hk)].
  - rewrite Hz, Hl, Nat.add_0_r. exact Hinv.
  - rewrite Hk, Hl. destruct (String.eqb_spec (cacheKey n host) k) as [E | Hne].
    + rewrite E in *. destruct Hinv as [-> | (_ & t1 & Ht1 & Hlast)].
      * right. split; [reflexivity |]. exists t. now rewrite lookup_insert_eq.
      * exfalso. unfold lastOpen in Hc. rewrite Hlast, num_or_0_idem in Hc. lia.
    + rewrite Nat.add_0_r, lookup_insert_ne by assumption. exact Hinv.
Qed.

Lemma onceInWindow_frame k t0 s s' h :
  history s' = history s -> lastOpenMap s' = lastOpenMap s ->
  onceInWindow k t0 s h -> onceInWindow k t0 s' h.
Proof. unfold onceInWindow. now intros _ ->. Qed.

Lemma once_quiet k t0 s s' h :
  history s' = history s -> lastOpenMap s' = lastOpenMap s ->
  onceInWindow k t0 s h ->
  exists added, history s' = (history s ++ added)%list
                /\ onceInWindow k t0 s' (h ++ added).
Proof.
  intros Hh Hl Hinv. exists []. rewrite !app_nil_r.
  split; [exact Hh | now apply (onceInWindow_frame k t0 s)].
Qed.

Lemma once_grant k t0 t s s' h :
  t0 <= t < t0 + OPEN_COOLDOWN_MS ->
  (exists added, grantStep t s s' added) ->
  onceInWindow k t0 s h ->
  exists added, history s' = (history s ++ added)%list
                /\ onceInWindow k t0 s' (h ++ added).
Proof.
  intros Ht [added Hg] Hinv. exists added.
  split; [apply Hg | now apply (onceInWindow_step k t0 t s)].
Qed.

Lemma sweep_once k t0 profile tabs s h :
  Forall (fun t => t0 <= t < t0 + OPEN_COOLDOWN_MS) (map (fun te => now te.2) tabs) ->
  onceInWindow k t0 s h ->
  exists added,
    history (fold_left (reevaluateTab profile) tabs s) = (history s ++ added)%list
    /\ onceInWindow k t0 (fold_left (reevaluateTab profile) tabs s) (h ++ added).
Proof.
  revert s h. induction tabs as [|[t env] tabs IH]; intros s h Hw Hinv.
  - exists []. now rewrite !app_nil_r.
  - cbn [map] in Hw. inversion_clear Hw as [|? ? Ht Hw'].
    destruct (once_grant k t0 (now env) s (reevaluateTab profile s (t, env)) h Ht
                (reevaluateTab_grants profile s t env) Hinv) as (a1 & Hh1 & Hi1).
    destruct (IH _ _ Hw' Hi1) as (a2 & Hh2 & Hi2).
    exists (a1 ++ a2)%list. cbn [fold_left]. rewrite Hh2, Hh1, <- !app_assoc.
    split; [reflexivity |]. now rewrite app_assoc.
Qed.

Lemma broadcast_frame tabs s :
  history (fold_left notifyTab tabs s) = history s
  /\ lastOpenMap (fold_left notifyTab tabs s) = lastOpenMap s.
Proof.
  revert s. induction tabs as [|t tabs IH]; intros s; [auto |].
  cbn [fold_left]. destruct (IH (notifyTab s t)) as [-> ->].
  unfold notifyTab.
  destruct (tab_id t) as [tid|]; [| auto].
  destruct (tab_url t) as [url|]; [| auto].
  destruct (Z.eqb tid 0 || negb (JS.truthy url))%bool; [auto |].
  now destruct (isHttpUrl url).
Qed.

Lemma onMessage_once k t0 env sender msg s h :
  t0 <= now env < t0 + OPEN_COOLDOWN_MS ->
  onceInWindow k t0 s h ->
  exists added,
    history (onMessage env sender msg s).2 = (history s ++ added)%list
    /\ onceInWindow k t0 (onMessage env sender msg s).2 (h ++ added).
Proof.
  intros Ht Hinv. destruct msg as [pageUrl signals sensitive fc|d|text tabUrl| | |];
    cbn [onMessage].
  - apply (once_grant k t0 (now env)); [exact Ht | | exact Hinv].
    apply onAiUiDetected_grants.
  - apply once_quiet; [| | exact Hinv].
    + unfold onRouterDecision. cbn [snd].
      destruct (String.eqb (decision d) "proceed"); [| reflexivity].
      destruct (sender ≫= tab_id); [| reflexivity]. now destruct (JS.truthy _).
    + apply onRouterDecision_lastOpenMap.
  - apply once_quiet; [| | exact Hinv]; unfold onPromptActivity;
      (destruct (isHttpUrl _); cbn [negb snd]; [| reflexivity]);
      (destruct (getActiveProfileSync _); cbn [snd]);
      cbn; now rewrite ?refreshRules_history, ?refreshRules_lastOpenMap.
  - apply once_quiet; [| | exact Hinv]; cbn [snd];
      (destruct (Nat.eqb _ 0); [| reflexivity]);
      now rewrite ?ensureBoot_history, ?ensureBoot_lastOpenMap.
  - apply once_quiet; [| | exact Hinv]; cbn [snd];
      now rewrite ?refreshRules_history, ?refreshRules_lastOpenMap.
  - now apply once_quiet.
Qed.

Lemma step_once k t0 s ee h :
  clearsCaches ee.2 = false ->
  Forall (fun t => t0 <= t < t0 + OPEN_COOLDOWN_MS) (clocks ee) ->
  onceInWindow k t0 s h ->
  exists added, history (step s ee) = (history s ++ added)%list
                /\ onceInWindow k t0 (step s ee) (h ++ added).
Proof.
  destruct ee as [env ev]. unfold clocks. cbn [fst snd step].
  intros Hc Hw Hinv.
  destruct ev as [|tabId status tab|sender msg|area changes|tabs|fetched].
  - apply once_quiet; [| | exact Hinv];
      now rewrite ?ensureBoot_history, ?ensureBoot_lastOpenMap.
  - inversion_clear Hw as [|? ? Ht _].
    apply (once_grant k t0 (now env)); [exact Ht | | exact Hinv].
    apply onTabUpdated_grants.
  - inversion_clear Hw as [|? ? Ht _]. now apply onMessage_once.
  - cbn [clearsCaches] in Hc. apply once_quiet; [| | exact Hinv];
      unfold onStorageChanged;
      (destruct (String.eqb area "local") eqn:Ea; cbn [negb]; [| reflexivity]);
      (destruct (ch_rules changes) as [nv|] eqn:Er; [| reflexivity]);
      exfalso; rewrite ?Ea, ?Er in Hc; cbn [andb] in Hc;
      apply bool_decide_eq_false in Hc; apply Hc; eauto.
  - unfold onTabsQueried, forceReevaluateAndPrompt.
    destruct (broadcast_frame (map fst tabs) s) as [Bh Bl].
    set (s1 := refreshRules (fold_left notifyTab (map fst tabs) s)).
    assert (Hinv1 : onceInWindow k t0 s1 h).
    { apply (onceInWindow_frame k t0 s); [| | exact Hinv]; unfold s1;
        now rewrite ?refreshRules_history, ?refreshRules_lastOpenMap. }
    destruct (sweep_once k t0 (getActiveProfileSync (rulesCache s1)) tabs s1 h Hw Hinv1)
      as (added & Hh & Hi).
    exists added. split; [| exact Hi].
    rewrite Hh. unfold s1. now rewrite refreshRules_history, Bh.
  - apply once_quiet; [| | exact Hinv]; unfold onCustomDomainsChanged;
      now destruct fetched.
Qed.

Lemma run_once k t0 trace s h :
  Forall (fun ee => clearsCaches ee.2 = false) trace ->
  Forall (fun ee => Forall (fun t => t0 <= t < t0 + OPEN_COOLDOWN_MS) (clocks ee)) trace ->
  onceInWindow k t0 s h ->
  exists added, history (run trace s) = (history s ++ added)%list
                /\ onceInWindow k t0 (run trace s) (h ++ added).
Proof.
  revert s h. induction trace as [|ee trace IH]; intros s h Hc Hw Hinv.
  - exists []. now rewrite !app_nil_r.
  - inversion_clear Hc as [|? ? Hc1 Hc']. inversion_clear Hw as [|? ? Hw1 Hw'].
    destruct (step_once k t0 s ee h Hc1 Hw1 Hinv) as (a1 & Hh1 & Hi1).
    destruct (IH _ _ Hc' Hw' Hi1) as (a2 & Hh2 & Hi2).
    exists (a1 ++ a2)%list. unfold run in *. cbn [fold_left].
    rewrite Hh2, Hh1, <- !app_assoc. split; [reflexivity |]. now rewrite app_assoc.
Qed.

(** C6: for a key [(tabId, host)], the admission test answers false while
    a consent window is unexpired, answers false when the last recorded
    open (read as [lastOpenMap.get(key) || 0]) is less than the 5 s
    cooldown before now, and otherwise records now as the last open and
    answers true. Hence a test of the key less than the cooldown after a
    granted one is refused, and over any sequence of engine events without
    a policy change whose clock readings lie in one window shorter than
    the cooldown, at most one admission is granted under the key. *)
Theorem shouldOpenRouter_dedup now n host s :
  host <> "" ->
  let key := cacheKey n host in
  OPEN_COOLDOWN_MS = 5000
  /\ (consentActive s key now -> shouldOpenRouter now (TabNum n) host s = (false, s))
  /\ (now - lastOpen s key < OPEN_COOLDOWN_MS ->
      shouldOpenRouter now (TabNum n) host s = (false, s))
  /\ (~ consentActive s key now -> OPEN_COOLDOWN_MS <= now - lastOpen s key ->
      shouldOpenRouter now (TabNum n) host s
      = (true, set_lastOpenMap (<[key := now]> (lastOpenMap s)) s))
  /\ (forall now' s1,
        shouldOpenRouter now (TabNum n) host s = (true, s1) ->
        now' - now < OPEN_COOLDOWN_MS ->
        shouldOpenRouter now' (TabNum n) host s1 = (false, s1))
  /\ (forall trace,
        Forall (fun ee => clearsCaches ee.2 = false) trace ->
        Forall (fun ee => Forall (fun t => now <= t < now + OPEN_COOLDOWN_MS) (clocks ee))
               trace ->
        (admissions key (newCalls s (run trace s)) <= 1)%nat).
Proof.
  intros Hh key. split; [reflexivity |].
  destruct (shouldOpenRouter_cases now n host s Hh) as (H1 & H2 & H3).
  split; [exact H1 |]. split; [exact H2 |]. split; [exact H3 |]. split.
  - intros now' s1. now apply shouldOpenRouter_twice.
  - intros trace Hc Hw.
    destruct (run_once key now trace s [] Hc Hw) as (added & Hhist & Hi).
    { now left. }
    unfold newCalls. rewrite Hhist, drop_app_length.
    cbn [app] in Hi. destruct Hi as [-> | [-> _]]; lia.
Qed.

End AtMostOnce.

(** The first test of a key on empty maps is granted. *)
Lemma shouldOpenRouter_dedup_witness :
  let s := Example.engine None [] in
  Engine.shouldOpenRouter 1700000000000 (Engine.TabNum 7) "chat.example.com" s
  = (true, Engine.set_lastOpenMap
             (<[Engine.cacheKey 7 "chat.example.com" := 1700000000000]>
                (Engine.lastOpenMap s)) s).
Proof.
  intros s.
  assert (Hh : "chat.example.com" <> "") by discriminate.
  destruct (@shouldOpenRouter_dedup Example.browser 1700000000000 7
              "chat.example.com" s Hh) as (_ & _ & _ & Hgrant & _).
  apply Hgrant.
  - intros (c & Hc & _). vm_compute in Hc. discriminate.
  - vm_compute. discriminate.
Defined.


(** ** Policy change *)

Section PolicyChange.
Context `{Browser}.
Import Engine.

Lemma reevaluateTab_maps profile s t env :
  let s' := reevaluateTab profile s (t, env) in
  consentMap s' = consentMap s
  /\ (lastOpenMap s' = lastOpenMap s
      \/ exists key, lastOpenMap s' = <[key := now env]> (lastOpenMap s)).
Proof.
  unfold reevaluateTab.
  destruct (tab_id t) as [tid|]; [| auto].
  destruct (tab_url t) as [url|]; [| auto].
  destruct (Z.eqb tid 0 || negb (JS.truthy url) || negb (isHttpUrl url))%bool; [auto |].
  destruct (negb (JS.truthy (hostFromUrl url)) || negb (isAiDomainHost s (hostFromUrl url)))%bool;
    [auto |].
  destruct profile as [profile|]; [| auto].
  destruct (isHostInList _ (default [] (allowList profile))); [auto |].
  destruct (shouldPromptForProfile _ _); cbn [negb]; [| auto].
  match goal with
  | |- context [shouldOpenRouter ?a ?b ?c ?d] =>
      pose proof (shouldOpenRouter_frame a b c d) as (_ & _ & Ac & _ & _ & _);
      destruct (shouldOpenRouter a b c d) as [ok s3] eqn:Hadm
  end.
  cbn [fst snd] in *.
  destruct ok; cbn [negb].
  - apply shouldOpenRouter_granted in Hadm as (n & _ & _ & ->).
    match goal with
    | |- context [appendLog ?t ?e (safeOpenRouter ?en ?ti ?u ?m ?x)] =>
        destruct (safeOpenRouter_frame en ti u m x) as (_ & Sl & Sc & _ & _)
    end.
    cbn [consentMap lastOpenMap appendLog set_storage]. rewrite Sl, Sc. cbn.
    split; [reflexivity |]. right. eauto.
  - apply shouldOpenRouter_denied in Hadm as ->. cbn. auto.
Qed.

Lemma notifyTab_maps s t :
  consentMap (notifyTab s t) = consentMap s
  /\ lastOpenMap (notifyTab s t) = lastOpenMap s.
Proof.
  unfold notifyTab.
  destruct (tab_id t) as [tid|]; [| auto].
  destruct (tab_url t) as [url|]; [| auto].
  destruct (Z.eqb tid 0 || negb (JS.truthy url))%bool; [auto |].
  now destruct (isHttpUrl url).
Qed.

Lemma broadcast_maps tabs s :
  consentMap (fold_left notifyTab tabs s) = consentMap s
  /\ lastOpenMap (fold_left notifyTab tabs s) = lastOpenMap s.
Proof.
  revert s. induction tabs as [|t tabs IH]; intros s; [auto |].
  cbn [fold_left]. destruct (IH (notifyTab s t)) as [-> ->]. apply notifyTab_maps.
Qed.

(** During a sweep the consent map is not written, and every entry of the
    last-open map is an old one or the clock reading of a swept tab. *)
Lemma sweep_maps profile tabs s :
  let s' := fold_left (reevaluateTab profile) tabs s in
  consentMap s' = consentMap s
  /\ forall k v, lastOpenMap s' !! k = Some v ->
       lastOpenMap s !! k = Some v \/ v ∈ map (fun te => now te.2) tabs.
Proof.
  revert s. induction tabs as [|[t env] tabs IH]; intros s; [cbn; auto |].
  cbn [fold_left map]. destruct (IH (reevaluateTab profile s (t, env))) as [Hc Hl].
  destruct (reevaluateTab_maps profile s t env) as [Hc1 Hl1].
  split; [now rewrite Hc |].
  intros k v Hk. destruct (Hl k v Hk) as [Hold | Hin].
  - destruct Hl1 as [E | [key E]]; rewrite E in Hold; [auto |].
    destruct (decide (key = k)) as [-> | Hne].
    + rewrite lookup_insert_eq in Hold. injection Hold as <-.
      right. apply list_elem_of_here.
    + rewrite lookup_insert_ne in Hold by assumption. auto.
  - right. now apply list_elem_of_further.
Qed.

(** C8: a change of the stored rules (area local, key rules, whatever was
    edited) empties the last-open map and the consent map at once,
    whatever they held; the sweep that follows starts from the emptied
    maps, so the outcome of the change, and of any events after it, does
    not depend on the entries held before: after the sweep the consent
    map is empty and every last-open entry was written by the sweep. *)
Theorem policy_change_invalidates newValue custom tabs s :
  let changes := {| ch_rules := Some newValue; ch_customDomains := custom |} in
  let s1 := onStorageChanged "local" changes s in
  let s2 := policyChanged "local" changes tabs s in
  (lastOpenMap s1 = ∅ /\ consentMap s1 = ∅)
  /\ s2 = onTabsQueried tabs s1
  /\ (forall m c,
        onStorageChanged "local" changes (set_consentMap c (set_lastOpenMap m s)) = s1)
  /\ (forall env trace m c,
        run ((env, StorageChanged "local" changes) :: trace)
            (set_consentMap c (set_lastOpenMap m s))
        = run ((env, StorageChanged "local" changes) :: trace) s)
  /\ consentMap s2 = ∅
  /\ (forall k v, lastOpenMap s2 !! k = Some v -> v ∈ map (fun te => now te.2) tabs).
Proof.
  intros changes s1 s2.
  assert (E1 : lastOpenMap s1 = ∅ /\ consentMap s1 = ∅) by (split; reflexivity).
  assert (E2 : s2 = onTabsQueried tabs s1) by reflexivity.
  assert (E3 : forall m c,
             onStorageChanged "local" changes (set_consentMap c (set_lastOpenMap m s)) = s1)
    by reflexivity.
  split; [exact E1 |]. split; [exact E2 |]. split; [exact E3 |].
  split; [| split].
  - intros env trace m c. unfold run. cbn [fold_left step].
    now rewrite E3.
  - rewrite E2. unfold onTabsQueried, forceReevaluateAndPrompt.
    destruct (sweep_maps
                (getActiveProfileSync (rulesCache (refreshRules (fold_left notifyTab (map fst tabs) s1))))
                tabs (refreshRules (fold_left notifyTab (map fst tabs) s1))) as [-> _].
    rewrite refreshRules_consentMap.
    destruct (broadcast_maps (map fst tabs) s1) as [-> _]. apply E1.
  - intros k v Hk. rewrite E2 in Hk. unfold onTabsQueried, forceReevaluateAndPrompt in Hk.
    destruct (sweep_maps
                (getActiveProfileSync (rulesCache (refreshRules (fold_left notifyTab (map fst tabs) s1))))
                tabs (refreshRules (fold_left notifyTab (map fst tabs) s1))) as [_ Hl].
    destruct (Hl k v Hk) as [Hold | Hin]; [| exact Hin].
    rewrite refreshRules_lastOpenMap in Hold.
    destruct (broadcast_maps (map fst tabs) s1) as [_ E]. rewrite E in Hold.
    destruct E1 as [E1 _]. rewrite E1 in Hold. now rewrite lookup_empty in Hold.
Qed.

End PolicyChange.

(** ** Router state machine *)

Section RouterProps.
Context `{Browser}.
Import Engine Router.

Lemma getOverlay_elem i p o :
  getOverlay i p = Some o -> In o (overlays p) /\ oid o = i.
Proof.
  unfold getOverlay. intros Hf. apply find_some in Hf as [Hin He].
  split; [exact Hin | now apply Nat.eqb_eq].
Qed.


Lemma sendDecision_overlays o choice v p p' effs :
  sendDecision o choice v p = Some (p', effs) ->
  overlays p' = overlays p /\ (shields p' = shields p /\ nextId p' = nextId p)
  /\ exists rest, effs = SendMessage (decisionMessage o (href p) choice (Some v) None) :: rest
                  /\ forall m, ~ In (SendMessage m) rest.
Proof.
  unfold sendDecision. cbn [href set_suppress].
  destruct (allowChecked o || blockChecked o)%bool.
  - destruct (parseURL (href p)) as [u|]; [| discriminate].
    unfold storeToggles. cbn [rules set_suppress].
    destruct (rules p) as [r|].
    + destruct (updateFirst _ _ _) as [ps|]; intros [= <- <-]; cbn;
        (split; [reflexivity |]; split; [split; reflexivity |]; eexists; split; [reflexivity |]).
      * intros m [Hm | []]. discriminate.
      * intros m [].
    + intros [= <- <-]. cbn. split; [reflexivity |]. split; [split; reflexivity |].
      eexists; split; [reflexivity |]. intros m [].
  - intros [= <- <-]. cbn. split; [reflexivity |]. split; [split; reflexivity |].
    eexists; split; [reflexivity |]. intros m [].
Qed.


(** Messages that are not decisions leave the consent map alone. *)
Lemma deliver_no_decision env sender effs e :
  (forall d, ~ In (SendMessage (ROUTER_DECISION d)) effs) ->
  (forall m, In (SendMessage m) effs -> m = GET_PROFILE) ->
  consentMap (deliver env sender effs e) = consentMap e.
Proof.
  unfold deliver. revert e. induction effs as [|eff effs IH]; intros e Hd Hm;
    [reflexivity |].
  cbn [fold_left]. rewrite IH.
  - destruct eff as [m| | |]; try reflexivity.
    rewrite (Hm m (or_introl eq_refl)). cbn. apply refreshRules_consentMap.
  - intros d Hin. apply (Hd d). now right.
  - intros m Hin. apply Hm. now right.
Qed.

(** *** PIN-required mode is stable *)

Lemma pinLocked_same i p p' :
  overlays p' = overlays p -> nextId p' = nextId p ->
  pinLocked i p -> pinLocked i p'.
Proof. unfold pinLocked. now intros -> ->. Qed.

Lemma pinLocked_close i j p : pinLocked i p -> pinLocked i (close j p).
Proof.
  intros [Hn Hf]. split; [exact Hn |]. cbn [overlays close set_overlays].
  rewrite List.Forall_forall in *. intros o Ho. apply filter_In in Ho as [Ho _]. auto.
Qed.

Lemma pinLocked_update i j f p :
  (forall o, oid (f o) = oid o) ->
  (forall o, pinRequired o = true -> pinRequired (f o) = true) ->
  pinLocked i p -> pinLocked i (updateOverlay j f p).
Proof.
  intros Hid Hpin [Hn Hf]. split; [exact Hn |]. cbn [overlays updateOverlay set_overlays].
  rewrite List.Forall_forall in *. intros o Ho. apply in_map_iff in Ho as (o' & <- & Ho').
  destruct (Nat.eqb (oid o') j); [rewrite Hid |]; auto.
Qed.

Lemma pinLocked_decideAndClose i o choice v p :
  pinLocked i p -> pinLocked i (decideAndClose o choice v p).1.
Proof.
  intros Hl. unfold decideAndClose.
  destruct (sendDecision o choice v p) as [[p' effs]|] eqn:Hs; cbn [fst].
  - destruct (sendDecision_overlays _ _ _ _ _ _ Hs) as (Ho & (_ & Hn) & _).
    apply pinLocked_close. now apply (pinLocked_same i p p').
  - now apply (pinLocked_same i p).
Qed.

Lemma step_pinLocked i p e : pinLocked i p -> pinLocked i (step p e).1.
Proof.
  intros Hl. destruct e as [d| |j pr|j v|j b|j b|j|j|j|j|]; cbn [step].
  - destruct (suppress p); [exact Hl |].
    destruct (routerOpen p); cbn [negb fst]; [exact Hl |].
    destruct Hl as [Hn Hf]. split; cbn; [lia |].
    apply Forall_app. split; [exact Hf |]. constructor; [| constructor].
    cbn. lia.
  - destruct Hl as [Hn Hf]. split; [exact Hn |]. cbn.
    destruct (overlays p); [constructor | now inversion Hf].
  - destruct (getOverlay j p) as [o|]; [| exact Hl].
    destruct (pinRequiredFor pr _); [| exact Hl].
    now apply pinLocked_update.
  - now apply pinLocked_update.
  - now apply pinLocked_update.
  - now apply pinLocked_update.
  - destruct (getOverlay j p) as [o|]; [| exact Hl].
    destruct (pinRequired o); [now apply (pinLocked_same i p) |].
    now apply pinLocked_decideAndClose.
  - destruct (getOverlay j p) as [o|]; [| exact Hl].
    destruct (pinRequired o).
    + destruct (negb _ || negb _)%bool; [exact Hl |].
      now apply pinLocked_decideAndClose.
    + now apply pinLocked_decideAndClose.
  - destruct (getOverlay j p) as [o|]; [| exact Hl].
    destruct (negb _); [exact Hl |]. now apply pinLocked_close.
  - now apply pinLocked_close.
  - now apply (pinLocked_same i p).
Qed.

Lemma run_pinLocked i es p : pinLocked i p -> pinLocked i (run es p).1.
Proof.
  revert p. induction es as [|e es IH]; intros p Hl; [exact Hl |].
  cbn [run]. pose proof (step_pinLocked i p e Hl) as H1.
  destruct (step p e) as [p1 effs1]. cbn [fst] in H1.
  specialize (IH p1 H1). now destruct (run es p1).
Qed.

(** The reply to [GET_PROFILE] puts the prompt into PIN-required mode when
    the profile requires a PIN and the risk reaches its (non-zero)
    threshold. *)
Lemma profileReply_pinLocked i o pr t p :
  wf p -> getOverlay i p = Some o ->
  requireAdminPinAboveThreshold pr = true ->
  riskThreshold pr = Some t -> t <> 0 -> t <= risk (payload o) ->
  pinLocked i (step p (ProfileReply i (Some pr))).1.
Proof.
  intros [_ Hw] Ho Hreq Ht Ht0 Hle. cbn [step]. rewrite Ho.
  unfold pinRequiredFor. rewrite Hreq, Ht. unfold JS.num_or.
  destruct (Z.eqb_spec t 0) as [|_]; [contradiction |].
  apply Z.leb_le in Hle. rewrite Hle. cbn [andb fst].
  apply getOverlay_elem in Ho as [Hin <-].
  split.
  - cbn. rewrite List.Forall_forall in Hw. now apply Hw.
  - cbn. apply List.Forall_forall. intros o' Ho'.
    apply in_map_iff in Ho' as (o1 & <- & _).
    destruct (Nat.eqb_spec (oid o1) (oid o)); [reflexivity | contradiction].
Qed.

(** In PIN-required mode Cancel shows the shield and nothing else. *)
Lemma cancel_in_pin_mode i o p :
  getOverlay i p = Some o -> pinRequired o = true ->
  step p (ClickCancel i) = (showBlockingShield p, []).
Proof. intros Ho Hp. cbn [step]. now rewrite Ho, Hp. Qed.

(** *** Well-formed pages *)

Lemma wf_initial url : wf (initial url).
Proof. split; cbn; constructor. Qed.

Lemma wf_same p p' :
  overlays p' = overlays p -> nextId p' = nextId p -> wf p -> wf p'.
Proof. unfold wf. now intros -> ->. Qed.

Lemma wf_close j p : wf p -> wf (close j p).
Proof.
  intros [Hn Hf]. split; cbn [overlays close set_overlays nextId].
  - induction (overlays p) as [|o l IH]; [constructor |].
    cbn [map] in Hn. inversion_clear Hn as [|? ? Hni Hn'].
    inversion_clear Hf as [|? ? _ Hf'].
    cbn [List.filter]. destruct (negb (Nat.eqb (oid o) j)); [| now apply IH].
    cbn [map]. constructor; [| now apply IH].
    intros Hin. apply Hni. apply list_elem_of_In.
    apply list_elem_of_In, in_map_iff in Hin as (o' & Ho' & Hin).
    apply filter_In in Hin as [Hin _]. apply in_map_iff. eauto.
  - rewrite List.Forall_forall in *. intros o Ho.
    apply filter_In in Ho as [Ho _]. auto.
Qed.

Lemma wf_update j f p :
  (forall o, oid (f o) = oid o) -> wf p -> wf (updateOverlay j f p).
Proof.
  intros Hid [Hn Hf]. split; cbn [overlays updateOverlay set_overlays nextId].
  - rewrite map_map.
    erewrite map_ext; [exact Hn |].
    intros o. cbn. destruct (Nat.eqb (oid o) j); [now rewrite Hid | reflexivity].
  - rewrite List.Forall_forall in *. intros o Ho.
    apply in_map_iff in Ho as (o' & <- & Ho').
    destruct (Nat.eqb (oid o') j); [rewrite Hid |]; auto.
Qed.

Lemma wf_decideAndClose o choice v p : wf p -> wf (decideAndClose o choice v p).1.
Proof.
  intros Hw. unfold decideAndClose.
  destruct (sendDecision o choice v p) as [[p' effs]|] eqn:Hs; cbn [fst].
  - destruct (sendDecision_overlays _ _ _ _ _ _ Hs) as (Ho & (_ & Hn) & _).
    apply wf_close. now apply (wf_same p p').
  - now apply (wf_same p).
Qed.

(** Every page reached from a well-formed one is well-formed. *)
Lemma wf_step p e : wf p -> wf (step p e).1.
Proof.
  intros Hw. destruct e as [d| |j pr|j v|j b|j b|j|j|j|j|]; cbn [step].
  - destruct (suppress p); [exact Hw |].
    destruct (routerOpen p); cbn [negb fst]; [exact Hw |].
    destruct Hw as [Hn Hf]. split; cbn.
    + rewrite map_app. cbn [map]. apply NoDup_app. split; [exact Hn |].
      split; [| apply NoDup_singleton].
      intros x Hx Hx'. apply list_elem_of_singleton in Hx'. subst x.
      apply list_elem_of_In, in_map_iff in Hx as (o & Ho & Hin).
      rewrite List.Forall_forall in Hf. specialize (Hf o Hin). cbn in Ho. lia.
    + apply Forall_app. split.
      * eapply Forall_impl; [exact Hf |]. cbn. intros o Ho. lia.
      * constructor; [cbn; lia | constructor].
  - destruct Hw as [Hn Hf]. split; cbn.
    + destruct (overlays p); [constructor | cbn in Hn; now inversion Hn].
    + destruct (overlays p); [constructor | now inversion Hf].
  - destruct (getOverlay j p) as [o|]; [| exact Hw].
    destruct (pinRequiredFor pr _); [| exact Hw].
    now apply wf_update.
  - now apply wf_update.
  - now apply wf_update.
  - now apply wf_update.
  - destruct (getOverlay j p) as [o|]; [| exact Hw].
    destruct (pinRequired o); [now apply (wf_same p) |].
    now apply wf_decideAndClose.
  - destruct (getOverlay j p) as [o|]; [| exact Hw].
    destruct (pinRequired o).
    + destruct (negb _ || negb _)%bool; [exact Hw |].
      now apply wf_decideAndClose.
    + now apply wf_decideAndClose.
  - destruct (getOverlay j p) as [o|]; [| exact Hw].
    destruct (negb _); [exact Hw |]. now apply wf_close.
  - now apply wf_close.
  - now apply (wf_same p).
Qed.

Lemma wf_run es p : wf p -> wf (run es p).1.
Proof.
  revert p. induction es as [|e es IH]; intros p Hw; [exact Hw |].
  cbn [run]. pose proof (wf_step p e Hw) as H1.
  destruct (step p e) as [p1 effs1]. cbn [fst] in H1.
  specialize (IH p1 H1). now destruct (run es p1).
Qed.

(** *** Cancel and Proceed in PIN-required mode *)


End RouterProps.

(** C1 fails on the code, by a slip of the code. The callback's own
    comment reads "Strict + risk >= threshold", but the test is
    [risk >= (profile.riskThreshold || 100)]: a threshold of 0 is falsy and
    is read as 100. With [requireAdminPinAboveThreshold = true],
    [riskThreshold = 0] and a delivered risk of 50 the risk meets the
    threshold, yet the prompt is not put in PIN-required mode, and Cancel
    reports a cancel decision, closes the prompt and shows no shield: the
    page is uncovered. *)
Lemma cancel_closes_at_threshold_zero :
  let pr := Example.profile "strict" [] [] None true (Some 0) 40 in
  let p0 := Example.promptedPage (Example.rulesOf pr (Some "1234")) 50 in
  let r := @Router.run Example.browser
             [Router.ProfileReply 0 (Some pr); Router.ClickCancel 0] p0 in
  requireAdminPinAboveThreshold pr = true
  /\ (exists t, riskThreshold pr = Some t /\ t <= 50)
  /\ Router.overlays r.1 = [] /\ Router.shields r.1 = 0%nat
  /\ ~ Router.blocked r.1
  /\ exists d, r.2 = [Router.SendMessage (Engine.ROUTER_DECISION d)]
               /\ Engine.decision d = "cancel".
Proof.
  intros pr p0 r. split; [reflexivity |]. split; [exists 0; split; [reflexivity | lia] |].
  assert (Ho : Router.overlays r.1 = []) by (vm_compute; reflexivity).
  assert (Hs : Router.shields r.1 = 0%nat) by (vm_compute; reflexivity).
  split; [exact Ho |]. split; [exact Hs |]. split.
  - unfold Router.blocked. rewrite Ho, Hs. intros [Hb | Hb]; [now apply Hb | lia].
  - eexists. split; [vm_compute; reflexivity | reflexivity].
Qed.

(** The same profile and risk with a threshold of 1 instead of 0: the
    prompt is in PIN-required mode, and Cancel keeps the prompt, reports no
    decision and raises the shield. Only the threshold 0 falls through. *)
Lemma cancel_shields_at_threshold_one :
  let pr := Example.profile "strict" [] [] None true (Some 1) 40 in
  let p0 := Example.promptedPage (Example.rulesOf pr (Some "1234")) 50 in
  let r := @Router.run Example.browser
             [Router.ProfileReply 0 (Some pr); Router.ClickCancel 0] p0 in
  map Router.pinRequired (Router.overlays r.1) = [true]
  /\ Router.shields r.1 = 1%nat
  /\ Cover.decisionsOf r.2 = [].
Proof. vm_compute. repeat split. Qed.

(** PIN-required mode is entered by the [GET_PROFILE] callback only: a
    Cancel clicked before the reply arrives is handled as outside
    PIN-required mode, also at threshold 70 and risk 85. *)
Lemma cancel_closes_before_profile_reply :
  let pr := Example.profile "strict" [] [] None true (Some 70) 90 in
  let p0 := Example.promptedPage (Example.rulesOf pr (Some "1234")) 85 in
  let r := @Router.run Example.browser
             [Router.ClickCancel 0; Router.ProfileReply 0 (Some pr)] p0 in
  Router.overlays r.1 = [] /\ Router.shields r.1 = 0%nat
  /\ map Engine.decision (Cover.decisionsOf r.2) = ["cancel"].
Proof. vm_compute. repeat split. Qed.


(** ** Worked scenarios *)

(** A navigation-complete event and an in-page signal 100 ms later, same
    tab and host: one prompt is opened. *)
Example two_triggers_one_prompt :
  let p := Example.profile "confirm" [] [] None false None 40 in
  let s := Example.engine (Some (Example.rulesOf p None)) ["example.com"] in
  let t := Example.tab 7 "https://chat.example.com/" in
  let s' := @Engine.run Example.browser
              [(Example.env 1700000000000,
                Engine.TabUpdated 7 (Some "complete") (Some t));
               (Example.env 1700000000100,
                Engine.Incoming (Some t)
                  (Engine.AI_UI_DETECTED (Some "https://chat.example.com/")
                     (Some ["[data-ai]"]) None (Some true)))] s in
  map (fun m => (m.1, Engine.risk <$> Engine.directiveOf m)) (Engine.outbox s')
  = [(7, Some 40)]
  /\ Spec.admissions "7|chat.example.com" (Spec.newCalls s s') = 1%nat.
Proof. vm_compute. split; reflexivity. Qed.

(** Scenario A: the permissive profile stays silent on an AI domain, but
    prompts with risk 100 once the host is on its block list. *)
Example permissive_profile_blocklisted :
  let silent := Example.profile "allow" [] [] None false None 40 in
  let blocking := Example.profile "allow" [] ["example.com"] None false None 40 in
  let run p :=
    Engine.outbox
      (@Engine.onTabUpdated Example.browser (Example.env 1700000000000) 7
         (Some "complete") (Some (Example.tab 7 "https://chat.example.com/"))
         (Example.engine (Some (Example.rulesOf p None)) ["example.com"])) in
  run silent = []
  /\ map (fun m => Engine.risk <$> Engine.directiveOf m) (run blocking) = [Some 100].
Proof. vm_compute. split; reflexivity. Qed.

(** Scenario C: threshold 70, PIN required, risk 85, correct PIN: the
    decision is proceed with [pinVerified], the prompt closes, and the
    engine opens a consent window of ten minutes. *)
Example correct_pin_opens_consent :
  let pr := Example.profile "strict" [] [] None true (Some 70) 90 in
  let p0 := Example.promptedPage (Example.rulesOf pr (Some "1234")) 85 in
  let r := @Router.run Example.browser
             [Router.ProfileReply 0 (Some pr); Router.TypePin 0 "1234";
              Router.ClickProceed 0] p0 in
  let e := @Router.deliver Example.browser (Example.env 1700000000000)
             (Some (Example.tab 7 "https://chat.example.com/")) r.2
             (Example.engine (Some (Example.rulesOf pr (Some "1234"))) ["example.com"]) in
  Router.overlays r.1 = []
  /\ (exists d, r.2 = [Router.SendMessage (Engine.ROUTER_DECISION d)]
               /\ Engine.decision d = "proceed"
               /\ Engine.d_pinVerified d = Some true)
  /\ Engine.consentMap e
     = {[ "7|chat.example.com" := {| Engine.allowedUntil := 1700000600000 |} ]}.
Proof.
  split; [vm_compute; reflexivity |]. split; [| vm_compute; reflexivity].
  eexists. split; [vm_compute; reflexivity |]. split; reflexivity.
Qed.

(** Scenario D: once the host is on the allow list, a navigation to it
    opens nothing. *)
Example allowed_host_no_prompt :
  let p := Example.profile "strict" ["chat.example.com"] [] None true (Some 70) 90 in
  Engine.outbox
    (@Engine.onTabUpdated Example.browser (Example.env 1700000000000) 7
       (Some "complete") (Some (Example.tab 7 "https://chat.example.com/"))
       (Example.engine (Some (Example.rulesOf p (Some "1234"))) ["example.com"]))
  = [].
Proof. vm_compute. reflexivity. Qed.

(** * Further properties of the code *)

(** ** Strings *)

Section StringFacts.

Lemma append_assoc (a b c : string) : (a +:+ b) +:+ c = a +:+ (b +:+ c).
Proof.
  induction a as [|x a IH]; [reflexivity |].
  change (String x ((a +:+ b) +:+ c) = String x (a +:+ (b +:+ c))). now rewrite IH.
Qed.

Lemma append_nil_r (a : string) : a +:+ "" = a.
Proof.
  induction a as [|x a IH]; [reflexivity |].
  change (String x (a +:+ "") = String x a). now rewrite IH.
Qed.

Lemma append_length (a b : string) :
  String.length (a +:+ b) = (String.length a + String.length b)%nat.
Proof.
  induction a as [|x a IH]; [reflexivity |].
  change (S (String.length (a +:+ b)) = S (String.length a + String.length b)).
  now rewrite IH.
Qed.

Lemma rev_app_spec (s t : string) : String.rev_app s t = String.rev s +:+ t.
Proof.
  revert t. induction s as [|a s IH]; intros t; [reflexivity |].
  unfold String.rev. cbn [String.rev_app].
  rewrite (IH (String a t)), (IH (String a "")), append_assoc. reflexivity.
Qed.

Lemma rev_cons (a : ascii) (s : string) :
  String.rev (String a s) = String.rev s +:+ String a "".
Proof. unfold String.rev at 1. cbn [String.rev_app]. apply rev_app_spec. Qed.

Lemma rev_append (a b : string) : String.rev (a +:+ b) = String.rev b +:+ String.rev a.
Proof.
  induction a as [|x a IH].
  - change (String.rev b = String.rev b +:+ ""). now rewrite append_nil_r.
  - change (String x a +:+ b) with (String x (a +:+ b)).
    now rewrite !rev_cons, IH, append_assoc.
Qed.

Lemma rev_involutive (s : string) : String.rev (String.rev s) = s.
Proof.
  induction s as [|a s IH]; [reflexivity |].
  now rewrite rev_cons, rev_append, IH.
Qed.

Lemma startsWith_spec (p s : string) :
  JS.startsWith p s = true <-> exists r, s = p +:+ r.
Proof.
  revert s. induction p as [|a p IH]; intros s.
  - split; [intros _; now exists s | reflexivity].
  - destruct s as [|b s]; cbn [JS.startsWith].
    + split; [discriminate | intros [r Hr]; discriminate].
    + rewrite andb_true_iff, IH. split.
      * intros [Hab [r ->]]. apply Ascii.eqb_eq in Hab as ->. now exists r.
      * intros [r Hr]. injection Hr as -> ->. split; [apply Ascii.eqb_refl | eauto].
Qed.

Lemma endsWith_spec (s p : string) :
  JS.endsWith s p = true <-> exists pre, s = pre +:+ p.
Proof.
  unfold JS.endsWith. rewrite startsWith_spec. split.
  - intros [r Hr]. exists (String.rev r).
    rewrite <- (rev_involutive s), Hr, rev_append, rev_involutive. reflexivity.
  - intros [pre ->]. exists (String.rev pre). apply rev_append.
Qed.

Lemma lower_ascii_idem (c : ascii) : JS.lower_ascii (JS.lower_ascii c) = JS.lower_ascii c.
Proof. destruct c as [[] [] [] [] [] [] [] []]; reflexivity. Qed.

Lemma toLowerCase_idem (s : string) : JS.toLowerCase (JS.toLowerCase s) = JS.toLowerCase s.
Proof.
  induction s as [|a s IH]; [reflexivity |]. cbn. now rewrite lower_ascii_idem, IH.
Qed.

Lemma toLowerCase_append (a b : string) :
  JS.toLowerCase (a +:+ b) = JS.toLowerCase a +:+ JS.toLowerCase b.
Proof.
  induction a as [|x a IH]; [reflexivity |].
  change (String (JS.lower_ascii x) (JS.toLowerCase (a +:+ b))
          = String (JS.lower_ascii x) (JS.toLowerCase a +:+ JS.toLowerCase b)).
  now rewrite IH.
Qed.

Lemma truthy_false (s : string) : JS.truthy s = false <-> s = "".
Proof. destruct s; split; (reflexivity || discriminate). Qed.

End StringFacts.

(** ** The hexadecimal form of a digest *)

Section HexProps.
Import Hex Cover.

Lemma byte_hex (b : Byte.byte) :
  exists x y,
    padStart2 (toString16 (Byte.to_N b)) = String x (String y "")
    /\ isHexDigit x = true /\ isHexDigit y = true
    /\ (exists vx vy, digitValue x = Some vx /\ digitValue y = Some vy
                      /\ Byte.of_N (16 * vx + vy) = Some b).
Proof.
  destruct b; do 2 eexists; (split; [vm_compute; reflexivity |]);
    (split; [reflexivity |]); (split; [reflexivity |]);
    do 2 eexists; repeat split; vm_compute; reflexivity.
Qed.

(** X1: the hexadecimal string that [sha256] makes of a digest has two
    lower-case hexadecimal digits per byte, and the digest can be read
    back from it: different digests give different strings. *)
Theorem hexOfBuffer_roundtrip (buf : list Byte.byte) :
  String.length (hexOfBuffer buf) = (2 * length buf)%nat
  /\ allChars isHexDigit (hexOfBuffer buf) = true
  /\ bufferOfHex (length buf) (hexOfBuffer buf) = Some buf.
Proof.
  induction buf as [|b buf (IHl & IHc & IHr)]; [repeat split |].
  destruct (byte_hex b) as (x & y & Hp & Hx & Hy & vx & vy & Hvx & Hvy & Hb).
  cbn [hexOfBuffer length]. rewrite Hp.
  change (String x (String y "") +:+ hexOfBuffer buf)
    with (String x (String y (hexOfBuffer buf))).
  repeat split.
  - cbn [String.length]. rewrite IHl. lia.
  - cbn [allChars]. now rewrite Hx, Hy, IHc.
  - cbn [bufferOfHex]. now rewrite Hvx, Hvy, Hb, IHr.
Qed.

End HexProps.

(** ** content.js: escaping, detection and signalling *)

Section ContentProps.
Import Engine Content Cover.

#[local] Arguments String.append : simpl nomatch.

Lemma replaceAll_append c w a b :
  replaceAll c w (a +:+ b) = replaceAll c w a +:+ replaceAll c w b.
Proof.
  induction a as [|x a IH]; [reflexivity |].
  cbn. destruct (Ascii.eqb x c); rewrite IH; [now rewrite append_assoc | reflexivity].
Qed.

(** The markup of one character. *)
Lemma escapeHtml_cons a r :
  escapeHtml (String a r)
  = (if Ascii.eqb a "&" then "&amp;"
     else if Ascii.eqb a "<" then "&lt;"
     else if Ascii.eqb a ">" then "&gt;" else String a "") +:+ escapeHtml r.
Proof.
  unfold escapeHtml. cbn [replaceAll].
  destruct (Ascii.eqb a "&") eqn:E1.
  - now rewrite !replaceAll_append.
  - cbn [replaceAll]. destruct (Ascii.eqb a "<") eqn:E2.
    + now rewrite !replaceAll_append.
    + cbn [replaceAll]. now destruct (Ascii.eqb a ">").
Qed.

Lemma unescape_escape fuel s :
  (String.length s <= fuel)%nat -> unescapeHtml fuel (escapeHtml s) = s.
Proof.
  revert fuel. induction s as [|a s IH]; intros fuel Hf.
  - now destruct fuel.
  - destruct fuel as [|fuel]; [cbn in Hf; lia |].
    cbn in Hf. assert (Hf' : (String.length s <= fuel)%nat) by lia.
    rewrite escapeHtml_cons.
    destruct (Ascii.eqb_spec a "&") as [-> | N1]; [cbn; now rewrite IH |].
    destruct (Ascii.eqb_spec a "<") as [-> | N2]; [cbn; now rewrite IH |].
    destruct (Ascii.eqb_spec a ">") as [-> | N3]; [cbn; now rewrite IH |].
    cbn. apply Ascii.eqb_neq in N1. rewrite N1. now rewrite IH.
Qed.

Lemma escapeHtml_length s : (String.length s <= String.length (escapeHtml s))%nat.
Proof.
  induction s as [|a s IH]; [reflexivity |].
  rewrite escapeHtml_cons, append_length. cbn [String.length].
  destruct (Ascii.eqb a "&"); [cbn; lia |].
  destruct (Ascii.eqb a "<"); [cbn; lia |].
  destruct (Ascii.eqb a ">"); cbn; lia.
Qed.

(** X2: the text that [escapeHtml] puts into the prompt contains neither
    [<] nor [>], and reading its entities back gives the original text:
    the reason shown is the reason sent, and it cannot open a tag. *)
Theorem escapeHtml_safe (s : string) :
  allChars (fun c => negb (Ascii.eqb c "<" || Ascii.eqb c ">")) (escapeHtml s) = true
  /\ unescapeHtml (String.length (escapeHtml s)) (escapeHtml s) = s.
Proof.
  split; [| apply unescape_escape, escapeHtml_length].
  induction s as [|a s IH]; [reflexivity |].
  rewrite escapeHtml_cons.
  destruct (Ascii.eqb a "&"); [cbn; exact IH |].
  destruct (Ascii.eqb a "<") eqn:E2; [cbn; exact IH |].
  destruct (Ascii.eqb a ">") eqn:E3; [cbn; exact IH |].
  cbn. now rewrite E2, E3, IH.
Qed.

Lemma detectLoop_take present sels found :
  (length found < 5)%nat ->
  detectLoop present sels found = take 5 (found ++ List.filter present sels).
Proof.
  revert found. induction sels as [|sel sels IH]; intros found Hf.
  - cbn. rewrite app_nil_r. symmetry. apply take_ge. lia.
  - cbn [detectLoop List.filter]. destruct (present sel); [| now apply IH].
    destruct (Nat.leb_spec 5 (length (found ++ [sel]))) as [H5 | H5].
    + rewrite length_app in H5. cbn in H5.
      change (found ++ sel :: List.filter present sels)%list
        with (found ++ [sel] ++ List.filter present sels)%list.
      rewrite app_assoc. symmetry. apply take_app_length'.
      rewrite length_app. cbn. lia.
    + rewrite IH by exact H5. now rewrite <- app_assoc.
Qed.

Lemma detectAiUiSignals_capped_len present :
  (length (detectAiUiSignals present) <= 5)%nat.
Proof.
  unfold detectAiUiSignals. rewrite detectLoop_take by (cbn; lia).
  rewrite length_take. lia.
Qed.

(** X3: [detectAiUiSignals] returns the selectors that match something in
    the document, in the order of the selector table, cut after the fifth:
    never more than five signals. *)
Theorem detectAiUiSignals_capped (present : string -> bool) :
  detectAiUiSignals present = take 5 (List.filter present AI_SELECTORS)
  /\ (length (detectAiUiSignals present) <= 5)%nat
  /\ (forall sel, In sel (detectAiUiSignals present) ->
        In sel AI_SELECTORS /\ present sel = true).
Proof.
  assert (E : detectAiUiSignals present = take 5 (List.filter present AI_SELECTORS)).
  { unfold detectAiUiSignals. now rewrite detectLoop_take by (cbn; lia). }
  split; [exact E |]. split.
  - rewrite E, length_take. lia.
  - intros sel Hin. rewrite E in Hin.
    apply list_elem_of_In, elem_of_take in Hin as (i & Hi & _).
    apply list_elem_of_lookup_2, list_elem_of_In, filter_In in Hi. exact Hi.
Qed.

Lemma bump_bounds b n : n <= bump b n <= n + 1.
Proof. unfold bump. destruct b; lia. Qed.

Lemma countFields_fold inputs c :
  let r := fold_left countField inputs c in
  n_password r = n_password c + Z.of_nat (length (List.filter isPassword inputs))
  /\ n_email c <= n_email r <= n_email c + Z.of_nat (length inputs)
  /\ n_credit c <= n_credit r <= n_credit c + Z.of_nat (length inputs)
  /\ n_id c <= n_id r <= n_id c + Z.of_nat (length inputs).
Proof.
  revert c. induction inputs as [|el inputs IH]; intros c; [cbn; lia |].
  cbn [fold_left List.filter length].
  destruct (IH (countField c el)) as (Hp & He & Hc & Hi).
  cbn [countField n_password n_email n_credit n_id] in Hp, He, Hc, Hi.
  pose proof (bump_bounds (JS.includes
    (attr (a_type el) +:+ " " +:+ attr (a_name el) +:+ " " +:+ attr (a_id el)
     +:+ " " +:+ attr (a_placeholder el)) "email") (n_email c)).
  pose proof (bump_bounds (anyIncludes
    (attr (a_type el) +:+ " " +:+ attr (a_name el) +:+ " " +:+ attr (a_id el)
     +:+ " " +:+ attr (a_placeholder el)) ["credit"; "card"; "iban"; "cvc"; "cvv"])
    (n_credit c)).
  pose proof (bump_bounds (anyIncludes
    (attr (a_type el) +:+ " " +:+ attr (a_name el) +:+ " " +:+ attr (a_id el)
     +:+ " " +:+ attr (a_placeholder el)) ["employee"; "national"; "id"; "ssn"; "nin"])
    (n_id c)).
  split; [| lia].
  rewrite Hp. unfold isPassword at 2. unfold bump.
  destruct (String.eqb (attr (a_type el)) "password"); cbn [length]; lia.
Qed.

(** X4: [detectSensitiveFields] counts: the password count is the number
    of inputs whose type attribute is password (in any case), and every
    count lies between 0 and the number of inputs and textareas. *)
Theorem detectSensitiveFields_counts (inputs : list InputEl) :
  let c := detectSensitiveFields inputs in
  n_password c = Z.of_nat (length (List.filter isPassword inputs))
  /\ 0 <= n_email c <= Z.of_nat (length inputs)
  /\ 0 <= n_credit c <= Z.of_nat (length inputs)
  /\ 0 <= n_id c <= Z.of_nat (length inputs).
Proof.
  unfold detectSensitiveFields.
  destruct (countFields_fold inputs (Build_Counts 0 0 0 0)) as (Hp & He & Hc & Hi).
  cbn [n_password n_email n_credit n_id] in *. cbn zeta.
  repeat split; lia.
Qed.

(** X5: [maybeSignal] sends nothing while the router is suppressed, nothing
    on a document without AI signals and sensitive fields, and, after it
    sent a signal, nothing for the next three seconds whatever the
    document shows; a signal carries at most five selectors. *)
Theorem maybeSignal_throttled now present inputs g :
  (sg_suppress g = true -> maybeSignal now present inputs g = (g, None))
  /\ (detectAiUiSignals present = [] -> anyPositive (detectSensitiveFields inputs) = false ->
      maybeSignal now present inputs g = (g, None))
  /\ (forall g' m now' present' inputs',
        maybeSignal now present inputs g = (g', Some m) ->
        now' - now < SIGNAL_COOLDOWN_MS ->
        maybeSignal now' present' inputs' g' = (g', None))
  /\ (forall g' url signals fields dom,
        maybeSignal now present inputs g
        = (g', Some (AI_UI_DETECTED url signals fields dom)) ->
        (length (default [] signals) <= 5)%nat /\ url = Some (sg_href g)).
Proof.
  unfold maybeSignal. split; [| split; [| split]].
  - now intros ->.
  - intros Hs Ha. rewrite Hs, Ha. cbn.
    destruct (sg_suppress g); [reflexivity |].
    now destruct (Z.ltb _ SIGNAL_COOLDOWN_MS).
  - intros g' m now' present' inputs'.
    destruct (sg_suppress g) eqn:Hsup; [discriminate |].
    destruct (Z.ltb (now - lastSignalSentAt g) SIGNAL_COOLDOWN_MS); [discriminate |].
    destruct (_ || _)%bool; [| discriminate].
    intros [= <- _] Hw. cbn [sg_suppress set_lastSignalSentAt lastSignalSentAt].
    rewrite Hsup. apply Z.ltb_lt in Hw. now rewrite Hw.
  - intros g' url signals fields dom.
    destruct (sg_suppress g); [discriminate |].
    destruct (Z.ltb _ SIGNAL_COOLDOWN_MS); [discriminate |].
    destruct (_ || _)%bool; [| discriminate].
    intros [= _ <- <- _ _]. split; [| reflexivity].
    cbn. apply detectAiUiSignals_capped_len.
Qed.

(** A page with one [[data-ai]] element signals once, then stays quiet a
    second later even though a password field has appeared. *)
Lemma maybeSignal_throttled_witness :
  let g := {| sg_suppress := false; lastSignalSentAt := 0;
              sg_href := "https://mail.example.com/"; isAiDomainHere := false |} in
  let present := String.eqb "[data-ai]" in
  let pw := {| a_type := Some "Password"; a_name := None; a_id := None;
               a_placeholder := None |} in
  exists g' m,
    maybeSignal 1700000000000 present [] g = (g', Some m)
    /\ maybeSignal 1700000001000 present [pw] g' = (g', None).
Proof.
  intros g present pw.
  destruct (maybeSignal 1700000000000 present [] g) as [g' [m|]] eqn:E;
    [| vm_compute in E; discriminate].
  exists g', m. split; [reflexivity |].
  destruct (maybeSignal_throttled 1700000000000 present [] g) as (_ & _ & Hq & _).
  apply (Hq g' m 1700000001000 present [pw] E). reflexivity.
Defined.

End ContentProps.

(** ** background.js: host matching and the active profile *)

Section HostMatching.
Context `{Browser}.
Import Engine Cover.

#[local] Arguments String.append : simpl nomatch.

Lemma normalizeHostEntry_lower entry :
  JS.toLowerCase (normalizeHostEntry entry) = normalizeHostEntry entry.
Proof.
  unfold normalizeHostEntry.
  destruct (negb (JS.truthy (JS.trim entry))); [reflexivity |].
  destruct (JS.includes (JS.trim entry) "://"); [| apply toLowerCase_idem].
  destruct (parseURL (JS.trim entry)); apply toLowerCase_idem.
Qed.


(** X7: list membership looks at the host in lower case only, so two
    spellings of a host that differ in case are treated alike; the empty
    host is in no list, and a list of blank entries contains no host. *)
Theorem isHostInList_case (l : list string) :
  (forall h h', JS.toLowerCase h = JS.toLowerCase h' ->
                isHostInList h l = isHostInList h' l)
  /\ isHostInList "" l = false
  /\ (Forall (fun e => JS.trim e = "") l -> forall h, isHostInList h l = false).
Proof.
  split; [| split].
  - intros h h' E. unfold isHostInList. now rewrite E.
  - unfold isHostInList. induction l as [|e l IH]; [reflexivity |].
    cbn [existsb]. now rewrite IH.
  - intros Hb h. unfold isHostInList. induction Hb as [|e l He _ IH]; [reflexivity |].
    cbn [existsb]. rewrite IH, orb_false_r.
    unfold hostMatchesEntry, normalizeHostEntry. rewrite He. cbn [JS.truthy negb].
    now rewrite orb_true_r.
Qed.

(** X8: the content script and the service worker agree on what an AI
    domain is whenever the domain list holds normalised, non-empty
    entries. *)
Theorem hostIsAiDomain_agrees (hostname : string) (domains : list string) :
  Forall (fun d => normalizeHostEntry d = d /\ d <> "") domains ->
  Content.hostIsAiDomain hostname domains = isHostInList hostname domains.
Proof.
  intros Hd. unfold Content.hostIsAiDomain, isHostInList.
  induction Hd as [|d l [Hn Hne] _ IH]; [reflexivity |].
  cbn [existsb]. rewrite IH. f_equal.
  unfold hostMatchesEntry. rewrite toLowerCase_idem, Hn.
  rewrite (truthy_nonempty d Hne). cbn [negb].
  destruct (JS.truthy (JS.toLowerCase hostname)) eqn:Hh; cbn [negb orb]; [reflexivity |].
  apply truthy_false in Hh. rewrite Hh.
  destruct d as [|a d]; [contradiction |]. cbn [String.eqb orb].
  destruct (JS.endsWith "" ("." +:+ String a d)) eqn:E; [| reflexivity].
  apply endsWith_spec in E as [pre E]. destruct pre; discriminate.
Qed.

(** X9: the active profile is always one of the stored profiles: the
    first whose id is the selected id ("confirm" when none is selected),
    the first profile when no id matches, and none only when there is no
    profile at all. *)
Theorem getActiveProfileSync_member (r : Rules) :
  let sel := JS.str_or "confirm" (selectedProfileId r) in
  let ps := default [] (profiles r) in
  (forall p, getActiveProfileSync (Some r) = Some p -> In p ps)
  /\ (forall p, firstWithId sel ps = Some p -> getActiveProfileSync (Some r) = Some p)
  /\ (firstWithId sel ps = None -> getActiveProfileSync (Some r) = head ps)
  /\ (getActiveProfileSync (Some r) = None <-> ps = []).
Proof.
  intros sel ps. unfold getActiveProfileSync, firstWithId. fold sel. subst ps.
  destruct (profiles r) as [ps|].
  2: { change (default [] None) with (@nil Profile).
       repeat split; try discriminate; try reflexivity; auto. }
  change (default [] (Some ps)) with ps.
  destruct (List.find (fun p => String.eqb (id p) sel) ps) as [q|] eqn:Hf.
  - split; [| split; [| split]]; try discriminate; auto.
    + intros p [= <-]. now apply find_some in Hf.
    + split; [discriminate |]. intros ->. discriminate.
  - split; [| split; [| split]]; try discriminate; auto.
    + intros p Hp. destruct ps; [discriminate |]. injection Hp as <-. now left.
    + destruct ps; [tauto |]. split; discriminate.
Qed.

End HostMatching.

(** "Chat.OpenAI.com" matches the entry " .openai.com " as a subdomain. *)
Lemma hostIsAiDomain_agrees_witness :
  Content.hostIsAiDomain "Chat.OpenAI.com" ["openai.com"; "claude.ai"] = true
  /\ @Engine.isHostInList Example.browser "Chat.OpenAI.com" ["openai.com"; "claude.ai"]
     = true.
Proof.
  assert (E : Content.hostIsAiDomain "Chat.OpenAI.com" ["openai.com"; "claude.ai"]
              = @Engine.isHostInList Example.browser "Chat.OpenAI.com"
                  ["openai.com"; "claude.ai"]).
  { apply (@hostIsAiDomain_agrees Example.browser).
    repeat constructor; discriminate. }
  split; [reflexivity | rewrite <- E; reflexivity].
Defined.

(** ** utils.js: more on the risk score *)

Section RiskMore.
Import Spec Cover.

Lemma contribution_le b w w' : w <= w' -> contribution b w <= contribution b w'.
Proof. unfold contribution. destruct b; lia. Qed.

(** X10: the score never decreases when weights are raised: if every
    weight of one profile is at most the same weight of another, the
    first scores every context at most as high as the second. *)
Theorem computeRiskScore_monotone (ctx : Context) (p p' : Profile) :
  weightsLe p p' ->
  Utils.computeRiskScore ctx p <= Utils.computeRiskScore ctx p'.
Proof.
  intros (Hd & Ho & Hi & Hs). rewrite !computeRiskScore_min.
  apply Z.min_le_compat_l. unfold weightedSum.
  pose proof (contribution_le (isAiDomain ctx) _ _ Hd).
  pose proof (contribution_le (Nat.ltb 0 (length (aiUiSignals ctx))) _ _ Ho).
  pose proof (contribution_le (isInternalSite ctx) _ _ Hi).
  assert (foldr (fun k acc => contribution (fieldPresent ctx k) (fieldWeight p k) + acc)
                0 categories
          <= foldr (fun k acc => contribution (fieldPresent ctx k) (fieldWeight p' k) + acc)
                   0 categories).
  { induction Hs as [|k l Hk _ IH]; [reflexivity |]. cbn [foldr].
    pose proof (contribution_le (fieldPresent ctx k) _ _ Hk). lia. }
  lia.
Qed.

Lemma computeRiskScore_monotone_witness :
  Utils.computeRiskScore Example.aiContext
    (Example.profile "confirm" [] [] None false None 40)
  <= Utils.computeRiskScore Example.aiContext
       (Example.profile "strict" [] [] None true (Some 70) 90).
Proof.
  apply computeRiskScore_monotone.
  unfold weightsLe, categories.
  repeat split; try (vm_compute; discriminate).
  repeat constructor; vm_compute; discriminate.
Defined.

(** X11: the score looks only at which signals are present: two contexts
    that agree on the AI-domain and internal-site flags, on whether any
    AI signal was seen and on which sensitive-field categories have a
    positive count get the same score, whatever the counts or the
    [blocklisted] flag. *)
Theorem computeRiskScore_presence (ctx ctx' : Context) (p : Profile) :
  isAiDomain ctx = isAiDomain ctx' ->
  (aiUiSignals ctx = [] <-> aiUiSignals ctx' = []) ->
  isInternalSite ctx = isInternalSite ctx' ->
  Forall (fun k => fieldPresent ctx k = fieldPresent ctx' k) categories ->
  Utils.computeRiskScore ctx p = Utils.computeRiskScore ctx' p.
Proof.
  intros Hd Hs Hi Hf. rewrite !computeRiskScore_min. f_equal. unfold weightedSum.
  rewrite Hd, Hi.
  assert (Nat.ltb 0 (length (aiUiSignals ctx)) = Nat.ltb 0 (length (aiUiSignals ctx'))) as ->.
  { destruct (aiUiSignals ctx), (aiUiSignals ctx'); try reflexivity;
      destruct Hs as [H1 H2]; (now discriminate H1 || now discriminate H2). }
  f_equal.
  induction Hf as [|k l Hk _ IH]; [reflexivity |]. cbn [foldr]. now rewrite Hk, IH.
Qed.

Lemma computeRiskScore_presence_witness :
  Utils.computeRiskScore
    {| isAiDomain := true; aiUiSignals := ["[data-ai]"];
       sensitiveFields := {[ "password" := 1 ]};
       isInternalSite := false; blocklisted := false |}
    (Example.profile "confirm" [] [] None false None 40)
  = Utils.computeRiskScore
      {| isAiDomain := true; aiUiSignals := ["[data-ai]"; "[class*='gpt']"];
         sensitiveFields := {[ "password" := 7 ]};
         isInternalSite := false; blocklisted := true |}
      (Example.profile "confirm" [] [] None false None 40).
Proof.
  apply computeRiskScore_presence; try reflexivity.
  - split; discriminate.
  - unfold categories. repeat constructor.
Defined.

End RiskMore.

(** ** background.js: boot, broadcast and the domain gate *)

Section EngineMore.
Context `{Browser}.
Import Engine Cover.

Lemma uniq_go_In seen l x :
  In x (uniq_go seen l) <-> In x l /\ ~ In x seen.
Proof.
  revert seen. induction l as [|y l IH]; intros seen; [cbn; tauto |].
  cbn [uniq_go]. destruct (existsb (String.eqb y) seen) eqn:E.
  - apply existsb_exists in E as (z & Hz & Hyz). apply String.eqb_eq in Hyz. subst z.
    rewrite IH. cbn. split; [tauto |]. intros [[-> | Hx] Hn]; tauto.
  - assert (Hy : ~ In y seen).
    { intros Hy. assert (existsb (String.eqb y) seen = true) as E'.
      { apply existsb_exists. exists y. split; [exact Hy | apply String.eqb_refl]. }
      congruence. }
    cbn [In]. rewrite IH. cbn [In]. split.
    + intros [-> | (Hx & Hn)]; [tauto |]. split; [tauto |]. intros Hs. apply Hn. now right.
    + intros [[-> | Hx] Hn]; [now left |].
      destruct (String.eqb_spec y x) as [-> | Hne]; [now left |].
      right. split; [exact Hx |]. intros [-> | Hs]; tauto.
Qed.

Lemma uniq_go_NoDup seen l : List.NoDup (uniq_go seen l).
Proof.
  revert seen. induction l as [|y l IH]; intros seen; [constructor |].
  cbn [uniq_go]. destruct (existsb (String.eqb y) seen); [apply IH |].
  constructor; [| apply IH]. rewrite uniq_go_In. cbn. tauto.
Qed.

Lemma existsb_uniq f l : existsb f (uniq l) = existsb f l.
Proof.
  apply eq_true_iff_eq. rewrite !existsb_exists. unfold uniq.
  split; intros (x & Hx & Hf); exists x; (split; [| exact Hf]).
  - now apply uniq_go_In in Hx.
  - apply uniq_go_In. cbn. tauto.
Qed.

(** X12: [ensureBoot] falls back to the packaged defaults only when no
    rules are stored, and then stores them; stored rules are never
    overwritten; a failed fetch changes nothing; and booting twice is the
    same as booting once. *)
Theorem ensureBoot_defaults fetched s :
  (fetched = None -> ensureBoot fetched s = s)
  /\ (forall defaults domains r,
        fetched = Some (defaults, domains) -> st_rules (storage s) = Some r ->
        rulesCache (ensureBoot fetched s) = Some r
        /\ storage (ensureBoot fetched s) = storage s)
  /\ (forall defaults domains,
        fetched = Some (defaults, domains) -> st_rules (storage s) = None ->
        rulesCache (ensureBoot fetched s) = Some defaults
        /\ st_rules (storage (ensureBoot fetched s)) = Some defaults)
  /\ ensureBoot fetched (ensureBoot fetched s) = ensureBoot fetched s.
Proof.
  split; [now intros -> |]. split; [| split].
  - intros defaults domains r -> Hr. unfold ensureBoot. now rewrite Hr.
  - intros defaults domains -> Hr. unfold ensureBoot. now rewrite Hr.
  - destruct fetched as [[defaults domains]|]; [| reflexivity].
    unfold ensureBoot. destruct s as [ai rc lo co st ob hi].
    destruct st as [sr cd lg ur ui]. cbn.
    destruct sr as [r|]; reflexivity.
Qed.

(** X13: after a boot the AI-domain cache holds no entry twice, and a host
    is an AI domain exactly when it matches one of the custom or packaged
    entries: removing duplicates does not change the classification. *)
Theorem boot_domains defaults domains s :
  let s' := ensureBoot (Some (defaults, domains)) s in
  let custom := default [] (st_customDomains (storage s)) in
  List.NoDup (aiDomainsCache s')
  /\ (forall d, In d (aiDomainsCache s') <-> In d (custom ++ domains))
  /\ (forall host, isAiDomainHost s' host = isHostInList host (custom ++ domains)).
Proof.
  intros s' custom.
  assert (E : aiDomainsCache s' = uniq (custom ++ domains)).
  { unfold s', custom, ensureBoot. now destruct (st_rules (storage s)). }
  unfold isAiDomainHost. rewrite E. split; [apply uniq_go_NoDup |]. split.
  - intros d. unfold uniq. rewrite uniq_go_In. cbn. tauto.
  - intros host. unfold isHostInList. apply existsb_uniq.
Qed.

Lemma notifyTab_outbox s t :
  outbox (notifyTab s t)
  = (outbox s ++ match notified t with
                 | Some tid => [(tid, RULES_UPDATED)]
                 | None => []
                 end)%list.
Proof.
  unfold notifyTab, notified.
  destruct (tab_id t) as [tid|]; [| now rewrite app_nil_r].
  destruct (tab_url t) as [url|]; [| now rewrite app_nil_r].
  destruct (Z.eqb tid 0); cbn [negb andb orb]; [now rewrite app_nil_r |].
  destruct (JS.truthy url); cbn [negb andb orb]; [| now rewrite app_nil_r].
  destruct (isHttpUrl url); [reflexivity | now rewrite app_nil_r].
Qed.

(** X14: the broadcast after a rules change sends [RULES_UPDATED] to
    exactly the tabs that have an id and an http(s) URL, once each and in
    order, and sends nothing else. *)
Theorem broadcast_rules_updated (tabs : list Tab) (s : State) :
  outbox (fold_left notifyTab tabs s)
  = (outbox s ++ map (fun tid => (tid, RULES_UPDATED)) (omap notified tabs))%list.
Proof.
  revert s. induction tabs as [|t tabs IH]; intros s; [cbn; now rewrite app_nil_r |].
  cbn [fold_left]. rewrite IH, notifyTab_outbox, <- app_assoc. f_equal.
  change (omap notified (t :: tabs))
    with (match notified t with
          | Some y => y :: omap notified tabs
          | None => omap notified tabs
          end).
  now destruct (notified t).
Qed.

(** X15: navigation and the sweep only ever look at AI domains: once the
    domain cache is loaded, a completed navigation to a host that is not
    an AI domain leaves the engine exactly as it was, and the sweep skips
    such a tab, even when the host is on the block list. *)
Theorem non_ai_host_ignored host s :
  isAiDomainHost s host = false ->
  (forall env tabId status tab,
      aiDomainsCache s <> [] ->
      hostFromUrl (JS.str_or "" (tab ≫= tab_url)) = host ->
      onTabUpdated env tabId status tab s = s)
  /\ (forall profile t env,
        hostFromUrl (default "" (tab_url t)) = host ->
        reevaluateTab profile s (t, env) = s).
Proof.
  intros Hai. split.
  - intros env tabId status tab Hne Hh. unfold onTabUpdated. rewrite Hh.
    destruct (negb _ || negb _)%bool; [reflexivity |].
    destruct (isHttpUrl _); cbn [negb]; [| reflexivity].
    destruct (aiDomainsCache s) as [|d l]; [contradiction |]. cbn [length Nat.eqb].
    now rewrite Hai.
  - intros profile t env Hh. unfold reevaluateTab.
    destruct (tab_id t) as [tid|]; [| reflexivity].
    destruct (tab_url t) as [url|]; [| reflexivity].
    change (default "" (Some url)) with url in Hh. rewrite Hh.
    destruct (Z.eqb tid 0 || negb (JS.truthy url) || negb (isHttpUrl url))%bool;
      [reflexivity |].
    rewrite Hai. now rewrite orb_true_r.
Qed.

End EngineMore.

(** docs.example.org is block-listed but is no AI domain: navigating to
    it does nothing. *)
Lemma non_ai_host_ignored_witness :
  let p := Example.profile "strict" [] ["example.org"] None true (Some 70) 90 in
  let s := Example.engine (Some (Example.rulesOf p None)) ["openai.com"] in
  @Engine.onTabUpdated Example.browser (Example.env 1700000000000) 7
    (Some "complete") (Some (Example.tab 7 "https://docs.example.org/")) s = s.
Proof.
  intros p s.
  destruct (@non_ai_host_ignored Example.browser "docs.example.org" s) as [Hnav _];
    [reflexivity |].
  apply Hnav; [discriminate | reflexivity].
Defined.

(** ** The permissive profile *)

Section Permissive.
Context `{Browser}.
Import Engine Cover.

Lemma unprompted_frame s s' :
  outbox s' = outbox s -> history s' = history s ->
  lastOpenMap s' = lastOpenMap s -> consentMap s' = consentMap s ->
  st_logs (storage s') = st_logs (storage s) ->
  unprompted s s'.
Proof.
  intros Ho Hh Hl Hc Hg. repeat split; try assumption.
  - unfold Spec.newCalls. rewrite Hh. now rewrite drop_all.
  - rewrite (newLogs_same _ _ Hg). constructor.
Qed.

Lemma unprompted_scored s s' c r :
  outbox s' = outbox s -> history s' = (history s ++ [Scored c r])%list ->
  lastOpenMap s' = lastOpenMap s -> consentMap s' = consentMap s ->
  st_logs (storage s') = st_logs (storage s) ->
  unprompted s s'.
Proof.
  intros Ho Hh Hl Hc Hg. repeat split; try assumption.
  - unfold Spec.newCalls. rewrite Hh. now rewrite drop_app_length.
  - rewrite (newLogs_same _ _ Hg). constructor.
Qed.

Lemma permissive_no_prompt p host :
  id p = "allow" ->
  isHostInList host (default [] (blockList p)) = false ->
  shouldPromptForProfile (Some p) (isHostInList host (default [] (blockList p))) = false.
Proof. intros Hid Hb. unfold shouldPromptForProfile. now rewrite Hid, Hb. Qed.

Ltac still :=
  first [ apply unprompted_frame | eapply unprompted_scored ];
  cbn [outbox history lastOpenMap consentMap storage record];
  rewrite ?refreshRules_outbox, ?refreshRules_history, ?refreshRules_lastOpenMap,
    ?refreshRules_consentMap, ?refreshRules_logs;
  try match goal with
      |- context [if ?b then ensureBoot _ _ else _] => destruct b
      end;
  rewrite ?ensureBoot_outbox, ?ensureBoot_history, ?ensureBoot_lastOpenMap,
    ?ensureBoot_consentMap, ?ensureBoot_logs;
  reflexivity.

Lemma onTabUpdated_permissive env tabId status tab s p :
  let s' := onTabUpdated env tabId status tab s in
  let host := hostFromUrl (JS.str_or "" (tab ≫= tab_url)) in
  getActiveProfileSync (rulesCache s') = Some p ->
  id p = "allow" ->
  isHostInList host (default [] (blockList p)) = false ->
  unprompted s s' /\ st_logs (storage s') = st_logs (storage s).
Proof.
  intros s' host. subst s' host. unfold onTabUpdated.
  set (url := JS.str_or "" (tab ≫= tab_url)). set (host := hostFromUrl url).
  destruct (negb (bool_decide (status = Some "complete")) || negb (JS.truthy url))%bool;
    [intros _ _ _; split; [still | reflexivity] |].
  destruct (isHttpUrl url); cbn [negb]; [| intros _ _ _; split; [still | reflexivity]].
  set (s1 := if Nat.eqb (length (aiDomainsCache s)) 0 then ensureBoot (packaged env) s else s).
  assert (F1 : outbox s1 = outbox s /\ history s1 = history s
               /\ lastOpenMap s1 = lastOpenMap s /\ consentMap s1 = consentMap s
               /\ st_logs (storage s1) = st_logs (storage s)).
  { unfold s1. destruct (Nat.eqb _ 0); [apply ensureBoot_frame | easy]. }
  destruct F1 as (Fo & Fh & Fl & Fc & Fg). clearbody s1.
  destruct (isAiDomainHost s1 host); cbn [negb].
  2: { intros _ _ _. split; [now apply unprompted_frame | exact Fg]. }
  destruct (getActiveProfileSync (rulesCache (refreshRules s1))) as [profile|] eqn:Hprof.
  2: { intros _ _ _. rewrite refreshRules_logs. split; [| exact Fg].
       apply unprompted_frame;
         rewrite ?refreshRules_outbox, ?refreshRules_history, ?refreshRules_lastOpenMap,
           ?refreshRules_consentMap, ?refreshRules_logs; assumption. }
  destruct (isHostInList host (default [] (allowList profile))) eqn:Hallow.
  { intros _ _ _. rewrite refreshRules_logs. split; [| exact Fg].
    apply unprompted_frame;
      rewrite ?refreshRules_outbox, ?refreshRules_history, ?refreshRules_lastOpenMap,
        ?refreshRules_consentMap, ?refreshRules_logs; assumption. }
  destruct (shouldPromptForProfile (Some profile) _) eqn:Hp; cbn [negb].
  - match goal with
    | |- context [shouldOpenRouter ?a ?b ?c ?d] =>
        pose proof (shouldOpenRouter_frame a b c d) as (_ & _ & _ & _ & Ar & _);
        destruct (shouldOpenRouter a b c d) as [ok s3]
    end.
    cbn [fst snd rulesCache record] in Ar.
    assert (E : forall q, Some profile = Some q -> id q = "allow" ->
                isHostInList host (default [] (blockList q)) = false -> False).
    { intros q [= <-] Hid Hb. now rewrite (permissive_no_prompt _ _ Hid Hb) in Hp. }
    destruct ok; cbn [negb].
    + match goal with
      | |- context [appendLog ?t ?e (safeOpenRouter ?en ?ti ?u ?m ?x)] =>
          destruct (safeOpenRouter_frame en ti u m x) as (_ & _ & _ & _ & Sr)
      end.
      cbn [rulesCache appendLog set_storage]. rewrite Sr. cbn [rulesCache record].
      rewrite Ar, Hprof. intros Hq Hid Hb. destruct (E _ Hq Hid Hb).
    + cbn [rulesCache record]. rewrite Ar, Hprof. intros Hq Hid Hb.
      destruct (E _ Hq Hid Hb).
  - intros _ _ _. cbn [storage record]. rewrite refreshRules_logs. split; [| exact Fg].
    eapply unprompted_scored; cbn [outbox history lastOpenMap consentMap storage record];
      rewrite ?refreshRules_outbox, ?refreshRules_history, ?refreshRules_lastOpenMap,
        ?refreshRules_consentMap, ?refreshRules_logs; try eassumption.
    rewrite Fh. reflexivity.
Qed.

Lemma onAiUiDetected_permissive env sender pageUrl signals sensitive fromContent s p :
  let r := onAiUiDetected env sender pageUrl signals sensitive fromContent s in
  let host := hostFromUrl (JS.str_or (JS.str_or "" (senderUrl sender)) pageUrl) in
  getActiveProfileSync (rulesCache r.2) = Some p ->
  id p = "allow" ->
  isHostInList host (default [] (blockList p)) = false ->
  unprompted s r.2 /\ r.1 = Some (Ok true).
Proof.
  intros r host. subst r host. unfold onAiUiDetected.
  set (url := JS.str_or (JS.str_or "" (senderUrl sender)) pageUrl).
  set (host := hostFromUrl url).
  destruct (isHttpUrl url); cbn [negb fst snd];
    [| intros _ _ _; split; [still | reflexivity]].
  set (s1 := refreshRules s).
  assert (F1 : outbox s1 = outbox s /\ history s1 = history s
               /\ lastOpenMap s1 = lastOpenMap s /\ consentMap s1 = consentMap s
               /\ st_logs (storage s1) = st_logs (storage s)).
  { unfold s1. now rewrite refreshRules_outbox, refreshRules_history,
      refreshRules_lastOpenMap, refreshRules_consentMap, refreshRules_logs. }
  destruct F1 as (Fo & Fh & Fl & Fc & Fg).
  destruct (getActiveProfileSync (rulesCache s1)) as [profile|] eqn:Hprof; cbn [fst snd].
  2: { rewrite Hprof. discriminate. }
  destruct (isHostInList host (default [] (allowList profile))) eqn:Hallow; cbn [fst snd].
  { intros _ _ _. split; [| reflexivity]. repeat split; try assumption.
    - unfold Spec.newCalls. cbn [history appendLog set_storage]. rewrite Fh.
      now rewrite drop_all.
    - rewrite newLogs_appendLog by assumption. now repeat constructor. }
  destruct (shouldPromptForProfile (Some profile) _) eqn:Hp; cbn [negb fst snd].
  - generalize (default (-1) (sender ≫= tab_id)). intros tid.
    match goal with
    | |- context [shouldOpenRouter ?a ?b ?c ?d] =>
        pose proof (shouldOpenRouter_frame a b c d) as (_ & _ & _ & _ & Ar & _);
        destruct (shouldOpenRouter a b c d) as [ok s3]
    end.
    cbn [fst snd rulesCache record] in Ar.
    assert (E : forall q, Some profile = Some q -> id q = "allow" ->
                isHostInList host (default [] (blockList q)) = false -> False).
    { intros q [= <-] Hid Hb. now rewrite (permissive_no_prompt _ _ Hid Hb) in Hp. }
    destruct ok; cbn [negb fst snd]; [destruct (sender ≫= tab_id) as [tabId|] |];
      cbn [fst snd].
    + match goal with
      | |- context [appendLog ?t ?e (safeOpenRouter ?en ?ti ?u ?m ?x)] =>
          destruct (safeOpenRouter_frame en ti u m x) as (_ & _ & _ & _ & Sr)
      end.
      cbn [rulesCache appendLog set_storage]. rewrite Sr. cbn [rulesCache record].
      rewrite Ar, Hprof. intros Hq Hid Hb. destruct (E _ Hq Hid Hb).
    + cbn [rulesCache record]. rewrite Ar, Hprof. intros Hq Hid Hb.
      destruct (E _ Hq Hid Hb).
    + cbn [rulesCache record]. rewrite Ar, Hprof. intros Hq Hid Hb.
      destruct (E _ Hq Hid Hb).
  - intros _ _ _. split; [| reflexivity].
    eapply unprompted_scored; cbn [outbox history lastOpenMap consentMap storage record];
      try eassumption.
    rewrite Fh. reflexivity.
Qed.

Lemma reevaluateTab_permissive p s t env :
  let s' := reevaluateTab (Some p) s (t, env) in
  let host := hostFromUrl (default "" (tab_url t)) in
  id p = "allow" ->
  isHostInList host (default [] (blockList p)) = false ->
  unprompted s s' /\ st_logs (storage s') = st_logs (storage s).
Proof.
  intros s' host Hid. subst s' host. unfold reevaluateTab.
  destruct (tab_id t) as [tid|]; [| intros _; split; [still | reflexivity]].
  destruct (tab_url t) as [url|]; [| intros _; split; [still | reflexivity]].
  change (default "" (Some url)) with url. set (host := hostFromUrl url).
  destruct (Z.eqb tid 0 || negb (JS.truthy url) || negb (isHttpUrl url))%bool;
    [intros _; split; [still | reflexivity] |].
  destruct (negb (JS.truthy host) || negb (isAiDomainHost s host))%bool;
    [intros _; split; [still | reflexivity] |].
  destruct (isHostInList host (default [] (allowList p)));
    [intros _; split; [still | reflexivity] |].
  intros Hb. rewrite (permissive_no_prompt _ _ Hid Hb). cbn [negb].
  split; [| reflexivity].
  eapply unprompted_scored; cbn [outbox history lastOpenMap consentMap storage record];
    reflexivity.
Qed.

(** X18: under the permissive profile (id "allow") a host that is not on
    its block list is never prompted: on navigation, on an AI_UI_DETECTED
    message (which is answered as suppressed) and for a tab of the sweep
    after a policy change, nothing is sent to the page, no admission is
    tested, both maps are as before, and no log entry with a risk is
    written. *)
Theorem permissive_profile_silent (p : Profile) :
  id p = "allow" ->
  (forall env tabId status tab s,
      let s' := onTabUpdated env tabId status tab s in
      getActiveProfileSync (rulesCache s') = Some p ->
      isHostInList (hostFromUrl (JS.str_or "" (tab ≫= tab_url)))
        (default [] (blockList p)) = false ->
      unprompted s s')
  /\ (forall env sender pageUrl signals sensitive fromContent s,
         let r := onAiUiDetected env sender pageUrl signals sensitive fromContent s in
         getActiveProfileSync (rulesCache r.2) = Some p ->
         isHostInList (hostFromUrl (JS.str_or (JS.str_or "" (senderUrl sender)) pageUrl))
           (default [] (blockList p)) = false ->
         unprompted s r.2 /\ r.1 = Some (Ok true))
  /\ (forall env t s,
         isHostInList (hostFromUrl (default "" (tab_url t)))
           (default [] (blockList p)) = false ->
         unprompted s (reevaluateTab (Some p) s (t, env))).
Proof.
  intros Hid. split; [| split].
  - intros env tabId status tab s s' Hp Hb.
    now apply (onTabUpdated_permissive env tabId status tab s p).
  - intros env sender pageUrl signals sensitive fromContent s r Hp Hb.
    now apply (onAiUiDetected_permissive env sender pageUrl signals sensitive fromContent s p).
  - intros env t s Hb. now apply (reevaluateTab_permissive p s t env).
Qed.

End Permissive.

Lemma permissive_profile_silent_witness :
  let p := Example.profile "allow" [] ["blocked.example.com"] None false None 40 in
  let s := Example.engine (Some (Example.rulesOf p None)) ["example.com"] in
  Cover.unprompted s
    (@Engine.onTabUpdated Example.browser (Example.env 1700000000000) 7
       (Some "complete") (Some (Example.tab 7 "https://chat.example.com/")) s).
Proof.
  intros p s.
  destruct (@permissive_profile_silent Example.browser p) as [Hnav _]; [reflexivity |].
  apply Hnav; reflexivity.
Defined.

(** ** Prompt tracking in full mode *)

Section FullMode.
Context `{Browser}.
Import Engine.

Lemma substring_prefix n s :
  (exists rest, s = String.substring 0 n s +:+ rest)
  /\ String.length (String.substring 0 n s) = Nat.min n (String.length s).
Proof.
  revert s. induction n as [|n IH]; intros s.
  - destruct s; (split; [eexists; reflexivity | reflexivity]).
  - destruct s as [|c s].
    + split; [now exists "" | reflexivity].
    + destruct (IH s) as [[rest Hr] Hl]. cbn [String.substring String.length Nat.min].
      split; [| now rewrite Hl].
      exists rest. change (String c (String.substring 0 n s) +:+ rest)
        with (String c (String.substring 0 n s +:+ rest)).
      now rewrite <- Hr.
Qed.

(** X19: in "full" tracking mode a non-empty prompt is logged once, with
    its first 2000 characters at most: the stored text is a prefix of the
    prompt of length min(2000, length), while the length field still gives
    the length of the whole prompt and no digest is stored. *)
Theorem full_mode_text_truncated env sender text txt tabUrl s p :
  let pageUrl := JS.str_or (JS.str_or "" (senderUrl sender)) tabUrl in
  let s' := (onPromptActivity env sender text tabUrl s).2 in
  isHttpUrl pageUrl = true ->
  getActiveProfileSync (rulesCache (refreshRules s)) = Some p ->
  trackPrompts p = Some "full" ->
  text = Some txt -> txt <> "" ->
  exists stored rest,
    map entry (newLogs s s')
    = [prompt "full" pageUrl (String.length txt) None (Some stored)]
    /\ txt = stored +:+ rest
    /\ String.length stored = Nat.min 2000 (String.length txt).
Proof.
  intros pageUrl s' Hu Hp Hm -> Hne. subst s'. unfold onPromptActivity.
  fold pageUrl. rewrite Hu, Hp, Hm. cbn [negb snd].
  assert (Ht : JS.str_or "" (Some txt) = txt) by (now destruct txt).
  assert (Hy : JS.truthy txt = true) by (now destruct txt).
  rewrite Ht, Hy.
  change (JS.str_or "off" (Some "full")) with "full".
  change (("full" =? "anonymized")%string) with false.
  change (("full" =? "full")%string) with true. cbn [andb].
  rewrite newLogs_appendLog by (now rewrite refreshRules_storage).
  destruct (substring_prefix 2000 txt) as [[rest Hr] Hl].
  exists (String.substring 0 2000 txt), rest. cbn [map entry]. auto.
Qed.

End FullMode.

Lemma full_mode_text_truncated_witness :
  let p := Example.profile "strict" [] [] (Some "full") false None 40 in
  let s := Example.engine (Some (Example.rulesOf p None)) ["example.com"] in
  let s' := (@Engine.onPromptActivity Example.browser (Example.env 1700000000000)
               (Some (Example.tab 7 "https://chat.example.com/"))
               (Some "summarise the attached contract") None s).2 in
  exists stored rest,
    map Engine.entry (Engine.newLogs s s')
    = [Engine.prompt "full" "https://chat.example.com/" 31 None (Some stored)]
    /\ "summarise the attached contract" = stored +:+ rest
    /\ String.length stored = Nat.min 2000 31.
Proof.
  intros p s s'.
  apply (@full_mode_text_truncated Example.browser (Example.env 1700000000000)
           (Some (Example.tab 7 "https://chat.example.com/"))
           (Some "summarise the attached contract") "summarise the attached contract"
           None s p); [reflexivity | reflexivity | reflexivity | reflexivity | discriminate].
Defined.


(** ** The in-page prompt: suppression and decisions *)

Section RouterMore.
Context `{Browser}.
Import Engine Router Cover.

Lemma filter_length_le {A} (f : A -> bool) (l : list A) :
  (length (List.filter f l) <= length l)%nat.
Proof.
  induction l as [|a l IH]; [apply Nat.le_refl |].
  cbn [List.filter]. destruct (f a); cbn [length]; lia.
Qed.

Lemma close_length i p : (length (overlays (close i p)) <= length (overlays p))%nat.
Proof. unfold close. cbn [overlays set_overlays]. apply filter_length_le. Qed.

Lemma updateOverlay_length i f p :
  length (overlays (updateOverlay i f p)) = length (overlays p).
Proof. unfold updateOverlay. cbn [overlays set_overlays]. apply length_map. Qed.

Lemma decideAndClose_held o choice v p :
  held p (decideAndClose o choice v p).1 (decideAndClose o choice v p).2.
Proof.
  unfold decideAndClose, sendDecision, storeToggles. cbn [href rules set_suppress].
  destruct (allowChecked o || blockChecked o)%bool;
    [destruct (parseURL (href p)) as [u|];
     [destruct (rules p) as [r|]; [destruct (updateFirst _ _ _) as [ps|] |] |] |];
    cbn [fst snd]; repeat split; try reflexivity;
    first [ apply (close_length (oid o) (set_pageRules _ (set_suppress true p)))
          | apply (close_length (oid o) (set_suppress true p))
          | cbn; lia ].
Qed.

Lemma held_refl p : suppress p = true -> held p p [].
Proof. intros Hs. repeat split; try assumption. lia. Qed.

Lemma step_held p e :
  suppress p = true -> reopens e = false -> held p (step p e).1 (step p e).2.
Proof.
  intros Hs He. destruct e as [d| |j pr|j v|j b|j b|j|j|j|j|]; cbn [step];
    try discriminate He.
  - rewrite Hs. now apply held_refl.
  - destruct (getOverlay j p) as [o|]; [| now apply held_refl].
    destruct (pinRequiredFor pr _); [| now apply held_refl].
    cbn [fst snd]. repeat split; try assumption.
    now rewrite (updateOverlay_length j requirePin p).
  - cbn [fst snd]. repeat split; try assumption.
    now rewrite (updateOverlay_length j (set_pinInput v) p).
  - cbn [fst snd]. repeat split; try assumption.
    now rewrite (updateOverlay_length j (set_allowChecked b) p).
  - cbn [fst snd]. repeat split; try assumption.
    now rewrite (updateOverlay_length j (set_blockChecked b) p).
  - destruct (getOverlay j p) as [o|]; [| now apply held_refl].
    destruct (pinRequired o).
    + destruct (negb _ || negb _)%bool; [| apply decideAndClose_held].
      cbn [fst snd]. repeat split; try assumption. lia.
    + apply decideAndClose_held.
  - destruct (getOverlay j p) as [o|]; [| now apply held_refl].
    destruct (negb _); cbn [fst snd].
    + repeat split; try assumption. lia.
    + repeat split; try assumption. apply close_length.
  - cbn [fst snd]. repeat split; try assumption. apply close_length.
  - cbn [fst snd]. repeat split; try assumption. cbn. lia.
Qed.

Lemma run_held es p :
  suppress p = true -> forallb (fun e => negb (reopens e)) es = true ->
  held p (run es p).1 (run es p).2.
Proof.
  revert p. induction es as [|e es IH]; intros p Hs Hes; [now apply held_refl |].
  cbn [forallb] in Hes. apply andb_true_iff in Hes as [He Hes].
  apply negb_true_iff in He.
  cbn [run]. pose proof (step_held p e Hs He) as (S1 & N1 & R1 & G1 & L1).
  destruct (step p e) as [p1 effs1]. cbn [fst snd] in *.
  pose proof (IH p1 S1 Hes) as (S2 & N2 & R2 & G2 & L2).
  destruct (run es p1) as [p2 effs2]. cbn [fst snd] in *.
  repeat split; try congruence.
  - now rewrite List.filter_app, G1, G2.
  - lia.
Qed.

(** X20: one prompt per directive burst. When a directive opens the prompt
    on a page that is not suppressed, then until the rules are updated or
    Cancel is clicked, whatever else happens on the page (further
    directives, profile replies, typing, Proceed, Redirect, closing) the
    page renders no second prompt: exactly one prompt element was created,
    exactly one GET_PROFILE request was sent, and suppression is still
    on. *)
Theorem single_prompt (d : Directive) (es : list Event) (p : Page) :
  suppress p = false -> routerOpen p = false ->
  forallb (fun e => negb (reopens e)) es = true ->
  let r := run (RecvOpenRouter d :: es) p in
  suppress r.1 = true
  /\ nextId r.1 = S (nextId p)
  /\ length (List.filter isProfileRequest r.2) = 1%nat
  /\ (length (overlays r.1) <= S (length (overlays p)))%nat.
Proof.
  intros Hs Hr Hes r. subst r. cbn [run step]. rewrite Hs, Hr. cbn [negb renderRouter].
  match goal with
  | |- context [run es ?q] =>
      pose proof (run_held es q eq_refl Hes) as (S2 & N2 & _ & G2 & L2);
      destruct (run es q) as [p2 effs2]
  end.
  cbn [fst snd nextId overlays set_routerOpen set_suppress] in *.
  rewrite length_app in L2. cbn [length] in L2.
  repeat split; try assumption.
  - change ([SendMessage GET_PROFILE] ++ effs2)%list
      with (SendMessage GET_PROFILE :: effs2).
    cbn [List.filter isProfileRequest]. now rewrite G2.
  - lia.
Qed.

End RouterMore.

Lemma single_prompt_witness :
  let d := Example.directive 40 in
  let r := @Router.run Example.browser
             [Router.RecvOpenRouter d; Router.RecvOpenRouter d;
              Router.ProfileReply 0 None; Router.RecvOpenRouter d]
             (Router.initial "https://chat.example.com/") in
  Router.suppress r.1 = true
  /\ Router.nextId r.1 = 1%nat
  /\ length (List.filter Cover.isProfileRequest r.2) = 1%nat
  /\ (length (Router.overlays r.1) <= 1)%nat.
Proof.
  intros d.
  apply (@single_prompt Example.browser d
           [Router.RecvOpenRouter d; Router.ProfileReply 0 None; Router.RecvOpenRouter d]
           (Router.initial "https://chat.example.com/")); reflexivity.
Defined.

Section RouterDecisions.
Context `{Browser}.
Import Engine Router Cover.

Lemma decideAndClose_decisions o choice v p d :
  In d (decisionsOf (decideAndClose o choice v p).2) ->
  decisionsOf (decideAndClose o choice v p).2 = [d]
  /\ ROUTER_DECISION d = decisionMessage o (href p) choice (Some v) None.
Proof.
  unfold decideAndClose, sendDecision, storeToggles. cbn [href rules set_suppress].
  destruct (allowChecked o || blockChecked o)%bool;
    [destruct (parseURL (href p)) as [u|];
     [destruct (rules p) as [r|]; [destruct (updateFirst _ _ _) as [ps|] |] |] |];
    cbn; intros Hin; try (destruct Hin as [<- | []]; now split); destruct Hin.
Qed.

(** X21: where decisions come from. Whatever the page state, a step
    reports at most one ROUTER_DECISION, and only as the answer to a click
    on Cancel, Proceed or Redirect of a prompt that is on the page: it
    names the page's URL and the risk and profile of that prompt's
    directive. A cancel is reported only outside PIN-required mode, a
    proceed is marked PIN-verified exactly when the prompt was in
    PIN-required mode, and a redirect names the URL the page navigates
    to. *)
Theorem decision_origin (p : Page) (e : Event) (d : Decision) :
  In d (decisionsOf (step p e).2) ->
  decisionsOf (step p e).2 = [d]
  /\ exists i o,
       getOverlay i p = Some o
       /\ d_tabUrl d = Some (href p)
       /\ d_risk d = risk (payload o)
       /\ d_profileId d = profileId (payload o)
       /\ ((e = ClickCancel i /\ decision d = "cancel"
            /\ pinRequired o = false /\ d_pinVerified d = Some false)
           \/ (e = ClickProceed i /\ decision d = "proceed"
               /\ d_pinVerified d = Some (pinRequired o))
           \/ (e = ClickRedirect i /\ decision d = "redirect"
               /\ exists url, redirectedTo d = Some url
                              /\ In (Navigate url) (step p e).2)).
Proof.
  destruct e as [dir| |j pr|j v|j b|j b|j|j|j|j|]; cbn [step].
  - destruct (suppress p); [intros [] |].
    destruct (routerOpen p); cbn [negb]; intros [].
  - intros [].
  - destruct (getOverlay j p) as [o|]; [| intros []].
    destruct (pinRequiredFor pr _); intros [].
  - intros [].
  - intros [].
  - intros [].
  - destruct (getOverlay j p) as [o|] eqn:Ho; [| intros []].
    destruct (pinRequired o) eqn:Hpin; [intros [] |].
    intros Hin. destruct (decideAndClose_decisions _ _ _ _ _ Hin) as [Hd Hm].
    split; [exact Hd |]. injection Hm as ->. exists j, o. cbn. rewrite ?Hpin. tauto.
  - destruct (getOverlay j p) as [o|] eqn:Ho; [| intros []].
    destruct (pinRequired o) eqn:Hpin.
    + destruct (negb _ || negb _)%bool; [intros [] |].
      intros Hin. destruct (decideAndClose_decisions _ _ _ _ _ Hin) as [Hd Hm].
      split; [exact Hd |]. injection Hm as ->. exists j, o. cbn. rewrite ?Hpin. tauto.
    + intros Hin. destruct (decideAndClose_decisions _ _ _ _ _ Hin) as [Hd Hm].
      split; [exact Hd |]. injection Hm as ->. exists j, o. cbn. rewrite ?Hpin. tauto.
  - destruct (getOverlay j p) as [o|] eqn:Ho; [| intros []].
    destruct (negb _); [intros [] |].
    cbn. intros [<- | []]. split; [reflexivity |]. exists j, o. cbn.
    split; [exact Ho |]. split; [reflexivity |]. split; [reflexivity |].
    split; [reflexivity |]. right. right.
    split; [reflexivity |]. split; [reflexivity |].
    eexists. split; [reflexivity |]. right. now left.
  - intros [].
  - intros [].
Qed.

End RouterDecisions.

(** ** The "always allow" and "always block" boxes of the prompt *)

Section Toggles.
Context `{Browser}.
Import Engine Router Cover.

Lemma updateFirst_find sel f ps q :
  List.find sel ps = Some q -> sel (f q) = true ->
  exists ps', updateFirst sel f ps = Some ps' /\ List.find sel ps' = Some (f q).
Proof.
  intros Hf Hs. induction ps as [|a ps IH]; [discriminate |].
  cbn [List.find updateFirst] in *. destruct (sel a) eqn:Ea.
  - injection Hf as ->. eexists. split; [reflexivity |]. cbn [List.find]. now rewrite Hs.
  - destruct (IH Hf) as (ps' & -> & Hf'). eexists. split; [reflexivity |].
    cbn [List.find]. now rewrite Ea.
Qed.

Lemma pushNew_In host l : In host (pushNew host l).
Proof.
  unfold pushNew. destruct (existsb (String.eqb host) l) eqn:E.
  - apply existsb_exists in E as (x & Hin & Hx). apply String.eqb_eq in Hx. now subst x.
  - apply in_or_app. right. now left.
Qed.

Lemma pushNew_keeps host l x : In x l -> In x (pushNew host l).
Proof.
  unfold pushNew. destruct (existsb _ l); [auto |]. intros Hin. apply in_or_app. now left.
Qed.



End Toggles.


Lemma decision_origin_witness :
  let r := Example.rulesOf (Example.profile "confirm" [] [] None false None 40) None in
  let p := Example.promptedPage r 40 in
  Cover.decisionsOf (@Router.step Example.browser p (Router.ClickCancel 0)).2
  = [{| Engine.decision := "cancel"; Engine.d_reason := "AI domain detected";
        Engine.d_tabUrl := Some "https://chat.example.com/"; Engine.d_risk := 40;
        Engine.d_profileId := "strict"; Engine.d_pinVerified := Some false;
        Engine.redirectedTo := None |}].
Proof.
  intros r p.
  apply (@decision_origin Example.browser p (Router.ClickCancel 0)).
  left. reflexivity.
Defined.

(** ** A rules update re-arms the prompt *)

Section Rearm.
Context `{Browser}.
Import Engine Router Cover.

Lemma decideAndClose_routerOpen o choice v p :
  routerOpen (decideAndClose o choice v p).1 = routerOpen p.
Proof. exact (proj1 (proj2 (proj2 (decideAndClose_held o choice v p)))). Qed.

Lemma step_routerOpen p e : routerOpen p = false -> routerOpen (step p e).1 = false.
Proof.
  intros Hr. destruct e as [d| |j pr|j v|j b|j b|j|j|j|j|]; cbn [step]; try exact Hr.
  - destruct (suppress p); [exact Hr |]. now rewrite Hr.
  - destruct (getOverlay j p) as [o|]; [| exact Hr].
    now destruct (pinRequiredFor pr _).
  - destruct (getOverlay j p) as [o|]; [| exact Hr].
    destruct (pinRequired o); [exact Hr |]. now rewrite decideAndClose_routerOpen.
  - destruct (getOverlay j p) as [o|]; [| exact Hr].
    destruct (pinRequired o); [destruct (negb _ || negb _)%bool; [exact Hr |] |];
      now rewrite decideAndClose_routerOpen.
  - destruct (getOverlay j p) as [o|]; [| exact Hr]. now destruct (negb _).
Qed.

Lemma run_routerOpen es p : routerOpen p = false -> routerOpen (run es p).1 = false.
Proof.
  revert p. induction es as [|e es IH]; intros p Hr; [exact Hr |].
  cbn [run]. pose proof (step_routerOpen p e Hr) as H1.
  destruct (step p e) as [p1 effs1]. cbn [fst] in H1.
  specialize (IH p1 H1). now destruct (run es p1).
Qed.

Lemma run_app es1 es2 p :
  run (es1 ++ es2) p
  = ((run es2 (run es1 p).1).1, ((run es1 p).2 ++ (run es2 (run es1 p).1).2)%list).
Proof.
  revert p. induction es1 as [|e es1 IH]; intros p.
  - cbn [app run fst snd]. now destruct (run es2 p).
  - cbn [app run]. destruct (step p e) as [p1 effs1]. rewrite IH.
    destruct (run es1 p1) as [p2 effs2]. cbn [fst snd].
    destruct (run es2 p2) as [p3 effs3]. cbn [fst snd]. now rewrite app_assoc.
Qed.

(** X23: a rules update re-arms the prompt. Whatever happened on the page
    before (prompts shown, decisions taken, suppression on or off), a
    RULES_UPDATED message followed by a directive removes the first prompt
    still on the page and opens a fresh one for that directive, outside
    PIN-required mode and with empty fields, requests the profile again,
    and suppresses further directives. *)
Theorem rules_update_rearms (es : list Event) (d : Directive) (p : Page) :
  routerOpen p = false ->
  let q := (run es p).1 in
  let r := run (es ++ [RecvRulesUpdated; RecvOpenRouter d]) p in
  overlays r.1
  = (tail (overlays q)
       ++ [{| oid := nextId q; payload := d; pinRequired := false;
              adminShown := false; pinInput := ""; allowChecked := false;
              blockChecked := false |}])%list
  /\ suppress r.1 = true
  /\ nextId r.1 = S (nextId q)
  /\ r.2 = ((run es p).2 ++ [SendMessage GET_PROFILE])%list.
Proof.
  intros Hr q r. subst r. rewrite run_app.
  pose proof (run_routerOpen es p Hr) as Hq. fold q in Hq |- *.
  cbn [run step fst snd suppress routerOpen set_overlays set_suppress].
  rewrite Hq. cbn. rewrite ?app_nil_r. auto.
Qed.

End Rearm.

Lemma rules_update_rearms_witness :
  let r := Example.rulesOf (Example.profile "confirm" [] [] None false None 40) None in
  let p := Example.promptedPage r 40 in
  let d := Example.directive 100 in
  map Router.payload
    (Router.overlays
       (@Router.run Example.browser
          ([Router.RecvOpenRouter (Example.directive 55)]
             ++ [Router.RecvRulesUpdated; Router.RecvOpenRouter d]) p).1)
  = [d].
Proof.
  intros r p d.
  destruct (@rules_update_rearms Example.browser
              [Router.RecvOpenRouter (Example.directive 55)] d p) as [Ho _];
    [reflexivity |].
  rewrite Ho. reflexivity.
Defined.

(** ** options.js: editing the lists and saving the profile *)

Section OptionsProps.
Import Engine Options Cover.

Lemma updateFirst_same sel f ps q :
  List.find sel ps = Some q -> f q = q -> Router.updateFirst sel f ps = Some ps.
Proof.
  intros Hf Hq. induction ps as [|a ps IH]; [discriminate |].
  cbn [List.find Router.updateFirst] in *. destruct (sel a).
  - injection Hf as ->. now rewrite Hq.
  - now rewrite (IH Hf).
Qed.

(** An edit that keeps the id of the profile replaces the selected profile
    and writes the rules. *)
Lemma editSelected_selected f pg q :
  selectedProfile pg = Some q -> id (f q) = id q ->
  selectedProfile (editSelected f pg) = Some (f q)
  /\ stored (editSelected f pg) = Some (rules (editSelected f pg))
  /\ selected (editSelected f pg) = selected pg.
Proof.
  intros Hq Hid. unfold selectedProfile in *.
  destruct (updateFirst_find _ f _ q Hq) as (ps & Hup & Hfind).
  { rewrite Hid. apply find_some in Hq as [_ Hs]. exact Hs. }
  unfold editSelected. rewrite Hup. cbn. auto.
Qed.

Lemma set_list_id k l p : id (set_list k l p) = id p.
Proof. reflexivity. Qed.

Lemma listOf_set_list k l p : listOf k (set_list k l p) = l.
Proof. now destruct k. Qed.

Lemma listOf_set_list_other k l p :
  listOf (otherKind k) (set_list k l p) = listOf (otherKind k) p.
Proof. now destruct k. Qed.

Lemma pushNew_NoDup host l : List.NoDup l -> List.NoDup (Router.pushNew host l).
Proof.
  intros Hn. unfold Router.pushNew. destruct (existsb (String.eqb host) l) eqn:E;
    [exact Hn |].
  apply List.NoDup_app; [exact Hn | constructor; [intros [] | constructor] |].
  intros x Hx [<- | []].
  assert (existsb (String.eqb host) l = true); [| congruence].
  apply existsb_exists. exists host. split; [exact Hx | apply String.eqb_refl].
Qed.

(** X24: adding a host on the options page. A blank input changes
    nothing. Otherwise, when the selector names a profile, the trimmed
    host is on the chosen list of that profile afterwards, entries already
    there stay, no duplicate is created, the other list is untouched, the
    rules are written to storage, and adding the same host again changes
    nothing. *)
Theorem addHost_lists (k : Kind) (input : string) (pg : Page) (q : Profile) :
  (JS.trim input = "" -> addHost k input pg = pg)
  /\ (JS.trim input <> "" -> selectedProfile pg = Some q ->
      let pg' := addHost k input pg in
      exists q',
        selectedProfile pg' = Some q'
        /\ stored pg' = Some (rules pg')
        /\ In (JS.trim input) (listOf k q')
        /\ (forall x, In x (listOf k q) -> In x (listOf k q'))
        /\ (List.NoDup (listOf k q) -> List.NoDup (listOf k q'))
        /\ listOf (otherKind k) q' = listOf (otherKind k) q
        /\ addHost k input pg' = pg').
Proof.
  split.
  - intros Hb. unfold addHost. now rewrite Hb.
  - intros Hne Hq pg'. subst pg'. unfold addHost.
    assert (Ht : JS.truthy (JS.trim input) = true) by (now destruct (JS.trim input)).
    rewrite Ht. cbn [negb].
    set (host := JS.trim input) in *.
    set (f := fun p => set_list k (Router.pushNew host (listOf k p)) p).
    destruct (editSelected_selected f pg q Hq eq_refl) as (Hs & Hst & Hsel).
    exists (f q). split; [exact Hs |]. split; [exact Hst |].
    assert (L1 : listOf k (f q) = Router.pushNew host (listOf k q))
      by apply listOf_set_list.
    assert (L2 : listOf (otherKind k) (f q) = listOf (otherKind k) q)
      by apply listOf_set_list_other.
    rewrite L1, L2.
    split; [apply pushNew_In |]. split; [intros x; apply pushNew_keeps |].
    split; [apply pushNew_NoDup |]. split; [reflexivity |].
    clear Hs Hst Hsel L1 L2. unfold selectedProfile in Hq.
    destruct (updateFirst_find _ f _ q Hq) as (ps & Hup & Hfind).
    { apply find_some in Hq as [_ Hid]. exact Hid. }
    unfold editSelected. rewrite Hup.
    cbn [rules selected profiles set_profiles]. change (default [] (Some ps)) with ps.
    rewrite (updateFirst_same _ f ps (f q) Hfind); [reflexivity |].
    unfold f. rewrite listOf_set_list.
    assert (E : Router.pushNew host (Router.pushNew host (listOf k q))
                = Router.pushNew host (listOf k q)).
    { unfold Router.pushNew at 1.
      assert (existsb (String.eqb host) (Router.pushNew host (listOf k q)) = true)
        as ->; [| reflexivity].
      apply existsb_exists. exists host. split; [apply pushNew_In | apply String.eqb_refl]. }
    rewrite E. now destruct k.
Qed.

End OptionsProps.

Section OptionsMore.
Import Engine Options Cover.

Lemma delete_snoc {A} (l : list A) (h : A) : delete (length l) (l ++ [h])%list = l.
Proof. induction l as [|a l IH]; [reflexivity |]. cbn. f_equal. exact IH. Qed.

Lemma pushNew_fresh host l : ~ In host l -> Router.pushNew host l = (l ++ [host])%list.
Proof.
  intros Hn. unfold Router.pushNew. destruct (existsb (String.eqb host) l) eqn:E;
    [| reflexivity].
  apply existsb_exists in E as (x & Hin & Hx). apply String.eqb_eq in Hx. now subst x.
Qed.

(** X25: removing a host on the options page. When the selector names a
    profile, the Remove button of entry [i] deletes exactly that entry of
    the chosen list (nothing when there is no such entry), leaves the other
    list alone and writes the rules; in particular removing the entry that
    adding a new host has just appended gives back the list as it was. *)
Theorem removeHost_lists (k : Kind) (i : nat) (input : string) (pg : Page)
        (q : Profile) :
  selectedProfile pg = Some q ->
  (exists q',
      selectedProfile (removeHost k i pg) = Some q'
      /\ listOf k q' = delete i (listOf k q)
      /\ listOf (otherKind k) q' = listOf (otherKind k) q
      /\ stored (removeHost k i pg) = Some (rules (removeHost k i pg)))
  /\ (JS.trim input <> "" -> ~ In (JS.trim input) (listOf k q) ->
      exists q',
        selectedProfile (removeHost k (length (listOf k q)) (addHost k input pg))
        = Some q'
        /\ listOf k q' = listOf k q
        /\ listOf (otherKind k) q' = listOf (otherKind k) q).
Proof.
  intros Hq.
  assert (R : forall j pg0 q0, selectedProfile pg0 = Some q0 ->
              exists q',
                selectedProfile (removeHost k j pg0) = Some q'
                /\ listOf k q' = delete j (listOf k q0)
                /\ listOf (otherKind k) q' = listOf (otherKind k) q0
                /\ stored (removeHost k j pg0) = Some (rules (removeHost k j pg0))).
  { intros j pg0 q0 H0. unfold removeHost.
    set (g := fun p => set_list k (delete j (listOf k p)) p).
    destruct (editSelected_selected g pg0 q0 H0 eq_refl) as (Hs & Hst & _).
    exists (g q0). split; [exact Hs |].
    split; [apply listOf_set_list |]. split; [apply listOf_set_list_other | exact Hst]. }
  split; [apply R, Hq |].
  intros Hne Hfresh.
  assert (Ht : JS.truthy (JS.trim input) = true) by (now destruct (JS.trim input)).
  unfold addHost. rewrite Ht. cbn [negb].
  set (f := fun p => set_list k (Router.pushNew (JS.trim input) (listOf k p)) p).
  destruct (editSelected_selected f pg q Hq eq_refl) as (Hs & _ & _).
  destruct (R (length (listOf k q)) _ _ Hs) as (q' & Hs' & Hl & Ho & _).
  exists q'. split; [exact Hs' |].
  assert (L1 : listOf k (f q) = Router.pushNew (JS.trim input) (listOf k q))
    by apply listOf_set_list.
  assert (L2 : listOf (otherKind k) (f q) = listOf (otherKind k) q)
    by apply listOf_set_list_other.
  rewrite Hl, Ho, L1, L2, (pushNew_fresh _ _ Hfresh), delete_snoc. auto.
Qed.


End OptionsMore.

Lemma addHost_lists_witness :
  let q := Example.profile "confirm" ["intranet.example.com"] [] None false None 40 in
  let pg := {| Options.rules := Example.rulesOf q None; Options.selected := "confirm";
               Options.stored := None |} in
  let pg' := Options.addHost Options.allow "  chat.example.com " pg in
  exists q',
    Cover.selectedProfile pg' = Some q'
    /\ In "chat.example.com" (Options.listOf Options.allow q')
    /\ Options.addHost Options.allow "  chat.example.com " pg' = pg'.
Proof.
  intros q pg pg'.
  destruct (addHost_lists Options.allow "  chat.example.com " pg q) as [_ Hadd].
  destruct Hadd as (q' & Hs & _ & Hin & _ & _ & _ & Hidem);
    [discriminate | reflexivity |].
  exists q'. split; [exact Hs |]. split; [exact Hin | exact Hidem].
Defined.

Lemma removeHost_lists_witness :
  let q := Example.profile "confirm" ["intranet.example.com"] [] None false None 40 in
  let pg := {| Options.rules := Example.rulesOf q None; Options.selected := "confirm";
               Options.stored := None |} in
  exists q',
    Cover.selectedProfile
      (Options.removeHost Options.allow 1
         (Options.addHost Options.allow "chat.example.com" pg)) = Some q'
    /\ Options.listOf Options.allow q' = ["intranet.example.com"].
Proof.
  intros q pg.
  destruct (removeHost_lists Options.allow 0 "chat.example.com" pg q) as [_ Hrt];
    [reflexivity |].
  destruct Hrt as (q' & Hs & Hl & _).
  - discriminate.
  - intros [E | []]. discriminate E.
  - exists q'. split; [exact Hs | exact Hl].
Defined.


(** ** utils.js: internal sites *)

Section Internal.
Context `{Browser}.
Import Cover.

#[local] Arguments String.append : simpl nomatch.

Lemma find_bounded_eq left_ok w prev s :
  JS.find_bounded left_ok w prev s
  = ((left_ok prev && JS.startsWith w s
      && JS.boundary_after (JS.drop (String.length w) s))
     || match s with
        | EmptyString => false
        | String c r => JS.find_bounded left_ok w (Some c) r
        end)%bool.
Proof. now destruct s. Qed.

Lemma drop_append w rest : JS.drop (String.length w) (w +:+ rest) = rest.
Proof.
  induction w as [|c w IH]; [now destruct rest |].
  change (JS.drop (String.length w) (w +:+ rest) = rest). exact IH.
Qed.

Lemma find_bounded_at left_ok w pre prev rest :
  left_ok (lastChar prev pre) = true ->
  JS.boundary_after rest = true ->
  JS.find_bounded left_ok w prev (pre +:+ w +:+ rest) = true.
Proof.
  revert prev. induction pre as [|c pre IH]; intros prev Hl Hb.
  - cbn [lastChar] in Hl. change ("" +:+ w +:+ rest) with (w +:+ rest).
    rewrite find_bounded_eq, Hl, drop_append, Hb.
    assert (JS.startsWith w (w +:+ rest) = true) as ->; [| reflexivity].
    apply startsWith_spec. now exists rest.
  - change (String c pre +:+ w +:+ rest) with (String c (pre +:+ w +:+ rest)).
    rewrite find_bounded_eq. cbv iota.
    rewrite (IH (Some c) Hl Hb). apply orb_true_r.
Qed.

(** X27: which hosts count as internal. A page is internal as soon as its
    host name contains corp, intranet or internal as a whole word (at the
    start or after a dot or hyphen, and followed by the end, a dot or a
    hyphen), or contains .local followed by such a boundary. *)
Theorem isInternal_label (url : string) (u : URL) (pre w rest : string) :
  parseURL url = Some u ->
  hostname u = pre +:+ w +:+ rest ->
  (In w ["corp"; "intranet"; "internal"] /\ leftBoundary pre = true) \/ w = ".local" ->
  JS.boundary_after rest = true ->
  Utils.isInternal url = true.
Proof.
  intros Hu Hh Hw Hb. unfold Utils.isInternal. rewrite Hu, Hh.
  destruct Hw as [[Hin Hl] | ->].
  - assert (T : JS.test_word w (pre +:+ w +:+ rest) = true).
    { unfold JS.test_word. apply find_bounded_at; [| exact Hb].
      unfold leftBoundary in Hl. exact Hl. }
    destruct Hin as [<- | [<- | [<- | []]]]; rewrite T;
      rewrite ?orb_true_r; reflexivity.
  - unfold JS.test_suffix_word. rewrite find_bounded_at by easy.
    now rewrite !orb_true_r.
Qed.

End Internal.

Lemma isInternal_label_witness :
  @Utils.isInternal Example.browser "https://wiki.my-corp.example.com/" = true.
Proof.
  apply (@isInternal_label Example.browser "https://wiki.my-corp.example.com/"
           {| protocol := "https:"; hostname := "wiki.my-corp.example.com" |}
           "wiki.my-" "corp" ".example.com");
    [reflexivity | reflexivity | left; split; [now left | reflexivity] | reflexivity].
Defined.

(** ** Further instances *)

Lemma detectAiUiSignals_capped_witness :
  let present := fun sel : string => negb (String.eqb sel "[class*='gpt']") in
  In "[data-ai]" Content.AI_SELECTORS /\ present "[data-ai]" = true.
Proof.
  intros present.
  destruct (detectAiUiSignals_capped present) as (_ & _ & Hin).
  apply Hin. left. reflexivity.
Defined.

Lemma isHostInList_case_witness :
  @Engine.isHostInList Example.browser "Chat.Example.COM" ["example.com"]
  = @Engine.isHostInList Example.browser "chat.example.com" ["example.com"].
Proof.
  destruct (@isHostInList_case Example.browser ["example.com"]) as [Hc _].
  apply Hc. reflexivity.
Defined.

Lemma getActiveProfileSync_member_witness :
  let p := Example.profile "strict" [] [] None true (Some 70) 90 in
  Engine.getActiveProfileSync (Some (Example.rulesOf p None)) = Some p.
Proof.
  intros p.
  destruct (getActiveProfileSync_member (Example.rulesOf p None)) as (_ & Hf & _).
  apply Hf. reflexivity.
Defined.

Lemma ensureBoot_defaults_witness :
  let p := Example.profile "confirm" [] [] None false None 40 in
  let defaults := Example.rulesOf p None in
  let s := Example.engine None [] in
  let s' := Engine.ensureBoot (Some (defaults, ["openai.com"])) s in
  Engine.rulesCache s' = Some defaults
  /\ Engine.st_rules (Engine.storage s') = Some defaults.
Proof.
  intros p defaults s s'.
  destruct (ensureBoot_defaults (Some (defaults, ["openai.com"])) s)
    as (_ & _ & Hd & _).
  apply (Hd defaults ["openai.com"]); reflexivity.
Defined.
